(** * pyspex: the Level-1 product writer and the CCSDS-to-L1A driver

    A shallow embedding of [src/pyspex/lv1_io.py] (function [frac_poly],
    classes [Lv1io], [L1Aio], [L1Bio], [L1Cio]) and of the file loop of
    [scripts/spx1_ccsds2l1a.py], followed by the theorems that settle the
    properties stated for them; then of [src/pyspex/version.py], of
    [src/pyspex/ogse_grande.py] and of the header check and the selection
    of records of [scripts/spx1_add_egse2l1a.py], with further properties
    of the writer and of these modules.

    Conventions of the embedding.
    - A Python [dict] is an association list in insertion order ([dict]):
      the order of [dset_stored] decides the order of the warnings of
      [check_stored].
    - A method is a function in the monad [M]: it reads and updates the
      pair of the object ([Lv1io], holding [fid]) and of the process
      ([process]: the class attributes [dset_stored], the lines printed and
      the files that were closed), and it returns a value or raises an
      exception.  The state reached when an exception is raised is kept,
      as in Python.
    - The file of an open product is the value of [fid]; [disk] holds
      the files that were closed, under their names.  What the library
      has already written of a file that is still open is not told apart
      from what it holds in memory, and two products open on one file are
      not modelled.
    - A float64 is a real number or a non-finite value ([float64]):
      rounding is not modelled, division by zero and the logarithm of a
      non-positive number are.
    - The netCDF4 library (as of its version 1.5.7), [numpy], [pathlib]
      and [datetime] are modelled as far as the code uses them.  A write
      to the whole of a variable of fixed dimensions checks the shape of
      the value as the library does; for a write along an unlimited
      dimension the conformance of the trailing axes of an array to the
      variable is not modelled.  The element type of a variable is not
      modelled: a value is stored as it is given.
    - Text is a [string] of characters of one byte; [int] of a text and
      the ASCII encoding of [np.string_] are modelled on it. *)

From Stdlib Require Import List String Ascii Bool ZArith Lia.
From Stdlib Require Import Reals Lra Zfloor.
From Stdlib Require Import DecimalString.
From Stdlib Require Import Permutation Sorted.
Import ListNotations.

Local Open Scope string_scope.
Local Open Scope Z_scope.

(** ** Python dictionaries *)

Module Dict.

Definition dict (V : Type) : Type := list (string * V).

Fixpoint get {V} (d : dict V) (k : string) : option V :=
  match d with
  | [] => None
  | (k', v) :: d' => if String.eqb k' k then Some v else get d' k
  end.

(** [d[k] = v]: an existing key keeps its place, a new key goes last. *)
Fixpoint set {V} (d : dict V) (k : string) (v : V) : dict V :=
  match d with
  | [] => [(k, v)]
  | (k', v') :: d' =>
      if String.eqb k' k then (k', v) :: d' else (k', v') :: set d' k v
  end.

Definition mem {V} (d : dict V) (k : string) : bool :=
  match get d k with Some _ => true | None => false end.

Definition keys {V} (d : dict V) : list string := map fst d.

Definition values {V} (d : dict V) : list V := map snd d.

End Dict.

Import Dict.

(** ** Exceptions and the method monad *)

Inductive exception : Type :=
| KeyError
| IndexError
| TypeError
| AttributeError
| ValueError
| OverflowError
| FileNotFoundError
| OtherError (class_name : string).

Inductive result (A : Type) : Type :=
| Ok (a : A)
| Raise (e : exception).

Arguments Ok {A} a.
Arguments Raise {A} e.

Definition M (S A : Type) : Type := S -> result A * S.

Definition ret {S A} (a : A) : M S A := fun s => (Ok a, s).

Definition raise {S A} (e : exception) : M S A := fun s => (Raise e, s).

Definition bind {S A B} (m : M S A) (k : A -> M S B) : M S B :=
  fun s =>
    match m s with
    | (Ok a, s') => k a s'
    | (Raise e, s') => (Raise e, s')
    end.

Definition get_state {S} : M S S := fun s => (Ok s, s).

Definition put_state {S} (s : S) : M S unit := fun _ => (Ok tt, s).

(** A computation that cannot touch the state. *)
Definition lift {S A} (r : result A) : M S A := fun s => (r, s).

Declare Scope monad_scope.
Delimit Scope monad_scope with monad.
Notation "x <- m ;; k" := (bind m (fun x => k))
  (at level 61, m at next level, right associativity) : monad_scope.
Notation "m ;;; k" := (bind m (fun _ => k))
  (at level 61, right associativity) : monad_scope.
Local Open Scope monad_scope.

(** [for x in l: body x] *)
Fixpoint for_each {S A} (l : list A) (body : A -> M S unit) : M S unit :=
  match l with
  | [] => ret tt
  | x :: l' => body x ;;; for_each l' body
  end.

(** ** Numbers and arrays *)

(** A float64: a real number, an infinity or a NaN. *)
Inductive float64 : Type :=
| Finite (r : R)
| PInf
| NInf
| NaN.

Module Float.

Definition add (a b : float64) : float64 :=
  match a, b with
  | NaN, _ | _, NaN => NaN
  | Finite x, Finite y => Finite (x + y)%R
  | PInf, NInf | NInf, PInf => NaN
  | PInf, _ | _, PInf => PInf
  | NInf, _ | _, NInf => NInf
  end.

(** The product of an infinity ([PInf] when [pos]) and a finite [x]. *)
Definition scale_inf (pos : bool) (x : R) : float64 :=
  if Rlt_dec 0 x then (if pos then PInf else NInf)
  else if Rlt_dec x 0 then (if pos then NInf else PInf)
  else NaN.

Definition mul (a b : float64) : float64 :=
  match a, b with
  | NaN, _ | _, NaN => NaN
  | Finite x, Finite y => Finite (x * y)%R
  | Finite x, PInf | PInf, Finite x => scale_inf true x
  | Finite x, NInf | NInf, Finite x => scale_inf false x
  | PInf, PInf | NInf, NInf => PInf
  | PInf, NInf | NInf, PInf => NInf
  end.

(** [a / b]; a zero divisor is the positive zero, the only one an integer
    converts to. *)
Definition div (a b : float64) : float64 :=
  match a, b with
  | NaN, _ | _, NaN => NaN
  | Finite x, Finite y =>
      if Req_dec_T y 0 then
        (if Rlt_dec 0 x then PInf else if Rlt_dec x 0 then NInf else NaN)
      else Finite (x / y)%R
  | Finite _, (PInf | NInf) => Finite 0
  | PInf, Finite y => if Rlt_dec y 0 then NInf else PInf
  | NInf, Finite y => if Rlt_dec y 0 then PInf else NInf
  | (PInf | NInf), (PInf | NInf) => NaN
  end.

(** [a ** n] for a literal exponent [n]. *)
Definition pow (a : float64) (n : nat) : float64 :=
  match n with
  | O => Finite 1
  | _ =>
      match a with
      | Finite x => Finite (x ^ n)%R
      | PInf => PInf
      | NInf => if Nat.even n then PInf else NInf
      | NaN => NaN
      end
  end.

(** [np.log a] *)
Definition log (a : float64) : float64 :=
  match a with
  | Finite x =>
      if Rlt_dec 0 x then Finite (ln x)
      else if Req_dec_T x 0 then NInf else NaN
  | PInf => PInf
  | NInf | NaN => NaN
  end.

(** [x.astype(float)] of an integer. *)
Definition of_int (z : Z) : float64 := Finite (IZR z).

(** Truncation towards zero. *)
Definition trunc (r : R) : Z :=
  if Rlt_dec r 0 then (- Zfloor (- r))%Z else Zfloor r.

(** [int(a)] *)
Definition to_int (a : float64) : result Z :=
  match a with
  | Finite r => Ok (trunc r)
  | PInf | NInf => Raise OverflowError
  | NaN => Raise ValueError
  end.

(** [a % 1]: the fractional part, in [0, 1). *)
Definition mod1 (a : float64) : float64 :=
  match a with
  | Finite r => Finite (r - IZR (Zfloor r))%R
  | _ => NaN
  end.

(** Rounding to the nearest integer, ties to the even one. *)
Definition round_half_even (r : R) : Z :=
  let f := Zfloor r in
  let d := (r - IZR f)%R in
  if Rlt_dec d (1 / 2) then f
  else if Rlt_dec (1 / 2) d then (f + 1)%Z
  else if Z.even f then f else (f + 1)%Z.

(** [a <= b]: false as soon as one of the two is a NaN. *)
Definition leb (a b : float64) : bool :=
  match a, b with
  | NaN, _ | _, NaN => false
  | NInf, _ | _, PInf => true
  | Finite x, Finite y => if Rle_dec x y then true else false
  | Finite _, NInf | PInf, Finite _ | PInf, NInf => false
  end.

End Float.

(** A housekeeping record of the structured array [nomhk_data]: the
    three temperature sensors read by [fill_nomhk], and the other fields. *)
Record nomhk_record : Type := {
  TS1_DEM_N_T : Z;
  TS2_HOUSING_N_T : Z;
  TS3_RADIATOR_N_T : Z;
  other_fields : list Z
}.

Inductive scalar : Type :=
| SInt (z : Z)
| SFloat (x : float64)
| SRecord (r : nomhk_record).

(** A numpy array: [Scalar] has shape [()], [Array rows] has shape
    [(length rows, ...)]. *)
#[warnings="-register-all"] Inductive ndarray : Type :=
| Scalar (s : scalar)
| Array (rows : list ndarray).

(** [1 if value.shape == () else value.shape[0]] *)
Definition rows_of (value : ndarray) : Z :=
  match value with
  | Scalar _ => 1
  | Array rows => Z.of_nat (List.length rows)
  end.

(** [float(x)] of a zero-dimensional array. *)
Definition to_float (x : ndarray) : result float64 :=
  match x with
  | Scalar (SInt z) => Ok (Float.of_int z)
  | Scalar (SFloat f) => Ok f
  | Scalar (SRecord _) => Raise TypeError
  | Array [Scalar (SInt z)] => Ok (Float.of_int z)
  | Array [Scalar (SFloat f)] => Ok f
  | Array _ => Raise TypeError
  end.

(** ** Shapes of [numpy] arrays *)

Module Np.

(** [value.shape]: the rows of an array have the shape of the first. *)
Fixpoint shape (value : ndarray) : list Z :=
  match value with
  | Scalar _ => []
  | Array rows =>
      Z.of_nat (List.length rows)
      :: match rows with
         | [] => []
         | row :: _ => shape row
         end
  end.

(** [value] is an array of shape [extents]: every row has the shape of
    the others. *)
Fixpoint has_shape (extents : list Z) (value : ndarray) : Prop :=
  match extents, value with
  | [], Scalar _ => True
  | n :: rest, Array rows =>
      Z.of_nat (List.length rows) = n /\ Forall (has_shape rest) rows
  | _, _ => False
  end.

(** [value.ndim] *)
Definition ndim (value : ndarray) : nat := List.length (shape value).

(** The number of elements of an array of shape [extents]. *)
Definition prod (extents : list Z) : Z := fold_right Z.mul 1 extents.

(** [value.size] *)
Definition size (value : ndarray) : Z := prod (shape value).

(** [value.ravel()] *)
Fixpoint ravel (value : ndarray) : list scalar :=
  match value with
  | Scalar s => [s]
  | Array rows => flat_map ravel rows
  end.

(** [numpy.tile(s, extents)] of a scalar [s] *)
Fixpoint tile (s : scalar) (extents : list Z) : ndarray :=
  match extents with
  | [] => Scalar s
  | n :: rest => Array (repeat (tile s rest) (Z.to_nat n))
  end.

(** [l] cut in [n] pieces of [k] elements. *)
Fixpoint chunks {A} (n k : nat) (l : list A) : list (list A) :=
  match n with
  | O => []
  | S n' => firstn k l :: chunks n' k (skipn k l)
  end.

(** The array of shape [extents] that holds [elements] in their order:
    [data.shape = extents] when the number of elements allows it. *)
Fixpoint reshape (extents : list Z) (elements : list scalar) : ndarray :=
  match extents with
  | [] =>
      match elements with
      | s :: _ => Scalar s
      | [] => Array []
      end
  | n :: rest =>
      Array (map (reshape rest)
               (chunks (Z.to_nat n) (Z.to_nat (prod rest)) elements))
  end.

Fixpoint all_some {A} (l : list (option A)) : option (list A) :=
  match l with
  | [] => Some []
  | None :: _ => None
  | Some a :: rest => option_map (cons a) (all_some rest)
  end.

(** [numpy.broadcast_to(value, extents)]: the axes are matched from the
    last one, an axis of one entry is repeated, a missing axis is
    added in front; [None] when numpy raises [ValueError]. *)
Fixpoint broadcast_to (extents : list Z) (value : ndarray) : option ndarray :=
  match extents with
  | [] =>
      match value with
      | Scalar _ => Some value
      | Array _ => None
      end
  | n :: rest =>
      if (ndim value <? List.length extents)%nat
      then option_map (fun row => Array (repeat row (Z.to_nat n)))
             (broadcast_to rest value)
      else
        match value with
        | Scalar _ => None
        | Array rows =>
            match all_some (map (broadcast_to rest) rows) with
            | Some rows' =>
                if Z.of_nat (List.length rows) =? n then Some (Array rows')
                else match rows' with
                     | [row] => Some (Array (repeat row (Z.to_nat n)))
                     | _ => None
                     end
            | None => None
            end
        end
  end.

End Np.

(** ** [pathlib.PurePosixPath] and [Path.suffix] *)

Module Posix.

Definition slash : ascii := "/"%char.

(** [s.split(c)] *)
Fixpoint split (c : ascii) (s : string) : list string :=
  match s with
  | EmptyString => [EmptyString]
  | String a rest =>
      if Ascii.eqb a c then EmptyString :: split c rest
      else match split c rest with
           | h :: t => String a h :: t
           | [] => [String a EmptyString]
           end
  end.

Fixpoint join (parts : list string) : string :=
  match parts with
  | [] => ""
  | [p] => p
  | p :: rest => p ++ "/" ++ join rest
  end.

(** A parsed path: whether it starts at the root, and its components
    (empty components and [.] are dropped when a path is parsed; a root
    of two slashes is not told from a root of one). *)
Record path : Type := { anchored : bool; parts : list string }.

Definition is_part (p : string) : bool :=
  negb (String.eqb p "") && negb (String.eqb p ".").

Definition parse (s : string) : path :=
  {| anchored := match s with
                 | String a _ => Ascii.eqb a slash
                 | EmptyString => false
                 end;
     parts := filter is_part (split slash s) |}.

(** [str(p)] *)
Definition str (p : path) : string :=
  if anchored p then "/" ++ join (parts p)
  else match parts p with
       | [] => "."
       | _ => join (parts p)
       end.

(** [p.parent] *)
Definition parent (p : path) : path :=
  {| anchored := anchored p; parts := removelast (parts p) |}.

(** [p.name] *)
Definition name (p : path) : string := last (parts p) "".

(** Position of the last occurrence of [c] in [s], if any. *)
Fixpoint rfind (c : ascii) (s : string) : option nat :=
  match s with
  | EmptyString => None
  | String a rest =>
      match rfind c rest with
      | Some i => Some (S i)
      | None => if Ascii.eqb a c then Some O else None
      end
  end.

(** [p.suffix]: the last dot of the name and what follows it, unless the
    dot is the first or the last character of the name. *)
Definition suffix (p : path) : string :=
  let n := name p in
  match rfind "."%char n with
  | Some i =>
      if (Nat.ltb 0 i && Nat.ltb i (String.length n - 1))%bool
      then substring i (String.length n - i) n
      else ""
  | None => ""
  end.

(** [p.stem]: the name without its suffix. *)
Definition stem (p : path) : string :=
  let n := name p in
  match rfind "."%char n with
  | Some i =>
      if (Nat.ltb 0 i && Nat.ltb i (String.length n - 1))%bool
      then substring 0 i n
      else n
  | None => n
  end.

End Posix.

(** ** Python strings: [str.strip] and [int(str)] *)

Module PyStr.

(** [str.isspace] for a character of ASCII text. *)
Definition is_space (a : ascii) : bool :=
  let n := nat_of_ascii a in
  ((9 <=? n) && (n <=? 13) || (28 <=? n) && (n <=? 32))%nat.

Fixpoint lstrip (s : string) : string :=
  match s with
  | EmptyString => EmptyString
  | String a rest => if is_space a then lstrip rest else s
  end.

(** [s.rstrip()] *)
Fixpoint rstrip_space (s : string) : string :=
  match s with
  | EmptyString => EmptyString
  | String a rest =>
      match rstrip_space rest with
      | EmptyString => if is_space a then EmptyString else String a EmptyString
      | kept => String a kept
      end
  end.

(** [s.strip()] *)
Definition strip (s : string) : string := rstrip_space (lstrip s).

(** No character of [s] lies outside ASCII: [s.encode('ascii')] returns. *)
Definition is_ascii (s : string) : bool :=
  forallb (fun a => (nat_of_ascii a <? 128)%nat) (list_ascii_of_string s).


(** The value of a decimal digit. *)
Definition digit (a : ascii) : option Z :=
  let n := nat_of_ascii a in
  if ((48 <=? n) && (n <=? 57))%nat then Some (Z.of_nat (n - 48)) else None.

(** The digits of a numeral, with single underscores between digits;
    [after_digit] tells whether the last character read was a digit. *)
Fixpoint digits (s : string) (acc : Z) (after_digit : bool) : option Z :=
  match s with
  | EmptyString => if after_digit then Some acc else None
  | String a rest =>
      match digit a with
      | Some d => digits rest (10 * acc + d) true
      | None =>
          if (Ascii.eqb a "_" && after_digit)%bool then digits rest acc false
          else None
      end
  end.

(** [int(s)] for ASCII text: blanks around the numeral, a sign, decimal
    digits; the value, or [None] where Python raises [ValueError]. *)
Definition int (s : string) : option Z :=
  match strip s with
  | String "+" rest => digits rest 0 false
  | String "-" rest => option_map Z.opp (digits rest 0 false)
  | numeral => digits numeral 0 false
  end.

End PyStr.

(** ** [datetime] and [timedelta] *)

Module Datetime.

Definition string_of_Z (z : Z) : string := NilZero.string_of_int (Z.to_int z).

(** [z] in decimal, padded with zeros to [width] digits. *)
Definition zero_pad (width : nat) (z : Z) : string :=
  let d := string_of_Z z in
  string_of_list_ascii (repeat "0"%char (width - String.length d)) ++ d.

Definition is_leap (year : Z) : bool :=
  (year mod 4 =? 0) && (negb (year mod 100 =? 0) || (year mod 400 =? 0)).

Definition days_before_year (year : Z) : Z :=
  let y := year - 1 in
  y * 365 + y / 4 - y / 100 + y / 400.

Definition days_in_month (year month : Z) : Z :=
  if (month =? 2) && is_leap year then 29
  else nth (Z.to_nat month) [0; 31; 28; 31; 30; 31; 30; 31; 31; 30; 31; 30; 31] 0.

Definition days_before_month (year month : Z) : Z :=
  nth (Z.to_nat month) [0; 0; 31; 59; 90; 120; 151; 181; 212; 243; 273; 304; 334] 0
  + (if (2 <? month) && is_leap year then 1 else 0).

Definition ymd2ord (year month day : Z) : Z :=
  days_before_year year + days_before_month year month + day.

(** The date of a day number (day 1 is 0001-01-01). *)
Definition ord2ymd (ordinal : Z) : Z * Z * Z :=
  let n := ordinal - 1 in
  let n400 := n / 146097 in
  let n := n mod 146097 in
  let n100 := n / 36524 in
  let n := n mod 36524 in
  let n4 := n / 1461 in
  let n := n mod 1461 in
  let n1 := n / 365 in
  let n := n mod 365 in
  let year := n400 * 400 + 1 + n100 * 100 + n4 * 4 + n1 in
  if (n1 =? 4) || (n100 =? 4) then (year - 1, 12, 31)
  else
    let leapyear := (n1 =? 3) && (negb (n4 =? 24) || (n100 =? 3)) in
    let month := Z.shiftr (n + 50) 5 in
    let preceding :=
      days_before_month 1 month + (if (2 <? month) && leapyear then 1 else 0) in
    if n <? preceding then
      let month' := month - 1 in
      let preceding' :=
        preceding - (days_in_month 1 month'
                     + (if (month' =? 2) && leapyear then 1 else 0)) in
      (year, month', n - preceding' + 1)
    else (year, month, n - preceding + 1).

Definition max_ordinal : Z := 3652059.

Definition us_per_day : Z := 86400000000.

(** A [datetime]: the day number, the microsecond of the day, and whether
    [tzinfo] is [timezone.utc] (otherwise the value is naive). *)
Record datetime : Type := { ordinal : Z; micros : Z; utc : bool }.

(** [datetime(year, month, day, tzinfo=...)] *)
Definition make (year month day : Z) (tz : bool) : result datetime :=
  if (1 <=? year) && (year <=? 9999) && (1 <=? month) && (month <=? 12)
     && (1 <=? day) && (day <=? days_in_month year month)
  then Ok {| ordinal := ymd2ord year month day; micros := 0; utc := tz |}
  else Raise ValueError.

(** A [timedelta], in microseconds. *)
Record timedelta : Type := { total_us : Z }.

Definition max_delta_days : Z := 999999999.

Definition normalize (us : Z) : result timedelta :=
  if Z.abs (us / us_per_day) <=? max_delta_days
  then Ok {| total_us := us |}
  else Raise OverflowError.

(** [timedelta(seconds=x)] for a float [x]: rounded to the microsecond. *)
Definition of_seconds (x : float64) : result timedelta :=
  match x with
  | Finite r => normalize (Float.round_half_even (r * 1000000)%R)
  | PInf | NInf => Raise OverflowError
  | NaN => Raise ValueError
  end.

(** [timedelta(seconds=n)] for an integer [n]. *)
Definition of_int_seconds (n : Z) : result timedelta :=
  normalize (n * 1000000).

(** [timedelta(microseconds=n)] for an integer [n]. *)
Definition of_int_microseconds (n : Z) : result timedelta := normalize n.

(** [dt + td] *)
Definition add (dt : datetime) (td : timedelta) : result datetime :=
  let total := micros dt + total_us td in
  let day := ordinal dt + total / us_per_day in
  if (1 <=? day) && (day <=? max_ordinal)
  then Ok {| ordinal := day; micros := total mod us_per_day; utc := utc dt |}
  else Raise OverflowError.

(** [dt.isoformat(timespec='milliseconds')] *)
Definition isoformat_milliseconds (dt : datetime) : string :=
  let '(y, m, d) := ord2ymd (ordinal dt) in
  let us := micros dt in
  let hh := us / 3600000000 in
  let mm := (us / 60000000) mod 60 in
  let ss := (us / 1000000) mod 60 in
  let ms := (us mod 1000000) / 1000 in
  zero_pad 4 y ++ "-" ++ zero_pad 2 m ++ "-" ++ zero_pad 2 d ++ "T"
  ++ zero_pad 2 hh ++ ":" ++ zero_pad 2 mm ++ ":" ++ zero_pad 2 ss
  ++ "." ++ zero_pad 3 ms
  ++ (if utc dt then "+00:00" else "").

End Datetime.

(** ** The netCDF4 library, as far as the writer uses it *)

Module NetCDF.

Inductive attr : Type :=
| AStr (s : string)
| ABytes (s : string)
| AInt (z : Z)
| AFloat (x : float64)
| AList (l : list string).

Record Dimension : Type := { size : Z; isunlimited : bool }.

(** A variable: the names of its dimensions, the entries written along
    the first one, the value read where nothing was written, and its
    attributes. *)
Record NcVariable : Type := {
  dims : list string;
  data : list ndarray;
  fill_value : ndarray;
  var_attrs : dict attr
}.

(** A file: groups and variables are kept under their absolute path. *)
Record Dataset : Type := {
  dimensions : dict Dimension;
  groups : dict (dict attr);
  variables : dict NcVariable;
  ncattrs : dict attr
}.

Inductive node : Type :=
| NGroup (path : string)
| NVariable (path : string) (v : NcVariable).

Definition abspath (comps : list string) : string := "/" ++ Posix.join comps.

(** The nested groups of a path are looked up one after the other. *)
Fixpoint nested_groups (ds : Dataset) (seen rest : list string) : result unit :=
  match rest with
  | [] => Ok tt
  | g :: rest' =>
      if mem (groups ds) (abspath (seen ++ [g]))
      then nested_groups ds (seen ++ [g]) rest'
      else Raise KeyError
  end.

(** [ds[elem]]: the group or the variable at a path.  The library
    normalises the path first; here empty components and [.] are
    dropped, and [..] is taken as a name and not resolved, so a path
    that holds [..] is outside of what is modelled. *)
Definition getitem (ds : Dataset) (elem : string) : result node :=
  let comps := Posix.parts (Posix.parse elem) in
  match comps with
  | [] => Raise IndexError
  | _ =>
      match nested_groups ds [] (removelast comps) with
      | Raise e => Raise e
      | Ok _ =>
          let full := abspath comps in
          if mem (groups ds) full then Ok (NGroup full)
          else match get (variables ds) full with
               | Some v => Ok (NVariable full v)
               | None => Raise IndexError
               end
      end
  end.

(** A name without a slash. *)
Fixpoint no_slash (s : string) : bool :=
  match s with
  | EmptyString => true
  | String a rest => negb (Ascii.eqb a Posix.slash) && no_slash rest
  end.

(** [name in ds.groups], [name in ds.variables]: the dictionaries of the
    root hold its children under their bare names. *)
Definition root_child {V} (d : dict V) (name : string) : bool :=
  no_slash name && negb (String.eqb name "") && mem d ("/" ++ name).

(** [name in grp.variables] for the group at [grp_path]. *)
Definition has_variable (ds : Dataset) (grp_path name : string) : bool :=
  mem (variables ds) (grp_path ++ "/" ++ name).

(** [name in ds.variables] *)
Definition has_root_variable (ds : Dataset) (name : string) : bool :=
  mem (variables ds) ("/" ++ name).

(** [var.get_dims()] *)
Fixpoint get_dims (ds : Dataset) (names : list string) : result (list Dimension) :=
  match names with
  | [] => Ok []
  | n :: names' =>
      match get (dimensions ds) n, get_dims ds names' with
      | Some d, Ok ds' => Ok (d :: ds')
      | None, _ => Raise KeyError
      | _, Raise e => Raise e
      end
  end.

(** [var.shape[0]] *)
Definition shape0 (ds : Dataset) (v : NcVariable) : result Z :=
  match dims v with
  | [] => Raise IndexError
  | d :: _ =>
      match get (dimensions ds) d with
      | Some dim => Ok (size dim)
      | None => Raise KeyError
      end
  end.

(** [var[i]] for an integer [i], negative from the end; an entry never
    written reads as the fill value. *)
Definition getrow (ds : Dataset) (v : NcVariable) (i : Z) : result ndarray :=
  match shape0 ds v with
  | Raise e => Raise e
  | Ok n =>
      let idx := if i <? 0 then n + i else i in
      if (0 <=? idx) && (idx <? n)
      then Ok (nth (Z.to_nat idx) (data v) (fill_value v))
      else Raise IndexError
  end.

(** [var[:]]: every entry along the first dimension, the fill value
    where nothing was written; for a variable without dimensions, its
    value. *)
Definition getall (ds : Dataset) (v : NcVariable) : result ndarray :=
  match dims v with
  | [] => Ok (nth 0 (data v) (fill_value v))
  | d :: _ =>
      match get (dimensions ds) d with
      | Some dim =>
          let n := Z.to_nat (size dim) in
          Ok (Array (firstn n (data v
                               ++ repeat (fill_value v) (n - List.length (data v)))))
      | None => Raise KeyError
      end
  end.

(** A file that was just created. *)
Definition empty : Dataset :=
  {| dimensions := []; groups := []; variables := []; ncattrs := [] |}.

Definition with_data (v : NcVariable) (rows : list ndarray) : NcVariable :=
  {| dims := dims v; data := rows;
     fill_value := fill_value v; var_attrs := var_attrs v |}.

Definition with_variable (ds : Dataset) (path : string) (v : NcVariable) : Dataset :=
  {| dimensions := dimensions ds; groups := groups ds;
     variables := set (variables ds) path v; ncattrs := ncattrs ds |}.

Definition with_dimension (ds : Dataset) (name : string) (d : Dimension) : Dataset :=
  {| dimensions := set (dimensions ds) name d; groups := groups ds;
     variables := variables ds; ncattrs := ncattrs ds |}.

(** [x.getncattr(name)] on the attributes [attrs] of [x]: an attribute
    that was set to a list of one element is read as that element. *)
Definition getncattr (attrs : dict attr) (name : string) : result attr :=
  match get attrs name with
  | Some (AList [s]) => Ok (AStr s)
  | Some a => Ok a
  | None => Raise AttributeError
  end.

(** [ds.setncattr(name, value)] *)
Definition setncattr (ds : Dataset) (name : string) (value : attr) : Dataset :=
  {| dimensions := dimensions ds; groups := groups ds;
     variables := variables ds; ncattrs := set (ncattrs ds) name value |}.

(** The shape that a write to the whole of a variable of dimensions
    [ds_dims] has to fill: a variable without dimensions holds one
    element. *)
Definition datashape (ds_dims : list Dimension) : list Z :=
  match ds_dims with
  | [] => [1]
  | _ => map size ds_dims
  end.

(** The data that [var[...] = value] hands to the library for a variable
    of shape [extents]: a scalar is tiled; an array of another number
    of axes, or of several axes and another shape, is reshaped when it
    has the right number of elements and broadcast otherwise, with
    numpy's [ValueError] when it cannot be; an array of one axis goes
    on as it is. *)
Definition conformed (extents : list Z) (value : ndarray) : result ndarray :=
  match value with
  | Scalar s => Ok (Np.tile s extents)
  | Array _ =>
      if negb (Np.ndim value =? List.length extents)%nat
         || (negb (if list_eq_dec Z.eq_dec (Np.shape value) extents
                   then true else false)
             && (1 <? Np.ndim value)%nat)
      then
        if Np.size value =? Np.prod extents
        then Ok (Np.reshape extents (Np.ravel value))
        else match Np.broadcast_to extents value with
             | Some data => Ok data
             | None => Raise ValueError
             end
      else Ok value
  end.

(** [var[...] = value] for the variable [v] whose dimensions are
    [ds_dims], all of them taken as fixed: the whole variable is
    overwritten.  Nothing is written when the data is empty, and the
    library raises [IndexError] when the data has not as many elements
    as the variable (netCDF4 since 1.5.7; before, an array of one axis
    was broadcast like the others). *)
Definition assign_all (ds : Dataset) (path : string) (v : NcVariable)
    (ds_dims : list Dimension) (value : ndarray) : result Dataset :=
  match conformed (datashape ds_dims) value with
  | Raise e => Raise e
  | Ok data =>
      if Np.size data =? 0 then Ok ds
      else if Np.size data =? Np.prod (datashape ds_dims)
      then Ok (with_variable ds path
                 (with_data v match data with
                              | Array rows => rows
                              | Scalar _ => [data]
                              end))
      else Raise IndexError
  end.

(** The entries [rows] stored from index [ibgn] on. *)
Definition place (v : NcVariable) (ibgn : nat) (rows : list ndarray) : list ndarray :=
  firstn ibgn (data v ++ repeat (fill_value v) (ibgn - List.length (data v)))
  ++ rows ++ skipn (ibgn + List.length rows) (data v).

(** [var[ibgn:, ...] = value] along the unlimited dimension [dname]: an
    array is stored from [ibgn] on and the dimension grows to hold it; a
    scalar fills the entries from [ibgn] to the present end, and one
    entry when the dimension is still empty. *)
Definition assign_from (ds : Dataset) (path : string) (v : NcVariable)
    (dname : string) (dim : Dimension) (ibgn : Z) (value : ndarray) : Dataset :=
  let n := size dim in
  let rows :=
    match value with
    | Array rows => rows
    | Scalar s => repeat (Scalar s) (Z.to_nat ((if n =? 0 then 1 else n) - ibgn))
    end in
  match rows with
  | [] => ds
  | _ =>
      with_dimension
        (with_variable ds path (with_data v (place v (Z.to_nat ibgn) rows)))
        dname
        {| size := Z.max n (ibgn + Z.of_nat (List.length rows));
           isunlimited := isunlimited dim |}
  end.

(** [int(a)] of an attribute value as it is read: a text is parsed, a
    list of one element is read as that element, a longer list is
    refused. *)
Definition attr_to_int (a : attr) : result Z :=
  let of_text s :=
    match PyStr.int s with
    | Some z => Ok z
    | None => Raise ValueError
    end in
  match a with
  | AInt z => Ok z
  | AFloat x => Float.to_int x
  | AStr s | ABytes s => of_text s
  | AList [s] => of_text s
  | AList _ => Raise TypeError
  end.

End NetCDF.

(** ** [frac_poly] *)

Definition coefficients : Type := (R * R * R * R * R)%type.

(** The coefficients [r0, r1, r2, r3, r4] used when [coefs] is [None]. *)
Definition default_coefs : coefficients :=
  (273.15 + 21.19, 6.97828e+7, -3.53275e-25, 7.79625e-31, -4.6505e-32)%R.

(** The fractional polynomial at one element of [xdata]. *)
Definition frac_poly_at (coefs : coefficients) (xdata : float64) : float64 :=
  let '(c0, c1, c2, c3, c4) := coefs in
  Float.add
    (Float.add
       (Float.add (Finite c0) (Float.div (Finite c1) xdata))
       (Float.mul (Finite c2) (Float.pow xdata 4)))
    (Float.mul
       (Float.add (Finite c3) (Float.mul (Finite c4) (Float.log xdata)))
       (Float.pow xdata 5)).

(** [frac_poly(xx_in, coefs=None)] on an array of integer counts. *)
Definition frac_poly (xx_in : list Z) (coefs : option coefficients) : list float64 :=
  let xdata := map Float.of_int xx_in in
  let coefs :=
    match coefs with
    | None => default_coefs
    | Some c => c
    end in
  map (frac_poly_at coefs) xdata.

(** ** Class [Lv1io] *)

Inductive level : Type := Unknown | L1A | L1B | L1C.

Module Lv1io.

(** An instance: [processing_level] stands for its class. *)
Record t : Type := {
  processing_level : level;
  product : string;
  fid : option NetCDF.Dataset;
  epoch : Datetime.datetime
}.

(** What the instances of one process share: the class attribute
    [dset_stored] of each class (one dictionary per class, reached from
    every instance as [self.dset_stored]), the lines printed, and the files
    that were closed, each as it was when it was closed.  The file of a
    product that is open is not in [disk] but in [fid]. *)
Record process : Type := {
  Lv1io_dset_stored : dict Z;
  L1Aio_dset_stored : dict Z;
  L1Bio_dset_stored : dict Z;
  L1Cio_dset_stored : dict Z;
  stdout : list string;
  disk : dict NetCDF.Dataset
}.

Definition heap : Type := (t * process)%type.

(** [self.dset_stored] *)
Definition dset_stored (lv : level) (p : process) : dict Z :=
  match lv with
  | Unknown => Lv1io_dset_stored p
  | L1A => L1Aio_dset_stored p
  | L1B => L1Bio_dset_stored p
  | L1C => L1Cio_dset_stored p
  end.

Definition with_dset_stored (lv : level) (p : process) (d : dict Z) : process :=
  {| Lv1io_dset_stored := match lv with Unknown => d | _ => Lv1io_dset_stored p end;
     L1Aio_dset_stored := match lv with L1A => d | _ => L1Aio_dset_stored p end;
     L1Bio_dset_stored := match lv with L1B => d | _ => L1Bio_dset_stored p end;
     L1Cio_dset_stored := match lv with L1C => d | _ => L1Cio_dset_stored p end;
     stdout := stdout p;
     disk := disk p |}.

Definition with_fid (self : t) (f : option NetCDF.Dataset) : t :=
  {| processing_level := processing_level self; product := product self;
     fid := f; epoch := epoch self |}.

(** [self.dset_stored[key]] *)
Definition stored_getitem (key : string) : M heap Z :=
  fun h =>
    match get (dset_stored (processing_level (fst h)) (snd h)) key with
    | Some n => (Ok n, h)
    | None => (Raise KeyError, h)
    end.

(** [self.dset_stored[key] = n] *)
Definition stored_setitem (key : string) (n : Z) : M heap unit :=
  fun h =>
    let lv := processing_level (fst h) in
    (Ok tt, (fst h, with_dset_stored lv (snd h) (set (dset_stored lv (snd h)) key n))).

(** [self.fid[elem]] *)
Definition fid_getitem (elem : string) : M heap NetCDF.node :=
  fun h =>
    match fid (fst h) with
    | None => (Raise TypeError, h)
    | Some ds => (NetCDF.getitem ds elem, h)
    end.

(** [self.fid.<member>] *)
Definition fid_member : M heap NetCDF.Dataset :=
  fun h =>
    match fid (fst h) with
    | None => (Raise AttributeError, h)
    | Some ds => (Ok ds, h)
    end.

Definition put_fid (f : option NetCDF.Dataset) : M heap unit :=
  fun h => (Ok tt, (with_fid (fst h) f, snd h)).

(** [print(line)] *)
Definition print (line : string) : M heap unit :=
  fun h =>
    (Ok tt,
     (fst h,
      {| Lv1io_dset_stored := Lv1io_dset_stored (snd h);
         L1Aio_dset_stored := L1Aio_dset_stored (snd h);
         L1Bio_dset_stored := L1Bio_dset_stored (snd h);
         L1Cio_dset_stored := L1Cio_dset_stored (snd h);
         stdout := stdout (snd h) ++ [line];
         disk := disk (snd h) |})).

(** [self.fid.close()]: the file is among the closed files from now on,
    under the product name. *)
Definition fid_close : M heap unit :=
  ds <- fid_member ;;
  fun h =>
    (Ok tt,
     (fst h,
      {| Lv1io_dset_stored := Lv1io_dset_stored (snd h);
         L1Aio_dset_stored := L1Aio_dset_stored (snd h);
         L1Bio_dset_stored := L1Bio_dset_stored (snd h);
         L1Cio_dset_stored := L1Cio_dset_stored (snd h);
         stdout := stdout (snd h);
         disk := set (disk (snd h)) (product (fst h)) ds |})).

Section Init.

(** [init_l1a], [init_l1b] and [init_l1c] of [pyspex.lib] create the file
    of a new product from the reference date and the dimension sizes
    ([None] for an unlimited dimension). *)
Variable init_l1 : level -> string -> Datetime.datetime -> dict (option Z)
                   -> NetCDF.Dataset.

(** [for key in self.dset_stored: self.dset_stored[key] = self.fid[key].shape[0]] *)
Definition load_stored (key : string) : M heap unit :=
  nd <- fid_getitem key ;;
  ds <- fid_member ;;
  match nd with
  | NetCDF.NGroup _ => raise AttributeError
  | NetCDF.NVariable _ v =>
      n <- lift (NetCDF.shape0 ds v) ;;
      stored_setitem key n
  end.

(** [Dataset(self.product, "r+")]: the file of that name, and a new file
    without content when there is none; the library does not fail on a
    missing file in this mode. *)
Definition open_to_append (p : process) (product : string) : NetCDF.Dataset :=
  match get (disk p) product with
  | Some ds => ds
  | None => NetCDF.empty
  end.

(** [__init__(self, product, ref_date, dims, append=False)] of the class
    of level [cls]. *)
Definition init (cls : level) (product : string) (ref_date : Datetime.datetime)
    (dims : dict (option Z)) (append : bool) : process -> result t * process :=
  fun p =>
    let self := {| processing_level := cls; product := product;
                   fid := None; epoch := ref_date |} in
    if negb append then
      match cls with
      | Unknown => (Raise KeyError, p)
      | _ => (Ok (with_fid self (Some (init_l1 cls product ref_date dims))), p)
      end
    else
      match for_each (keys (dset_stored cls p)) load_stored
              (with_fid self (Some (open_to_append p product)), p) with
      | (Ok _, (self', p')) => (Ok self', p')
      | (Raise e, (_, p')) => (Raise e, p')
      end.

End Init.

(** [close(self)] of the base class *)
Definition close : M heap unit :=
  fun h =>
    match fid (fst h) with
    | None => (Ok tt, h)
    | Some _ => (fid_close ;;; put_fid None) h
    end.

(** [get_dim(self, name)] *)
Definition get_dim (name : string) : M heap Z :=
  ds <- fid_member ;;
  match get (NetCDF.dimensions ds) name with
  | Some d => ret (NetCDF.size d)
  | None => raise KeyError
  end.

(** Whether [np.string_(value)] returns for a text [value]: it encodes
    the text as ASCII and raises [UnicodeEncodeError] on any other
    character.  A value that is not a text does not go through it. *)
Definition encodable (value : NetCDF.attr) : bool :=
  match value with
  | NetCDF.AStr s => PyStr.is_ascii s
  | _ => true
  end.

(** The value stored for an attribute value: text goes through
    [np.string_]. *)
Definition stored_attr (value : NetCDF.attr) : NetCDF.attr :=
  match value with
  | NetCDF.AStr s => NetCDF.ABytes s
  | _ => value
  end.

(** [self.fid[ds_name].setncattr(name, value)] *)
Definition setncattr_at (ds_name name : string) (value : NetCDF.attr) : M heap unit :=
  nd <- fid_getitem ds_name ;;
  ds <- fid_member ;;
  match nd with
  | NetCDF.NGroup path =>
      let attrs := match get (NetCDF.groups ds) path with
                   | Some a => a
                   | None => []
                   end in
      put_fid (Some {| NetCDF.dimensions := NetCDF.dimensions ds;
                       NetCDF.groups := set (NetCDF.groups ds) path (set attrs name value);
                       NetCDF.variables := NetCDF.variables ds;
                       NetCDF.ncattrs := NetCDF.ncattrs ds |})
  | NetCDF.NVariable path v =>
      put_fid (Some (NetCDF.with_variable ds path
                       {| NetCDF.dims := NetCDF.dims v;
                          NetCDF.data := NetCDF.data v;
                          NetCDF.fill_value := NetCDF.fill_value v;
                          NetCDF.var_attrs := set (NetCDF.var_attrs v) name value |}))
  end.

(** [var_name in self.fid[grp_name].groups or var_name in self.fid[grp_name].variables],
    and the same at the root when [grp_name] is ['.'].  When [grp_name]
    names a variable, netCDF4 answers the member [groups] with a
    [KeyError]. *)
Definition target_present (grp_name var_name : string) : M heap bool :=
  if negb (String.eqb grp_name ".") then
    nd <- fid_getitem grp_name ;;
    ds <- fid_member ;;
    match nd with
    | NetCDF.NGroup g =>
        ret (mem (NetCDF.groups ds) (g ++ "/" ++ var_name)
             || NetCDF.has_variable ds g var_name)
    | NetCDF.NVariable _ _ => raise KeyError
    end
  else
    ds <- fid_member ;;
    ret (mem (NetCDF.groups ds) ("/" ++ var_name)
         || NetCDF.has_root_variable ds var_name).

(** [set_attr(self, name, value, ds_name=None)]: the file, or the target
    in it, is looked up before [np.string_(value)] is evaluated. *)
Definition set_attr (name : string) (value : NetCDF.attr)
    (ds_name : option string) : M heap unit :=
  match ds_name with
  | None =>
      ds <- fid_member ;;
      if encodable value
      then put_fid (Some (NetCDF.setncattr ds name (stored_attr value)))
      else raise (OtherError "UnicodeEncodeError")
  | Some ds_name =>
      let grp_name := Posix.str (Posix.parent (Posix.parse ds_name)) in
      let var_name := Posix.name (Posix.parse ds_name) in
      present <- target_present grp_name var_name ;;
      if negb present then raise KeyError
      else if encodable value
           then setncattr_at ds_name name (stored_attr value)
           else (fid_getitem ds_name ;;; raise (OtherError "UnicodeEncodeError"))
  end.

(** [res.decode('ascii') if isinstance(res, bytes) else res] *)
Definition decoded (res : NetCDF.attr) : NetCDF.attr :=
  match res with
  | NetCDF.ABytes s => NetCDF.AStr s
  | _ => res
  end.

(** [get_attr(self, name, ds_name=None)]; the result [None] stands for
    Python's [None]. *)
Definition get_attr (name : string) (ds_name : option string)
    : M heap (option NetCDF.attr) :=
  match ds_name with
  | None =>
      ds <- fid_member ;;
      res <- lift (NetCDF.getncattr (NetCDF.ncattrs ds) name) ;;
      ret (Some (decoded res))
  | Some ds_name =>
      ds <- fid_member ;;
      if negb (NetCDF.root_child (NetCDF.groups ds) ds_name)
         && negb (NetCDF.root_child (NetCDF.variables ds) ds_name)
      then ret None
      else
        nd <- fid_getitem ds_name ;;
        ds <- fid_member ;;
        res <- lift (NetCDF.getncattr
                       match nd with
                       | NetCDF.NGroup path =>
                           match get (NetCDF.groups ds) path with
                           | Some a => a
                           | None => []
                           end
                       | NetCDF.NVariable _ v => NetCDF.var_attrs v
                       end name) ;;
        ret (Some (decoded res))
  end.

Section GlobalAttrs.

(** [attrs_def(level, inflight)] of [pyspex.lib.attrs_def]: the global
    attributes of a product of that level, [None] for a value that is
    not known. *)
Variable attrs_def : level -> bool -> dict (option NetCDF.attr).

(** [self.fid.setncattr(key, value)] *)
Definition fid_setncattr (key : string) (value : NetCDF.attr) : M heap unit :=
  ds <- fid_member ;;
  put_fid (Some (NetCDF.setncattr ds key value)).

(** [dict_attrs] of [fill_global_attrs] when the loop starts. *)
Definition global_attrs (self : t) (orbit : Z) (bin_size : option string)
    (inflight : bool) : dict (option NetCDF.attr) :=
  let dict_attrs := attrs_def (processing_level self) inflight in
  let dict_attrs :=
    set dict_attrs "product_name"
      (Some (NetCDF.AStr (Posix.name (Posix.parse (product self))))) in
  let dict_attrs := set dict_attrs "orbit_number" (Some (NetCDF.AInt orbit)) in
  match bin_size with
  | Some size => set dict_attrs "bin_size_at_nadir" (Some (NetCDF.AStr size))
  | None => dict_attrs
  end.

(** [fill_global_attrs(self, orbit=-1, bin_size=None, inflight=False)] *)
Definition fill_global_attrs (orbit : Z) (bin_size : option string)
    (inflight : bool) : M heap unit :=
  h <- get_state ;;
  for_each (global_attrs (fst h) orbit bin_size inflight)
    (fun item =>
       match snd item with
       | Some value => fid_setncattr (fst item) value
       | None => ret tt
       end).

End GlobalAttrs.

(** [var_name in self.fid[grp_name].variables], and the same at the root
    when [grp_name] is ['.'].  When [grp_name] names a variable, netCDF4
    answers the member [variables] with a [KeyError]. *)
Definition variable_present (grp_name var_name : string) : M heap bool :=
  if negb (String.eqb grp_name ".") then
    nd <- fid_getitem grp_name ;;
    ds <- fid_member ;;
    match nd with
    | NetCDF.NGroup g => ret (NetCDF.has_variable ds g var_name)
    | NetCDF.NVariable _ _ => raise KeyError
    end
  else
    ds <- fid_member ;;
    ret (NetCDF.has_root_variable ds var_name).

(** [get_dset(self, name)] *)
Definition get_dset (name : string) : M heap ndarray :=
  let grp_name := Posix.str (Posix.parent (Posix.parse name)) in
  let var_name := Posix.name (Posix.parse name) in
  present <- variable_present grp_name var_name ;;
  if negb present then raise KeyError
  else
    nd <- fid_getitem name ;;
    ds <- fid_member ;;
    match nd with
    | NetCDF.NGroup _ => raise TypeError
    | NetCDF.NVariable _ v => lift (NetCDF.getall ds v)
    end.

(** The three ways [set_dset] stores [value] in the variable [name]. *)
Definition store (name : string) (value : ndarray) (ibgn : Z) : M heap unit :=
  nd <- fid_getitem name ;;
  ds <- fid_member ;;
  match nd with
  | NetCDF.NGroup _ => raise AttributeError
  | NetCDF.NVariable path v =>
      ds_dims <- lift (NetCDF.get_dims ds (NetCDF.dims v)) ;;
      match NetCDF.dims v, ds_dims with
      | dname :: _, dim :: _ =>
          if NetCDF.isunlimited dim then
            ibgn <- (if ibgn <? 0 then stored_getitem name else ret ibgn) ;;
            put_fid (Some (NetCDF.assign_from ds path v dname dim ibgn value))
          else
            ds' <- lift (NetCDF.assign_all ds path v ds_dims value) ;;
            put_fid (Some ds')
      | _, _ =>
          ds' <- lift (NetCDF.assign_all ds path v ds_dims value) ;;
          put_fid (Some ds')
      end
  end.

(** [set_dset(self, name, value, ibgn=-1)] *)
Definition set_dset (name : string) (value : ndarray) (ibgn : Z) : M heap unit :=
  let grp_name := Posix.str (Posix.parent (Posix.parse name)) in
  let var_name := Posix.name (Posix.parse name) in
  present <- variable_present grp_name var_name ;;
  if negb present then raise KeyError
  else
    store name value ibgn ;;;
    n <- stored_getitem name ;;
    stored_setitem name (n + rows_of value).

End Lv1io.

(** ** What the three product classes share in [check_stored] and [close] *)

Module Check.

Import Lv1io.

Definition dquote : string := String "034"%char "".

(** [warn_str.format(key, n)] for the level named [lv]. *)
Definition warn_str (lv key : string) (n : Z) : string :=
  "SPEX Level-" ++ lv ++ " format check [WARNING]: size of variable "
  ++ dquote ++ key ++ dquote ++ " is wrong, only "
  ++ Datetime.string_of_Z n ++ " elements".

(** [x.startswith(p)] *)
Definition startswith (x p : string) : bool := String.prefix p x.

(** [flags.nonzero()[0]]: the positions that hold [true]. *)
Fixpoint nonzero (flags : list bool) (pos : nat) : list nat :=
  match flags with
  | [] => []
  | b :: flags' => (if b then [pos] else []) ++ nonzero flags' (S pos)
  end.

(** [[self.dset_stored[key] for key in key_list]] *)
Fixpoint stored_values (key_list : list string) : M heap (list Z) :=
  match key_list with
  | [] => ret []
  | key :: rest =>
      n <- stored_getitem key ;;
      ns <- stored_values rest ;;
      ret (n :: ns)
  end.

(** [for ii in indx: print(warn_str.format(key_list[ii], res[ii]))] *)
Definition report (lv : string) (key_list : list string) (res : list Z)
    (indx : list nat) : M heap unit :=
  for_each indx
    (fun ii =>
       match nth_error key_list ii, nth_error res ii with
       | Some key, Some n => print (warn_str lv key n)
       | _, _ => raise IndexError
       end).

(** One block of [check_stored]: the keys chosen by [select] are
    [key_list]; the counters of those not passed over by [skip] are
    [res]; a warning is printed for each position of [res] that
    [wrong] flags against the size of the dimension [dim_name]. *)
Definition block (lv dim_name : string) (select skip : string -> bool)
    (wrong : Z -> Z -> bool) : M heap unit :=
  dim_sz <- get_dim dim_name ;;
  h <- get_state ;;
  let key_list :=
    filter select (keys (dset_stored (processing_level (fst h)) (snd h))) in
  res <- stored_values (filter (fun key => negb (skip key)) key_list) ;;
  report lv key_list res (nonzero (map (wrong dim_sz) res) O).

(** [(res > 0) & (res != dim_sz)] *)
Definition wrong_nonempty (dim_sz n : Z) : bool := (0 <? n) && negb (n =? dim_sz).

(** [res != dim_sz] *)
Definition wrong_any (dim_sz n : Z) : bool := negb (n =? dim_sz).

(** [for ii, key in enumerate(self.dset_stored): print(ii, key, self.dset_stored[key])] *)
Fixpoint dump (key_list : list string) (ii : Z) : M heap unit :=
  match key_list with
  | [] => ret tt
  | key :: rest =>
      n <- stored_getitem key ;;
      print (Datetime.string_of_Z ii ++ " " ++ key ++ " " ++ Datetime.string_of_Z n) ;;;
      dump rest (ii + 1)
  end.

(** [self.fid.<name> = text]: a global attribute. *)
Definition set_global (name text : string) : M heap unit :=
  ds <- fid_member ;;
  put_fid (Some (NetCDF.setncattr ds name (NetCDF.AStr text))).

(** [self.fid[name][i].data] *)
Definition entry (name : string) (i : Z) : M heap ndarray :=
  nd <- fid_getitem name ;;
  ds <- fid_member ;;
  match nd with
  | NetCDF.NGroup _ => raise TypeError
  | NetCDF.NVariable _ v => lift (NetCDF.getrow ds v i)
  end.

(** [self.fid.dimensions[name].size == 0] *)
Definition dimension_is_empty (name : string) : M heap bool :=
  n <- get_dim name ;;
  ret (n =? 0).

(** [self.fid.close(); self.fid = None] *)
Definition release : M heap unit := fid_close ;;; put_fid None.

(** [self.epoch + timedelta(seconds=int(secnd))
     + timedelta(microseconds=int(secnd % 1))] for the entry [i] of the
    time variable of a Level-1B or Level-1C product. *)
Definition coverage_time (time_var : string) (i : Z) : M heap Datetime.datetime :=
  secnd_data <- entry time_var i ;;
  h <- get_state ;;
  secnd <- lift (to_float secnd_data) ;;
  whole <- lift (Float.to_int secnd) ;;
  td_s <- lift (Datetime.of_int_seconds whole) ;;
  t <- lift (Datetime.add (epoch (fst h)) td_s) ;;
  part <- lift (Float.to_int (Float.mod1 secnd)) ;;
  td_us <- lift (Datetime.of_int_microseconds part) ;;
  lift (Datetime.add t td_us).

(** [close(self)] of [L1Bio] and [L1Cio], which differ in the time
    variable and in [check_stored]. *)
Definition close_binned (time_var : string) (check_stored : M heap unit) : M heap unit :=
  fun h =>
    match fid (fst h) with
    | None => (Ok tt, h)
    | Some _ =>
        (empty <- dimension_is_empty "bins_along_track" ;;
         if empty then release
         else
           check_stored ;;;
           time0 <- coverage_time time_var 0 ;;
           time1 <- coverage_time time_var (-1) ;;
           set_global "time_coverage_start" (Datetime.isoformat_milliseconds time0) ;;;
           set_global "time_coverage_end" (Datetime.isoformat_milliseconds time1) ;;;
           release) h
    end.

(** [check_stored(self)] of [L1Bio] and [L1Cio]. *)
Definition check_stored_binned (lv : string) : M heap unit :=
  block lv "number_of_views"
    (fun x => startswith x "/SENSOR_VIEWS_BANDS")
    (fun key => String.eqb key "/SENSOR_VIEWS_BANDS/viewport_index")
    wrong_any ;;;
  block lv "bins_along_track"
    (fun x => negb (startswith x "/SENSOR_VIEWS_BANDS"))
    (fun _ => false)
    wrong_any ;;;
  h <- get_state ;;
  dump (keys (dset_stored (processing_level (fst h)) (snd h))) 0.

End Check.

(** ** Class [L1Aio] *)

Module L1Aio.

Import Lv1io Check.

Definition dset_stored : dict Z :=
  [ ("/science_data/detector_images", 0);
    ("/science_data/detector_telemetry", 0);
    ("/image_attributes/binning_table", 0);
    ("/image_attributes/digital_offset", 0);
    ("/image_attributes/nr_coadditions", 0);
    ("/image_attributes/exposure_time", 0);
    ("/image_attributes/icu_time_sec", 0);
    ("/image_attributes/icu_time_subsec", 0);
    ("/image_attributes/image_time", 0);
    ("/image_attributes/image_ID", 0);
    ("/engineering_data/NomHK_telemetry", 0);
    ("/engineering_data/temp_detector", 0);
    ("/engineering_data/temp_housing", 0);
    ("/engineering_data/temp_radiator", 0);
    ("/engineering_data/HK_tlm_time", 0) ].

Definition is_image_key (x : string) : bool :=
  startswith x "/science_data" || startswith x "/image_attributes".

Definition is_hk_key (x : string) : bool := startswith x "/engineering_data".

(** [check_stored(self, allow_empty=False)] *)
Definition check_stored (allow_empty : bool) : M heap unit :=
  let wrong := if allow_empty then wrong_nonempty else wrong_any in
  block "1A" "number_of_images" is_image_key (fun _ => false) wrong ;;;
  block "1A" "hk_packets" is_hk_key (fun _ => false) wrong.

(** [int(dset.<name>)] for the variable or group [nd]. *)
Definition int_attr (nd : NetCDF.node) (name : string) : M heap Z :=
  ds <- fid_member ;;
  let attrs :=
    match nd with
    | NetCDF.NGroup path =>
        match get (NetCDF.groups ds) path with Some a => a | None => [] end
    | NetCDF.NVariable _ v => NetCDF.var_attrs v
    end in
  match get attrs name with
  | Some a => lift (NetCDF.attr_to_int a)
  | None => raise AttributeError
  end.

(** [datetime(int(dset.year), int(dset.month), int(dset.day), tzinfo=timezone.utc)
     + timedelta(seconds=float(dset[i].data))] *)
Definition tstamp_at (nd : NetCDF.node) (i : Z) : M heap Datetime.datetime :=
  year <- int_attr nd "year" ;;
  month <- int_attr nd "month" ;;
  day <- int_attr nd "day" ;;
  tstamp <- lift (Datetime.make year month day true) ;;
  ds <- fid_member ;;
  row <- match nd with
         | NetCDF.NGroup _ => raise TypeError
         | NetCDF.NVariable _ v => lift (NetCDF.getrow ds v i)
         end ;;
  seconds <- lift (to_float row) ;;
  delta <- lift (Datetime.of_seconds seconds) ;;
  lift (Datetime.add tstamp delta).

(** [close(self)] *)
Definition close : M heap unit :=
  fun h =>
    match fid (fst h) with
    | None => (Ok tt, h)
    | Some _ =>
        (empty <- dimension_is_empty "number_of_images" ;;
         if empty then release
         else
           check_stored true ;;;
           dset <- fid_getitem "/image_attributes/image_time" ;;
           tstamp <- tstamp_at dset 0 ;;
           set_global "time_coverage_start" (Datetime.isoformat_milliseconds tstamp) ;;;
           tstamp <- tstamp_at dset (-1) ;;
           set_global "time_coverage_end" (Datetime.isoformat_milliseconds tstamp) ;;;
           release) h
    end.

(** [np.all(xs == 0)] *)
Definition all_zero (xs : list Z) : bool := forallb (fun x => x =? 0) xs.

(** [np.full(n, k)] *)
Definition full (n : nat) (k : Z) : ndarray := Array (repeat (Scalar (SInt k)) n).

Definition float_array (xs : list float64) : ndarray :=
  Array (map (fun x => Scalar (SFloat x)) xs).

(** One temperature of [fill_nomhk]: the constant [fallback] for every
    record when all readings are zero, [frac_poly] of the readings
    otherwise. *)
Definition temperature (readings : list Z) (fallback : Z) : ndarray :=
  if all_zero readings then full (List.length readings) fallback
  else float_array (frac_poly readings None).

(** [fill_nomhk(self, nomhk_data)] *)
Definition fill_nomhk (nomhk_data : list nomhk_record) : M heap unit :=
  if Nat.eqb (List.length nomhk_data) 0 then ret tt
  else
    set_dset "/engineering_data/NomHK_telemetry"
      (Array (map (fun r => Scalar (SRecord r)) nomhk_data)) (-1) ;;;
    set_dset "/engineering_data/temp_detector"
      (temperature (map TS1_DEM_N_T nomhk_data) 273) (-1) ;;;
    set_dset "/engineering_data/temp_housing"
      (temperature (map TS2_HOUSING_N_T nomhk_data) 293) (-1) ;;;
    set_dset "/engineering_data/temp_radiator"
      (temperature (map TS3_RADIATOR_N_T nomhk_data) 294) (-1).

(** [fill_demhk(self, demhk_data)] *)
Definition fill_demhk (demhk_data : list ndarray) : M heap unit :=
  if Nat.eqb (List.length demhk_data) 0 then ret tt
  else set_dset "/engineering_data/DemHK_telemetry" (Array demhk_data) (-1).

End L1Aio.

(** ** Classes [L1Bio] and [L1Cio] *)

Module L1Bio.

Import Lv1io Check.

Definition dset_stored : dict Z :=
  map (fun key => (key, 0))
    [ "/BIN_ATTRIBUTES/image_time";
      "/GEOLOCATION_DATA/altitude";
      "/GEOLOCATION_DATA/latitude";
      "/GEOLOCATION_DATA/longitude";
      "/GEOLOCATION_DATA/sensor_azimuth";
      "/GEOLOCATION_DATA/sensor_zenith";
      "/GEOLOCATION_DATA/solar_azimuth";
      "/GEOLOCATION_DATA/solar_zenith";
      "/OBSERVATION_DATA/I";
      "/OBSERVATION_DATA/I_noise";
      "/OBSERVATION_DATA/AoLP";
      "/OBSERVATION_DATA/AoLP_noise";
      "/OBSERVATION_DATA/DoLP";
      "/OBSERVATION_DATA/DoLP_noise";
      "/OBSERVATION_DATA/Q_over_I";
      "/OBSERVATION_DATA/Q_over_I_noise";
      "/OBSERVATION_DATA/U_over_I";
      "/OBSERVATION_DATA/U_over_I_noise";
      "/SENSOR_VIEWS_BANDS/viewport_index";
      "/SENSOR_VIEWS_BANDS/intensity_wavelengths";
      "/SENSOR_VIEWS_BANDS/intensity_bandpasses";
      "/SENSOR_VIEWS_BANDS/intensity_F0";
      "/SENSOR_VIEWS_BANDS/polarization_wavelengths";
      "/SENSOR_VIEWS_BANDS/polarization_bandpasses";
      "/SENSOR_VIEWS_BANDS/polarization_F0";
      "/SENSOR_VIEWS_BANDS/view_angles" ].

(** [check_stored(self)] *)
Definition check_stored : M heap unit := check_stored_binned "1B".

(** [close(self)] *)
Definition close : M heap unit :=
  close_binned "/BIN_ATTRIBUTES/image_time" check_stored.

End L1Bio.

Module L1Cio.

Import Lv1io Check.

Definition dset_stored : dict Z :=
  map (fun key => (key, 0))
    [ "/BIN_ATTRIBUTES/nadir_view_time";
      "/BIN_ATTRIBUTES/view_time_offsets";
      "/GEOLOCATION_DATA/latitude";
      "/GEOLOCATION_DATA/longitude";
      "/GEOLOCATION_DATA/altitude";
      "/GEOLOCATION_DATA/altitude_variability";
      "/GEOLOCATION_DATA/sensor_azimuth";
      "/GEOLOCATION_DATA/sensor_zenith";
      "/GEOLOCATION_DATA/solar_azimuth";
      "/GEOLOCATION_DATA/solar_zenith";
      "/OBSERVATION_DATA/obs_per_view";
      "/OBSERVATION_DATA/AoLP";
      "/OBSERVATION_DATA/AoLP_noise";
      "/OBSERVATION_DATA/DoLP";
      "/OBSERVATION_DATA/DoLP_noise";
      "/OBSERVATION_DATA/I";
      "/OBSERVATION_DATA/I_noise";
      "/OBSERVATION_DATA/I_polsample";
      "/OBSERVATION_DATA/I_polsample_noise";
      "/OBSERVATION_DATA/QC";
      "/OBSERVATION_DATA/QC_bitwise";
      "/OBSERVATION_DATA/QC_polsample";
      "/OBSERVATION_DATA/QC_polsample_bitwise";
      "/OBSERVATION_DATA/Q_over_I";
      "/OBSERVATION_DATA/Q_over_I_noise";
      "/OBSERVATION_DATA/U_over_I";
      "/OBSERVATION_DATA/U_over_I_noise";
      "/SENSOR_VIEWS_BANDS/intensity_bandpasses";
      "/SENSOR_VIEWS_BANDS/intensity_wavelengths";
      "/SENSOR_VIEWS_BANDS/intensity_F0";
      "/SENSOR_VIEWS_BANDS/polarization_bandpasses";
      "/SENSOR_VIEWS_BANDS/polarization_wavelengths";
      "/SENSOR_VIEWS_BANDS/polarization_F0";
      "/SENSOR_VIEWS_BANDS/view_angles" ].

(** [check_stored(self)] *)
Definition check_stored : M heap unit := check_stored_binned "1C".

(** [close(self)] *)
Definition close : M heap unit :=
  close_binned "/BIN_ATTRIBUTES/nadir_view_time" check_stored.

End L1Cio.

(** ** The process, and the method a call reaches *)

(** The class attributes as the class bodies define them, nothing
    printed, no file closed. *)
Definition new_process : Lv1io.process :=
  {| Lv1io.Lv1io_dset_stored := [];
     Lv1io.L1Aio_dset_stored := L1Aio.dset_stored;
     Lv1io.L1Bio_dset_stored := L1Bio.dset_stored;
     Lv1io.L1Cio_dset_stored := L1Cio.dset_stored;
     Lv1io.stdout := [];
     Lv1io.disk := [] |}.

(** [self.close()]: the method of the class of [self]. *)
Definition close : M Lv1io.heap unit :=
  fun h =>
    match Lv1io.processing_level (fst h) with
    | Unknown => Lv1io.close h
    | L1A => L1Aio.close h
    | L1B => L1Bio.close h
    | L1C => L1Cio.close h
    end.

(** [__exit__(self, exc_type, exc_value, traceback)] *)
Definition exit : M Lv1io.heap bool := close ;;; ret false.

(** ** The file loop of [spx1_ccsds2l1a.main] *)

Module Ccsds2l1a.

(** [sorted(names)]: by insertion, in the order of the character codes. *)
Fixpoint insert (x : string) (l : list string) : list string :=
  match l with
  | [] => [x]
  | y :: l' => if String.leb x y then x :: l else y :: insert x l'
  end.

Fixpoint sorted (l : list string) : list string :=
  match l with
  | [] => []
  | x :: l' => insert x (sorted l')
  end.

Section Reader.

(** A packet as [CCSDSio.read] returns it. *)
Variable packet : Type.

(** [Path(flname).is_file()] *)
Variable is_file : string -> bool.

(** [ccsds.read(flname)] of [pyspex.ccsds_io]. *)
Variable read : string -> list packet.

(** The loop [for flname in ...: ...; packet_list += ccsds.read(flname)]
    over the names still to visit, when [ccsds.read] returns for every
    file; the line printed for a header file is left out.  The loop with
    a reader that may raise, and with what it prints, is [visit] below. *)
Fixpoint read_files (names : list string) (packet_list : list packet)
    : result (list packet) :=
  match names with
  | [] => Ok packet_list
  | flname :: rest =>
      if negb (is_file flname) then Raise FileNotFoundError
      else if String.eqb (Posix.suffix (Posix.parse flname)) ".H"
           then read_files rest packet_list
           else read_files rest (packet_list ++ read flname)
  end.

(** [packet_list] when the loop of [main] ends. *)
Definition collect (file_list : list string) : result (list packet) :=
  read_files (sorted file_list) [].

End Reader.

Section Run.

Variable packet : Type.

(** [Path(flname).is_file()] *)
Variable is_file : string -> bool.

(** [ccsds.read(flname)]: the packets of a file, or the exception that
    reading it raises. *)
Variable read : string -> result (list packet).

(** [print(line)]: the state is what was printed so far. *)
Definition print (line : string) : M (list string) unit :=
  fun out => (Ok tt, (out ++ [line])%list).

(** The loop of [main] over the names still to visit. *)
Fixpoint visit (names : list string) (packet_list : list packet)
    : M (list string) (list packet) :=
  match names with
  | [] => ret packet_list
  | flname :: rest =>
      if negb (is_file flname) then raise FileNotFoundError
      else if String.eqb (Posix.suffix (Posix.parse flname)) ".H"
           then print "[INFO]: skip CCSDS header file" ;;; visit rest packet_list
           else
             packets <- lift (read flname) ;;
             visit rest (packet_list ++ packets)
  end.

(** [main] up to the end of the loop. *)
Definition run (file_list : list string) : M (list string) (list packet) :=
  visit (sorted file_list) [].

End Run.

End Ccsds2l1a.

(** ** [pyspex.ogse_grande] *)

Module OgseGrande.

Definition GRANDE_ATTRS : dict NetCDF.attr :=
  [ ("source", NetCDF.AStr "Grande");
    ("date", NetCDF.AStr "2021-03-13");
    ("instrument", NetCDF.AStr "OL 750");
    ("standard", NetCDF.AStr "F-736");
    ("technique", NetCDF.AStr "Cooper");
    ("location", NetCDF.AStr "33/D319");
    ("current", NetCDF.AStr "6.50 A");
    ("distance", NetCDF.AFloat (Finite 51.42));
    ("diameter", NetCDF.AFloat (Finite 25.4));
    ("temperature", NetCDF.AStr "23 degree C");
    ("RH", NetCDF.AStr "37%") ].

Definition GRANDE_WAVELENGTH : list Z :=
  [ 350; 360; 370; 380; 390; 400; 410; 420; 430; 440;
    450; 460; 470; 480; 490; 500; 510; 520; 530; 540;
    550; 560; 570; 580; 590; 600; 610; 620; 630; 640;
    650; 660; 670; 680; 690; 700; 710; 720; 730; 740;
    750; 760; 770; 780; 790; 800; 810; 820; 830; 840;
    850; 860; 870; 880; 890; 900; 910; 920; 930; 940;
    950 ].

Definition GRANDE_SPECTRUM : list (list R) :=
  [ [32.69; 16.88; 8.79; 4.83; 1.08];
    [41.90; 21.62; 11.28; 6.20; 1.40];
    [52.89; 27.24; 14.24; 7.86; 1.79];
    [66.11; 34.05; 17.84; 9.86; 2.26];
    [82.09; 42.32; 22.23; 12.27; 2.85];
    [100.48; 51.87; 27.19; 15.08; 3.54];
    [121.63; 62.94; 32.96; 18.35; 4.34];
    [145.11; 75.18; 39.41; 21.97; 5.24];
    [170.74; 88.37; 46.45; 25.81; 6.24];
    [198.54; 102.77; 54.07; 30.13; 7.33];
    [228.37; 118.39; 62.28; 34.81; 8.53];
    [259.77; 134.87; 71.05; 39.73; 9.82];
    [292.90; 152.03; 80.19; 44.91; 11.17];
    [327.37; 170.07; 89.75; 50.38; 12.60];
    [364.00; 189.21; 99.92; 56.18; 14.13];
    [402.24; 209.12; 110.65; 62.25; 15.73];
    [442.45; 230.04; 121.89; 68.68; 17.44];
    [482.08; 250.86; 133.03; 75.10; 19.16];
    [524.09; 272.72; 144.87; 81.88; 20.96];
    [566.13; 294.93; 156.81; 88.75; 22.81];
    [609.06; 317.24; 168.82; 95.66; 24.69];
    [652.19; 340.00; 181.14; 102.81; 26.62];
    [694.78; 361.94; 193.08; 109.66; 28.51];
    [737.00; 384.37; 205.20; 116.66; 30.48];
    [779.01; 406.37; 217.12; 123.67; 32.33];
    [821.67; 429.07; 229.30; 130.75; 34.35];
    [862.32; 450.34; 240.86; 137.50; 36.28];
    [901.67; 471.01; 252.15; 144.04; 38.19];
    [940.24; 491.57; 263.31; 150.57; 40.11];
    [977.91; 511.46; 274.21; 156.95; 42.02];
    [1014.58; 530.72; 284.88; 163.22; 43.93];
    [1049.66; 549.75; 295.37; 169.41; 45.87];
    [1085.29; 568.58; 305.77; 175.58; 47.84];
    [1120.24; 587.09; 316.04; 181.71; 49.82];
    [1153.60; 604.99; 325.96; 187.62; 51.77];
    [1186.38; 622.52; 335.69; 193.38; 53.67];
    [1215.63; 638.15; 344.44; 198.62; 55.40];
    [1240.49; 651.47; 351.87; 203.03; 56.87];
    [1265.76; 665.12; 359.32; 207.60; 58.38];
    [1288.62; 676.77; 366.24; 211.66; 59.73];
    [1308.86; 688.33; 372.16; 215.22; 60.93];
    [1315.58; 692.20; 374.49; 216.79; 61.52];
    [1348.34; 708.73; 383.54; 222.06; 63.22];
    [1364.42; 717.63; 388.56; 225.09; 64.32];
    [1373.57; 722.94; 391.50; 226.99; 65.05];
    [1382.98; 728.23; 394.42; 228.92; 65.89];
    [1393.75; 734.14; 397.85; 230.91; 66.77];
    [1402.46; 738.42; 400.29; 232.66; 67.70];
    [1412.44; 743.67; 403.47; 234.92; 68.78];
    [1420.54; 748.62; 406.36; 237.10; 69.86];
    [1428.20; 752.69; 409.51; 239.09; 71.06];
    [1433.07; 756.03; 411.77; 240.90; 72.33];
    [1440.41; 760.90; 415.12; 243.26; 73.77];
    [1446.93; 765.61; 418.09; 245.51; 75.23];
    [1453.93; 770.14; 421.23; 247.85; 76.81];
    [1455.05; 771.56; 422.73; 249.34; 78.08];
    [1460.68; 775.72; 425.61; 251.66; 79.54];
    [1468.59; 780.88; 429.17; 253.97; 81.16];
    [1453.40; 772.65; 425.24; 252.10; 81.40];
    [1451.34; 772.54; 425.94; 253.05; 82.50];
    [1461.74; 778.72; 429.51; 255.70; 84.00] ]%R.

(** An [xr.DataArray] on the wavelength grid: its values and its
    attributes. *)
Record DataArray : Type := { values : list float64; attrs : dict string }.

(** The [xr.Dataset] that [grande_spectrum] returns. *)
Record Dataset : Type := {
  wavelength : DataArray;
  spectral_radiance : DataArray;
  global_attrs : dict NetCDF.attr
}.

(** [t.index(x)] *)
Fixpoint index (x : Z) (t : list Z) : result nat :=
  match t with
  | [] => Raise ValueError
  | y :: t' =>
      if y =? x then Ok O
      else match index x t' with
           | Ok i => Ok (S i)
           | Raise e => Raise e
           end
  end.

(** [1e-3 * signal[:, indx]] *)
Definition radiance (signal : list (list R)) (indx : nat) : list float64 :=
  map (fun row => Float.mul (Finite 1e-3) (Finite (nth indx row 0%R))) signal.

(** [grande_spectrum(n_lamps)] *)
Definition grande_spectrum (n_lamps : Z) : result Dataset :=
  let lamps_used := [9; 5; 3; 2; 1] in
  match index n_lamps lamps_used with
  | Raise _ => Raise ValueError
  | Ok indx =>
      Ok {| wavelength :=
              {| values := map Float.of_int GRANDE_WAVELENGTH;
                 attrs := [ ("longname", "wavelength grid");
                            ("units", "nm");
                            ("comment", "wavelength annotation") ] |};
            spectral_radiance :=
              {| values := radiance GRANDE_SPECTRUM indx;
                 attrs := [ ("longname", "Grande radiance spectrum");
                            ("comment", Datetime.string_of_Z n_lamps ++ " Lamps");
                            ("units", "W/(m^2.sr.nm)") ] |};
            global_attrs := GRANDE_ATTRS |}
  end.

End OgseGrande.

(** ** [pyspex.version] *)

Module Version.

Section Get.

(** [pyspex.__version__], as the build wrote it. *)
Variable __version__ : string.

(** [get(full=False)] *)
Definition get (full : bool) : result string :=
  if full then Ok __version__
  else match Posix.split "+"%char __version__ with
       | public :: _ => Ok public
       | [] => Raise IndexError
       end.

End Get.

End Version.

(** ** The selection of the EGSE records in [spx1_add_egse2l1a.write_egse] *)

Module Egse2l1a.

(** [s.rstrip(chars)]: the characters of [chars] are taken off the end
    of [s], one by one. *)
Fixpoint rstrip (chars : list ascii) (s : string) : string :=
  match s with
  | EmptyString => EmptyString
  | String a rest =>
      match rstrip chars rest with
      | EmptyString =>
          if existsb (Ascii.eqb a) chars then EmptyString else String a EmptyString
      | kept => String a kept
      end
  end.

(** [Path(res).stem.rstrip('_hk')] *)
Definition input_file (res : string) : string :=
  rstrip ["_"%char; "h"%char; "k"%char] (Posix.stem (Posix.parse res)).

(** [input_file.split('_')[-1] + "+00:00"] *)
Definition date_str (input_file : string) : string :=
  last (Posix.split "_"%char input_file) "" ++ "+00:00".

(** [s.split(sep)] for a separator that is not empty; [skip] counts the
    characters of a separator just found that are still to be passed. *)
Fixpoint split_on (sep : string) (s : string) (skip : nat) : list string :=
  match s with
  | EmptyString => [EmptyString]
  | String a rest =>
      match skip with
      | S k => split_on sep rest k
      | O =>
          if String.prefix sep s
          then EmptyString :: split_on sep rest (String.length sep - 1)
          else match split_on sep rest O with
               | h :: t => String a h :: t
               | [] => [String a EmptyString]
               end
      end
  end.

(** [s.replace(old, new)] for an [old] that is not empty. *)
Fixpoint replace_from (old new : string) (s : string) (skip : nat) : string :=
  match s with
  | EmptyString => EmptyString
  | String a rest =>
      match skip with
      | S k => replace_from old new rest k
      | O =>
          if String.prefix old s
          then new ++ replace_from old new rest (String.length old - 1)
          else String a (replace_from old new rest O)
      end
  end.

Definition replace (old new s : string) : string := replace_from old new s O.

Definition tab : ascii := "009"%char.

(** The loop [for field in fields: ...] of [read_egse] over the fields
    of the header line (the first line of the file that is not blank):
    the names and the units of the columns. *)
Fixpoint header_fields (fields : list string) (names units : list string)
    : list string * list string :=
  match fields with
  | [] => (names, units)
  | field :: rest =>
      if String.eqb field "" then header_fields rest names units
      else
        let res := split_on " [" (PyStr.strip field) O in
        let name := replace " " "_" (replace " nm" "nm" (nth O res "")) in
        let unit :=
          if Nat.eqb (List.length res) 2
          then replace "]" "" (replace "[" "" (nth 1 res ""))
          else "1" in
        header_fields rest (names ++ [name])%list (units ++ [unit])%list
  end.

(** [n * t] for a tuple [t] *)
Definition times {A} (n : nat) (t : list A) : list A := List.concat (repeat t n).

(** [formats] of [read_egse] *)
Definition formats (names : list string) : list string :=
  let n := List.length names in
  let formats :=
    if (Nat.eqb n 35 || Nat.eqb n 36)%bool then
      (["f8"] ++ times 14 ["f4"] ++ ["u1"] ++ times 2 ["i4"]
       ++ ["f4"; "u1"] ++ times 2 ["u1"] ++ times 3 ["f4"; "u1"]
       ++ times 7 ["u1"])%list
    else
      (["f8"] ++ times 14 ["f4"] ++ ["u1"] ++ times 2 ["i4"]
       ++ ["f4"; "u1"] ++ times 2 ["u1"] ++ times 5 ["f4"; "u1"]
       ++ times 7 ["u1"])%list in
  if existsb (String.eqb "NOMHK_packets_time") names
  then ("f8" :: formats)%list
  else formats.

(** The header of an EGSE file, as [read_egse] takes it from the header
    line [line], already stripped: the names, the units and the formats
    of the columns, or the [RuntimeError] of the check on their
    numbers. *)
Definition read_header (line : string)
    : result (list string * list string * list string) :=
  let (names, units) := header_fields (Posix.split tab line) [] [] in
  let formats := formats names in
  if negb (Nat.eqb (List.length names) (List.length units)
           && Nat.eqb (List.length units) (List.length formats))
  then Raise (OtherError "RuntimeError")
  else Ok (names, units, formats).

(** [(egse_time >= start) & (egse_time <= stop)] for one entry. *)
Definition in_window (start stop t : float64) : bool :=
  Float.leb start t && Float.leb t stop.

(** [a[i:j]] for two indices that are not negative. *)
Definition slice {A} (a : list A) (i j : nat) : list A := firstn (j - i) (skipn i a).

Section Select.

(** A record of the variable [egse] of the database. *)
Variable record : Type.

(** The entries of [fid['time']] and of [fid['egse']] that [write_egse]
    copies into the product:
    [indx = np.where(...)[0]], [RuntimeError] when [indx] is empty, and
    the slices [indx[0]:indx[-1]+1] otherwise. *)
Definition select (egse_time : list float64) (egse : list record)
    (start stop : float64) : result (list float64 * list record) :=
  let indx := Check.nonzero (map (in_window start stop) egse_time) O in
  match indx with
  | [] => Raise (OtherError "RuntimeError")
  | first :: _ =>
      let stop_at := S (last indx first) in
      Ok (slice egse_time first stop_at, slice egse first stop_at)
  end.

End Select.

End Egse2l1a.

(** * Properties *)

(** One step of a proof by evaluation: rewrite with a known result and
    reduce the match it feeds. *)
Ltac step H := rewrite H; cbn [fst snd].

(** ** The models of [int], [numpy] and the library on known values *)

Example int_of_text :
  map PyStr.int ["2020"; " -5 "; "1_000"; "+7"; "007"; "1__0"; "0x10"; "5.0"; ""]
  = [Some 2020; Some (-5); Some 1000; Some 7; Some 7; None; None; None; None].
Proof. reflexivity. Qed.

Example ascii_text :
  map PyStr.is_ascii ["SPEXone"; String (ascii_of_nat 233) "t" ] = [true; false].
Proof. reflexivity. Qed.

(** Six elements in a row are reshaped to two rows of three. *)
Example conformed_reshaped :
  NetCDF.conformed [2; 3]
    (Array (map (fun z => Scalar (SInt z)) [1; 2; 3; 4; 5; 6]))
  = Ok (Array [ Array (map (fun z => Scalar (SInt z)) [1; 2; 3]);
                Array (map (fun z => Scalar (SInt z)) [4; 5; 6]) ]).
Proof. reflexivity. Qed.

(** One row of three is repeated. *)
Example conformed_broadcast :
  NetCDF.conformed [2; 3] (Array (map (fun z => Scalar (SInt z)) [1; 2; 3]))
  = Ok (Array [ Array (map (fun z => Scalar (SInt z)) [1; 2; 3]);
                Array (map (fun z => Scalar (SInt z)) [1; 2; 3]) ]).
Proof. reflexivity. Qed.

(** Two elements fit in no way in two rows of three. *)
Example conformed_refused :
  NetCDF.conformed [2; 3] (Array (map (fun z => Scalar (SInt z)) [1; 2]))
  = Raise ValueError.
Proof. reflexivity. Qed.

(** A scalar fills the variable. *)
Example conformed_tiled :
  NetCDF.conformed [2; 2] (Scalar (SInt 7))
  = Ok (Array [ Array [Scalar (SInt 7); Scalar (SInt 7)];
                Array [Scalar (SInt 7); Scalar (SInt 7)] ]).
Proof. reflexivity. Qed.

(** ** The models of [pathlib] and [datetime] on known values *)

Example posix_parent_abs :
  Posix.str (Posix.parent (Posix.parse "/science_data/detector_images"))
  = "/science_data".
Proof. reflexivity. Qed.

Example posix_name_abs :
  Posix.name (Posix.parse "/science_data/detector_images")
  = "detector_images".
Proof. reflexivity. Qed.

Example posix_parent_bare :
  Posix.str (Posix.parent (Posix.parse "image_time")) = ".".
Proof. reflexivity. Qed.

Example posix_suffix_H :
  Posix.suffix (Posix.parse "data/run_01.H") = ".H"
  /\ Posix.suffix (Posix.parse ".H") = ""
  /\ Posix.suffix (Posix.parse "run_01.bin") = ".bin".
Proof. repeat split; reflexivity. Qed.

Example ymd2ord_1970 : Datetime.ymd2ord 1970 1 1 = 719163.
Proof. reflexivity. Qed.

Example ord2ymd_leap_day : Datetime.ord2ymd (Datetime.ymd2ord 2020 2 29) = (2020, 2, 29).
Proof. reflexivity. Qed.

Example ord2ymd_year_end : Datetime.ord2ymd (Datetime.ymd2ord 2021 12 31) = (2021, 12, 31).
Proof. reflexivity. Qed.

Example isoformat_sample :
  Datetime.isoformat_milliseconds
    {| Datetime.ordinal := Datetime.ymd2ord 2020 5 15;
       Datetime.micros := 3723004567; Datetime.utc := true |}
  = "2020-05-15T01:02:03.004+00:00".
Proof. reflexivity. Qed.

(** ** Dictionaries *)

Section DictFacts.

Context {V : Type}.

Lemma get_set_same (d : dict V) (k : string) (v : V) :
  get (set d k v) k = Some v.
Proof.
  induction d as [|[k' v'] d IH]; simpl.
  - now rewrite String.eqb_refl.
  - destruct (String.eqb k' k) eqn:E; simpl; rewrite E; auto.
Qed.

Lemma get_set_other (d : dict V) (k k' : string) (v : V) :
  k <> k' -> get (set d k v) k' = get d k'.
Proof.
  intros Hne. induction d as [|[k0 v0] d IH]; simpl.
  - destruct (String.eqb_spec k k'); [contradiction | reflexivity].
  - destruct (String.eqb_spec k0 k) as [->|Hk]; simpl.
    + destruct (String.eqb_spec k k'); [contradiction | reflexivity].
    + destruct (String.eqb k0 k'); auto.
Qed.

Lemma mem_set (d : dict V) (k k' : string) (v : V) :
  mem d k' = true -> mem (set d k v) k' = true.
Proof.
  unfold mem. destruct (String.eqb_spec k k') as [->|Hne].
  - now rewrite get_set_same.
  - now rewrite get_set_other.
Qed.

Lemma keys_set (d : dict V) (k : string) (v : V) :
  mem d k = true -> keys (set d k v) = keys d.
Proof.
  unfold mem, keys. induction d as [|[k' v'] d IH]; simpl.
  - discriminate.
  - destruct (String.eqb_spec k' k) as [->|Hne]; simpl.
    + reflexivity.
    + intros H. now rewrite IH.
Qed.

Lemma set_get_same (d : dict V) (k : string) (v : V) :
  get d k = Some v -> set d k v = d.
Proof.
  induction d as [|[k' v'] d IH]; simpl.
  - discriminate.
  - destruct (String.eqb_spec k' k) as [->|Hne].
    + now intros [= ->].
    + intros H. now rewrite IH.
Qed.

Lemma set_set_same (d : dict V) (k : string) (v w : V) :
  set (set d k v) k w = set d k w.
Proof.
  induction d as [|[k' v'] d IH]; simpl.
  - now rewrite String.eqb_refl.
  - destruct (String.eqb k' k) eqn:E; simpl; rewrite E; [reflexivity|].
    now rewrite IH.
Qed.

Lemma get_in_keys (d : dict V) (k : string) :
  In k (keys d) -> exists v, get d k = Some v.
Proof.
  unfold keys. induction d as [|[k' v'] d IH]; simpl.
  - contradiction.
  - intros [->|Hin].
    + rewrite String.eqb_refl. eauto.
    + destruct (String.eqb k' k); eauto.
Qed.

End DictFacts.

(** ** The temperature calibration *)

(** The polynomial as documented, on the reals, with the default
    coefficients written out. *)
Definition documented_polynomial (x : R) : R :=
  (273.15 + 21.19 + 6.97828e+7 / x + -3.53275e-25 * x ^ 4
   + (7.79625e-31 + -4.6505e-32 * ln x) * x ^ 5)%R.

Lemma frac_poly_at_positive (x : Z) :
  0 < x ->
  frac_poly_at default_coefs (Float.of_int x)
  = Finite (documented_polynomial (IZR x)).
Proof.
  intros Hx. apply IZR_lt in Hx.
  unfold frac_poly_at, default_coefs, documented_polynomial,
    Float.of_int, Float.div, Float.log, Float.pow.
  destruct (Req_dec_T (IZR x) 0) as [E|_]; [lra|].
  destruct (Rlt_dec 0 (IZR x)) as [_|N]; [|lra].
  reflexivity.
Qed.

Lemma frac_poly_at_not_positive (x : Z) :
  x <= 0 ->
  frac_poly_at default_coefs (Float.of_int x) = NaN.
Proof.
  intros Hx. apply IZR_le in Hx.
  unfold frac_poly_at, default_coefs, Float.of_int, Float.div, Float.log, Float.pow.
  destruct (Rlt_dec 0 (IZR x)) as [P|_]; [lra|].
  destruct (Req_dec_T (IZR x) 0) as [E|N].
  - (* x = 0: r1 / 0 is an infinity, and infinity times zero is a NaN *)
    destruct (Rlt_dec 0 6.97828e+7) as [_|N]; [|lra].
    unfold Float.mul at 3. unfold Float.scale_inf.
    destruct (Rlt_dec 0 (-4.6505e-32)) as [P|_]; [lra|].
    destruct (Rlt_dec (-4.6505e-32) 0) as [_|N]; [|lra].
    cbn [Float.add]. unfold Float.mul at 2. unfold Float.scale_inf.
    rewrite E.
    destruct (Rlt_dec 0 (0 ^ 5)) as [P|_]; [lra|].
    destruct (Rlt_dec (0 ^ 5) 0) as [P|_]; [lra|].
    reflexivity.
  - reflexivity.
Qed.

(** C7. For every positive raw sensor count, [frac_poly] called without
    coefficients returns
    [r0 + r1/x + r2*x^4 + (r3 + r4*log(x))*x^5] with
    [r0 = 273.15 + 21.19], [r1 = 6.97828e+7], [r2 = -3.53275e-25],
    [r3 = 7.79625e-31] and [r4 = -4.6505e-32]. *)
Theorem C7_frac_poly_default (xx_in : list Z) :
  Forall (fun x => 0 < x) xx_in ->
  frac_poly xx_in None
  = map (fun x : Z =>
           Finite (273.15 + 21.19 + 6.97828e+7 / IZR x
                   + -3.53275e-25 * IZR x ^ 4
                   + (7.79625e-31 + -4.6505e-32 * ln (IZR x)) * IZR x ^ 5)%R)
        xx_in.
Proof.
  intros Hpos. unfold frac_poly. rewrite map_map.
  apply map_ext_in. intros x Hin.
  rewrite Forall_forall in Hpos.
  now rewrite frac_poly_at_positive by auto.
Qed.

Lemma C7_frac_poly_default_witness :
  Forall (fun x => 0 < x) [1000; 25000]
  /\ frac_poly [1000; 25000] None
     = [Finite (documented_polynomial 1000); Finite (documented_polynomial 25000)].
Proof.
  assert (H : Forall (fun x => 0 < x) [1000; 25000])
    by (repeat constructor).
  split; [exact H|].
  exact (C7_frac_poly_default [1000; 25000] H).
Defined.

(** ** Writing a variable *)

Definition grp_name_of (name : string) : string :=
  Posix.str (Posix.parent (Posix.parse name)).

Definition var_name_of (name : string) : string :=
  Posix.name (Posix.parse name).

(** The product [h] is open on the file [ds], in which [name] passes the
    test of [set_dset] and names the variable [v], kept under [path]. *)
Record open_variable (h : Lv1io.heap) (name : string) (ds : NetCDF.Dataset)
    (path : string) (v : NetCDF.NcVariable) : Prop := {
  ov_fid : Lv1io.fid (fst h) = Some ds;
  ov_present :
    Lv1io.variable_present (grp_name_of name) (var_name_of name) h = (Ok true, h);
  ov_item : NetCDF.getitem ds name = Ok (NetCDF.NVariable path v)
}.

(** The first dimension of [v] is the unlimited dimension [dname], of
    description [dim] in [ds]. *)
Record unlimited_first (ds : NetCDF.Dataset) (v : NetCDF.NcVariable)
    (dname : string) (dim : NetCDF.Dimension) : Prop := {
  uf_dims : exists rest, NetCDF.dims v = dname :: rest;
  uf_get_dims : exists drest, NetCDF.get_dims ds (NetCDF.dims v) = Ok (dim :: drest);
  uf_unlimited : NetCDF.isunlimited dim = true
}.

(** The counter of [name] in the table of the class of the product. *)
Definition counter (h : Lv1io.heap) (name : string) : option Z :=
  get (Lv1io.dset_stored (Lv1io.processing_level (fst h)) (snd h)) name.

(** The entries of the variable [name] in the file of the product. *)
Definition stored_data (h : Lv1io.heap) (name : string) : option (list ndarray) :=
  match Lv1io.fid (fst h) with
  | Some ds => option_map NetCDF.data (get (NetCDF.variables ds) name)
  | None => None
  end.

(** The state after a write that succeeded: the file is [ds'] and the
    counter of [name] is [n]. *)
Definition written (h : Lv1io.heap) (ds' : NetCDF.Dataset) (name : string) (n : Z)
    : Lv1io.heap :=
  let lv := Lv1io.processing_level (fst h) in
  (Lv1io.with_fid (fst h) (Some ds'),
   Lv1io.with_dset_stored lv (snd h) (set (Lv1io.dset_stored lv (snd h)) name n)).

Lemma dset_stored_with (lv : level) (p : Lv1io.process) (d : dict Z) :
  Lv1io.dset_stored lv (Lv1io.with_dset_stored lv p d) = d.
Proof. now destruct lv. Qed.

Lemma counter_written (h : Lv1io.heap) ds' name n :
  counter (written h ds' name n) name = Some n.
Proof.
  unfold counter, written. cbn [fst snd Lv1io.with_fid Lv1io.processing_level].
  rewrite dset_stored_with. apply get_set_same.
Qed.

Lemma set_dset_append (h : Lv1io.heap) name ds path v dname dim c value :
  open_variable h name ds path v ->
  unlimited_first ds v dname dim ->
  counter h name = Some c ->
  Lv1io.set_dset name value (-1) h
  = (Ok tt,
     written h (NetCDF.assign_from ds path v dname dim c value) name
       (c + rows_of value)).
Proof.
  intros [Hfid Hpres Hitem] [[rest Hdims] [drest Hget] Hunl] Hc.
  destruct h as [self p]. cbn [fst snd] in *.
  unfold Lv1io.set_dset, bind.
  fold (grp_name_of name) (var_name_of name). rewrite Hpres. cbn [negb].
  unfold Lv1io.store, bind, Lv1io.fid_getitem, Lv1io.fid_member, lift.
  cbn [fst snd]. step Hfid. step Hitem. step Hfid.
  rewrite Hget, Hdims, Hunl. cbv beta iota.
  cbn [Z.ltb Z.compare]. unfold Lv1io.stored_getitem. cbn [fst snd].
  unfold counter in Hc. cbn [fst snd] in Hc. rewrite Hc. cbv beta iota.
  unfold Lv1io.put_fid. cbn [fst snd Lv1io.with_fid Lv1io.processing_level].
  rewrite Hc. reflexivity.
Qed.

(** What [getitem] says when it finds a variable. *)
Lemma getitem_variable (ds : NetCDF.Dataset) name path v :
  NetCDF.getitem ds name = Ok (NetCDF.NVariable path v) ->
  get (NetCDF.variables ds) path = Some v
  /\ mem (NetCDF.groups ds) path = false
  /\ path = NetCDF.abspath (Posix.parts (Posix.parse name)).
Proof.
  unfold NetCDF.getitem.
  destruct (Posix.parts (Posix.parse name)) as [|c cs] eqn:Ec; [discriminate|].
  destruct (NetCDF.nested_groups ds [] (removelast (c :: cs))); [|discriminate].
  destruct (mem (NetCDF.groups ds) (NetCDF.abspath (c :: cs))) eqn:Eg; [discriminate|].
  destruct (get (NetCDF.variables ds) (NetCDF.abspath (c :: cs))) eqn:Ev; [|discriminate].
  intros [= <- <-]. auto.
Qed.

Lemma nested_groups_ext (ds ds' : NetCDF.Dataset) seen rest :
  NetCDF.groups ds' = NetCDF.groups ds ->
  NetCDF.nested_groups ds' seen rest = NetCDF.nested_groups ds seen rest.
Proof.
  intros Hg. revert seen. induction rest as [|g rest IH]; intros seen; simpl.
  - reflexivity.
  - rewrite Hg. destruct (mem _ _); auto.
Qed.

(** A file [ds'] that differs from [ds] in the variable at [path] and in
    its dimensions at most. *)
Definition variable_replaced (ds ds' : NetCDF.Dataset) (path : string)
    (v' : NetCDF.NcVariable) : Prop :=
  NetCDF.groups ds' = NetCDF.groups ds
  /\ NetCDF.variables ds' = set (NetCDF.variables ds) path v'.

Lemma getitem_group_replaced ds ds' path v' elem g :
  variable_replaced ds ds' path v' ->
  NetCDF.getitem ds elem = Ok (NetCDF.NGroup g) ->
  NetCDF.getitem ds' elem = Ok (NetCDF.NGroup g).
Proof.
  intros [Hg Hv]. unfold NetCDF.getitem.
  destruct (Posix.parts (Posix.parse elem)) as [|c cs]; [discriminate|].
  rewrite (nested_groups_ext ds ds') by exact Hg.
  destruct (NetCDF.nested_groups ds [] (removelast (c :: cs))); [|discriminate].
  rewrite Hg.
  destruct (mem (NetCDF.groups ds) (NetCDF.abspath (c :: cs))); [auto|].
  destruct (get (NetCDF.variables ds) (NetCDF.abspath (c :: cs))); discriminate.
Qed.

Lemma getitem_variable_replaced ds ds' name path v v' :
  variable_replaced ds ds' path v' ->
  NetCDF.getitem ds name = Ok (NetCDF.NVariable path v) ->
  NetCDF.getitem ds' name = Ok (NetCDF.NVariable path v').
Proof.
  intros [Hg Hv] Hitem.
  destruct (getitem_variable _ _ _ _ Hitem) as (_ & Hng & Hpath).
  revert Hitem. unfold NetCDF.getitem.
  destruct (Posix.parts (Posix.parse name)) as [|c cs]; [discriminate|].
  rewrite (nested_groups_ext ds ds') by exact Hg.
  destruct (NetCDF.nested_groups ds [] (removelast (c :: cs))); [|discriminate].
  intros _. rewrite Hg, <- Hpath, Hng, Hv, get_set_same. reflexivity.
Qed.

Lemma variable_present_replaced (self : Lv1io.t) (p p' : Lv1io.process)
    ds ds' path v' grp var :
  variable_replaced ds ds' path v' ->
  Lv1io.fid self = Some ds ->
  Lv1io.variable_present grp var (self, p) = (Ok true, (self, p)) ->
  Lv1io.variable_present grp var (Lv1io.with_fid self (Some ds'), p')
  = (Ok true, (Lv1io.with_fid self (Some ds'), p')).
Proof.
  intros Hrep Hfid. pose proof Hrep as [Hg Hv].
  unfold Lv1io.variable_present, bind, Lv1io.fid_getitem, Lv1io.fid_member, ret, raise.
  destruct (negb (String.eqb grp ".")); cbn [fst snd Lv1io.fid Lv1io.with_fid];
    rewrite Hfid.
  - destruct (NetCDF.getitem ds grp) as [[g|? ?]|e] eqn:Eg;
      cbn [fst snd]; rewrite ?Hfid; try discriminate.
    rewrite (getitem_group_replaced _ _ _ _ _ _ Hrep Eg).
    unfold NetCDF.has_variable. rewrite Hv. intros [= H].
    now rewrite mem_set.
  - unfold NetCDF.has_root_variable. rewrite Hv. intros [= H].
    now rewrite mem_set.
Qed.

Lemma open_variable_written h name ds ds' path v v' n :
  open_variable h name ds path v ->
  variable_replaced ds ds' path v' ->
  open_variable (written h ds' name n) name ds' path v'.
Proof.
  intros [Hfid Hpres Hitem] Hrep. destruct h as [self p].
  cbn [fst snd] in *. split.
  - reflexivity.
  - unfold written. cbn [fst snd].
    eapply variable_present_replaced; eauto.
  - eapply getitem_variable_replaced; eauto.
Qed.

Lemma get_dims_set_dimension ds ds' dname dim' names l :
  NetCDF.dimensions ds' = set (NetCDF.dimensions ds) dname dim' ->
  NetCDF.get_dims ds names = Ok l ->
  exists l', NetCDF.get_dims ds' names = Ok l'
             /\ forall rest, names = dname :: rest ->
                exists drest, l' = dim' :: drest.
Proof.
  intros Hd. revert l. induction names as [|n names IH]; intros l; simpl.
  - intros _. exists []. split; [reflexivity | discriminate].
  - destruct (get (NetCDF.dimensions ds) n) as [d|] eqn:En; [|discriminate].
    destruct (NetCDF.get_dims ds names) as [ds0|e] eqn:Er; [|discriminate].
    intros _. destruct (IH ds0 eq_refl) as (l0 & Hl0 & _).
    rewrite Hl0, Hd.
    destruct (String.eqb_spec dname n) as [->|Hne].
    + rewrite get_set_same. eexists. split; [reflexivity|].
      intros rest _. eauto.
    + rewrite get_set_other, En by exact Hne.
      eexists. split; [reflexivity|].
      intros rest [= -> _]. contradiction.
Qed.

(** The file after [var[ibgn:, ...] = value]: the variable at [path]
    holds the new entries and the unlimited dimension is at least as
    long as before. *)
Lemma assign_from_replaced ds path v dname dim ibgn value :
  get (NetCDF.variables ds) path = Some v ->
  unlimited_first ds v dname dim ->
  exists v' dim',
    variable_replaced ds (NetCDF.assign_from ds path v dname dim ibgn value) path v'
    /\ unlimited_first (NetCDF.assign_from ds path v dname dim ibgn value) v' dname dim'.
Proof.
  intros Hv Huf. pose proof Huf as [[rest Hdims] [drest Hget] Hunl].
  unfold NetCDF.assign_from.
  destruct (match value with
            | Scalar s =>
                repeat (Scalar s)
                  (Z.to_nat ((if NetCDF.size dim =? 0 then 1 else NetCDF.size dim) - ibgn))
            | Array rows => rows
            end) as [|r rows] eqn:Erows.
  - exists v, dim. split; [|exact Huf].
    split; [reflexivity|]. now rewrite set_get_same.
  - eexists. eexists. split.
    + split; reflexivity.
    + split; cbn [NetCDF.dims NetCDF.with_data NetCDF.isunlimited].
      * eauto.
      * edestruct (get_dims_set_dimension ds) as (l' & Hl' & Hhead);
          [ | exact Hget | ].
        2: { destruct (Hhead _ Hdims) as [drest' ->]. eauto. }
        reflexivity.
      * exact Hunl.
Qed.

(** Every successful append leaves the product ready for the next one. *)
Lemma set_dset_append_next h name ds path v dname dim c value :
  open_variable h name ds path v ->
  unlimited_first ds v dname dim ->
  counter h name = Some c ->
  exists h' ds' v' dim',
    Lv1io.set_dset name value (-1) h = (Ok tt, h')
    /\ open_variable h' name ds' path v'
    /\ unlimited_first ds' v' dname dim'
    /\ counter h' name = Some (c + rows_of value).
Proof.
  intros Hopen Huf Hc.
  destruct (getitem_variable _ _ _ _ (ov_item _ _ _ _ _ Hopen)) as (Hv & _ & _).
  destruct (assign_from_replaced ds path v dname dim c value Hv Huf)
    as (v' & dim' & Hrep & Huf').
  exists (written h (NetCDF.assign_from ds path v dname dim c value) name
            (c + rows_of value)),
         (NetCDF.assign_from ds path v dname dim c value), v', dim'.
  split; [now apply set_dset_append|].
  split; [now apply open_variable_written with (ds := ds) (v := v)|].
  split; [exact Huf'|].
  apply counter_written.
Qed.

(** [for row in rows: self.set_dset(name, [row])] *)
Definition set_dset_each (name : string) (rows : list ndarray) : M Lv1io.heap unit :=
  for_each rows (fun row => Lv1io.set_dset name (Array [row]) (-1)).

Lemma set_dset_each_counter name dname rows :
  forall h ds path v dim c,
    open_variable h name ds path v ->
    unlimited_first ds v dname dim ->
    counter h name = Some c ->
    exists h',
      set_dset_each name rows h = (Ok tt, h')
      /\ counter h' name = Some (c + Z.of_nat (List.length rows)).
Proof.
  induction rows as [|row rows IH]; intros h ds path v dim c Hopen Huf Hc.
  - exists h. split; [reflexivity|]. cbn [List.length Z.of_nat].
    now rewrite Z.add_0_r.
  - destruct (set_dset_append_next h name ds path v dname dim c (Array [row])
                Hopen Huf Hc) as (h1 & ds1 & v1 & dim1 & Hrun & Hopen1 & Huf1 & Hc1).
    destruct (IH h1 ds1 path v1 dim1 _ Hopen1 Huf1 Hc1) as (h' & Hrun' & Hc').
    exists h'. split.
    + unfold set_dset_each in *. cbn [for_each]. unfold bind at 1.
      now rewrite Hrun.
    + rewrite Hc'. f_equal. cbn [rows_of List.length]. lia.
Qed.

(** C1. For a variable whose first dimension is unlimited and that has a
    counter in the stored-length table, writing N rows in N calls of
    [set_dset], one row each, and writing them in one call both succeed
    and leave the same counter; every call adds to the counter the
    number of rows of its value, and 1 for a scalar. *)
Theorem C1_rowwise_and_bulk_counter
    (h : Lv1io.heap) (name : string) (ds : NetCDF.Dataset) (path : string)
    (v : NetCDF.NcVariable) (dname : string) (dim : NetCDF.Dimension) (c : Z)
    (rows : list ndarray) :
  open_variable h name ds path v ->
  unlimited_first ds v dname dim ->
  counter h name = Some c ->
  (exists h1 h2,
      set_dset_each name rows h = (Ok tt, h1)
      /\ Lv1io.set_dset name (Array rows) (-1) h = (Ok tt, h2)
      /\ counter h1 name = counter h2 name
      /\ counter h2 name = Some (c + Z.of_nat (List.length rows)))
  /\ (forall value, exists h3,
         Lv1io.set_dset name value (-1) h = (Ok tt, h3)
         /\ counter h3 name = Some (c + rows_of value))
  /\ (forall s, rows_of (Scalar s) = 1).
Proof.
  intros Hopen Huf Hc. split; [|split].
  - destruct (set_dset_each_counter name dname rows h ds path v dim c Hopen Huf Hc)
      as (h1 & Hrun1 & Hc1).
    destruct (set_dset_append_next h name ds path v dname dim c (Array rows)
                Hopen Huf Hc) as (h2 & _ & _ & _ & Hrun2 & _ & _ & Hc2).
    exists h1, h2. cbn [rows_of] in Hc2. now rewrite Hc1, Hc2.
  - intros value.
    destruct (set_dset_append_next h name ds path v dname dim c value
                Hopen Huf Hc) as (h3 & _ & _ & _ & Hrun3 & _ & _ & Hc3).
    eauto.
  - reflexivity.
Qed.

(** ** A small Level-1A product

    The schema of a new product comes from [init_l1a], which is not part
    of the sources at hand; this one declares the groups and the
    variables that [L1Aio] names, with [number_of_images] and
    [hk_packets] unlimited as [dims] has them by default. *)

Module Sample.

Definition unlimited : NetCDF.Dimension :=
  {| NetCDF.size := 0; NetCDF.isunlimited := true |}.

Definition variable (dims : list string) (attrs : dict NetCDF.attr) : NetCDF.NcVariable :=
  {| NetCDF.dims := dims; NetCDF.data := [];
     NetCDF.fill_value := Scalar (SInt 0); NetCDF.var_attrs := attrs |}.

Definition per_image (path : string) : string * NetCDF.NcVariable :=
  (path, variable ["number_of_images"] []).

Definition per_packet (path : string) : string * NetCDF.NcVariable :=
  (path, variable ["hk_packets"] []).

(** The schema, with the reference date 2020-05-15 on [image_time], as
    text. *)
Definition l1a : NetCDF.Dataset :=
  {| NetCDF.dimensions :=
       [ ("number_of_images", unlimited);
         ("samples_per_image", {| NetCDF.size := 2; NetCDF.isunlimited := false |});
         ("hk_packets", unlimited) ];
     NetCDF.groups :=
       [ ("/science_data", []); ("/image_attributes", []); ("/engineering_data", []) ];
     NetCDF.variables :=
       [ ("/science_data/detector_images",
          variable ["number_of_images"; "samples_per_image"] []);
         per_image "/science_data/detector_telemetry";
         per_image "/image_attributes/binning_table";
         per_image "/image_attributes/digital_offset";
         per_image "/image_attributes/nr_coadditions";
         per_image "/image_attributes/exposure_time";
         per_image "/image_attributes/icu_time_sec";
         per_image "/image_attributes/icu_time_subsec";
         ("/image_attributes/image_time",
          variable ["number_of_images"]
            [ ("year", NetCDF.AStr "2020"); ("month", NetCDF.AStr "5");
              ("day", NetCDF.AStr "15") ]);
         per_image "/image_attributes/image_ID";
         per_packet "/engineering_data/NomHK_telemetry";
         per_packet "/engineering_data/DemHK_telemetry";
         per_packet "/engineering_data/temp_detector";
         per_packet "/engineering_data/temp_housing";
         per_packet "/engineering_data/temp_radiator";
         per_packet "/engineering_data/HK_tlm_time" ];
     NetCDF.ncattrs := [] |}.

Definition ref_date : Datetime.datetime :=
  {| Datetime.ordinal := Datetime.ymd2ord 2020 5 15;
     Datetime.micros := 0; Datetime.utc := true |}.

(** A Level-1A product just created, in a process that made no other. *)
Definition created : Lv1io.heap :=
  ({| Lv1io.processing_level := L1A; Lv1io.product := "SPX1_L1A_sample.nc";
      Lv1io.fid := Some l1a; Lv1io.epoch := ref_date |},
   new_process).

(** Three image times, in seconds of the day. *)
Definition times : list ndarray :=
  [ Scalar (SInt 10); Scalar (SInt 11); Scalar (SInt 12) ].

End Sample.

Lemma sample_open_image_time :
  open_variable Sample.created "/image_attributes/image_time" Sample.l1a
    "/image_attributes/image_time"
    (Sample.variable ["number_of_images"]
       [ ("year", NetCDF.AStr "2020"); ("month", NetCDF.AStr "5");
         ("day", NetCDF.AStr "15") ]).
Proof. split; reflexivity. Qed.

Lemma sample_unlimited_image_time :
  unlimited_first Sample.l1a
    (Sample.variable ["number_of_images"]
       [ ("year", NetCDF.AStr "2020"); ("month", NetCDF.AStr "5");
         ("day", NetCDF.AStr "15") ])
    "number_of_images" Sample.unlimited.
Proof. split; [exists [] | exists [] | ]; reflexivity. Qed.

Lemma C1_rowwise_and_bulk_counter_witness :
  exists h1 h2,
    set_dset_each "/image_attributes/image_time" Sample.times Sample.created
    = (Ok tt, h1)
    /\ Lv1io.set_dset "/image_attributes/image_time" (Array Sample.times) (-1)
         Sample.created
       = (Ok tt, h2)
    /\ counter h1 "/image_attributes/image_time"
       = counter h2 "/image_attributes/image_time"
    /\ counter h2 "/image_attributes/image_time" = Some 3.
Proof.
  exact (proj1 (C1_rowwise_and_bulk_counter
                  Sample.created "/image_attributes/image_time" Sample.l1a _ _
                  "number_of_images" Sample.unlimited 0 Sample.times
                  sample_open_image_time sample_unlimited_image_time eq_refl)).
Defined.

(** ** A variable without a counter *)

(** The dimensions of [v] are the fixed dimensions [dl], none of them
    empty. *)
Definition fixed_shape (ds : NetCDF.Dataset) (v : NetCDF.NcVariable)
    (dl : list NetCDF.Dimension) : Prop :=
  NetCDF.get_dims ds (NetCDF.dims v) = Ok dl
  /\ Forall (fun dim => NetCDF.isunlimited dim = false /\ 0 < NetCDF.size dim) dl.

(** [value] is a scalar, or an array of the shape of a variable of
    dimensions [dl]. *)
Definition fits (dl : list NetCDF.Dimension) (value : ndarray) : Prop :=
  match value with
  | Scalar _ => True
  | Array _ => Np.has_shape (NetCDF.datashape dl) value
  end.

(** The entries along the first dimension of a variable of dimensions
    [dl] that holds [value]: the rows of an array, and as many copies of
    a scalar as the variable has elements. *)
Definition entries (dl : list NetCDF.Dimension) (value : ndarray) : list ndarray :=
  match value with
  | Array rows => rows
  | Scalar s =>
      repeat (Np.tile s (tl (NetCDF.datashape dl)))
        (Z.to_nat (hd 1 (NetCDF.datashape dl)))
  end.

(** The test of [set_dset] passes and the variable is looked up. *)
Lemma set_dset_unfold (h : Lv1io.heap) name ds path v value ibgn :
  open_variable h name ds path v ->
  Lv1io.set_dset name value ibgn h
  = (Lv1io.store name value ibgn ;;;
     n <- Lv1io.stored_getitem name ;;
     Lv1io.stored_setitem name (n + rows_of value)) h.
Proof.
  intros [Hfid Hpres Hitem].
  unfold Lv1io.set_dset. unfold bind at 1.
  fold (grp_name_of name) (var_name_of name). now rewrite Hpres.
Qed.

Lemma set_dset_unlimited_no_counter h name ds path v dname dim value ibgn :
  open_variable h name ds path v ->
  counter h name = None ->
  unlimited_first ds v dname dim ->
  ibgn < 0 ->
  Lv1io.set_dset name value ibgn h = (Raise KeyError, h).
Proof.
  intros Hopen Hc [[rest Hdims] [drest Hget] Hunl] Hneg.
  rewrite (set_dset_unfold h name ds path v) by exact Hopen.
  destruct Hopen as [Hfid _ Hitem]. destruct h as [self p]. cbn [fst snd] in *.
  unfold bind, Lv1io.store, bind, Lv1io.fid_getitem, Lv1io.fid_member, lift.
  cbn [fst snd]. step Hfid. step Hitem. step Hfid.
  rewrite Hget, Hdims, Hunl. cbv beta iota.
  apply Z.ltb_lt in Hneg. rewrite Hneg.
  unfold Lv1io.stored_getitem. cbn [fst snd].
  unfold counter in Hc. cbn [fst snd] in Hc. now rewrite Hc.
Qed.

Lemma set_dset_unlimited_at_no_counter h name ds path v dname dim value ibgn :
  open_variable h name ds path v ->
  counter h name = None ->
  unlimited_first ds v dname dim ->
  0 <= ibgn ->
  Lv1io.set_dset name value ibgn h
  = (Raise KeyError,
     (Lv1io.with_fid (fst h)
        (Some (NetCDF.assign_from ds path v dname dim ibgn value)),
      snd h)).
Proof.
  intros Hopen Hc [[rest Hdims] [drest Hget] Hunl] Hpos.
  rewrite (set_dset_unfold h name ds path v) by exact Hopen.
  destruct Hopen as [Hfid _ Hitem]. destruct h as [self p]. cbn [fst snd] in *.
  unfold bind, Lv1io.store, bind, Lv1io.fid_getitem, Lv1io.fid_member, lift.
  cbn [fst snd]. step Hfid. step Hitem. step Hfid.
  rewrite Hget, Hdims, Hunl. cbv beta iota.
  apply Z.ltb_ge in Hpos. rewrite Hpos.
  unfold ret, Lv1io.put_fid, Lv1io.stored_getitem.
  cbn [fst snd Lv1io.with_fid Lv1io.processing_level].
  unfold counter in Hc. cbn [fst snd] in Hc. now rewrite Hc.
Qed.

(** The rows of an array [value] have the shape of the entries of [v]:
    the library refuses other arrays, which the model of a write along
    an unlimited dimension does not tell. *)
Definition rows_fit (ds : NetCDF.Dataset) (v : NetCDF.NcVariable) (value : ndarray)
    : Prop :=
  match value with
  | Scalar _ => True
  | Array rows =>
      exists dl,
        NetCDF.get_dims ds (NetCDF.dims v) = Ok dl
        /\ Forall (Np.has_shape (map NetCDF.size (tl dl))) rows
  end.

(** The entries that [var[ibgn:, ...] = value] sets: the rows of an
    array from [ibgn] on, and a scalar in every entry from [ibgn] to the
    end of the dimension, of [n] entries, or in the first entry of an
    empty one. *)
Definition holds_from (data' : list ndarray) (ibgn n : Z) (value : ndarray) : Prop :=
  match value with
  | Array rows =>
      forall i, (i < List.length rows)%nat ->
                nth_error data' (Z.to_nat ibgn + i) = nth_error rows i
  | Scalar s =>
      forall i, ibgn <= i < (if n =? 0 then 1 else n) ->
                nth_error data' (Z.to_nat i) = Some (Scalar s)
  end.

Lemma place_holds (v : NetCDF.NcVariable) (ibgn : nat) (rows : list ndarray) (i : nat) :
  (i < List.length rows)%nat ->
  nth_error (NetCDF.place v ibgn rows) (ibgn + i) = nth_error rows i.
Proof.
  intros Hi. unfold NetCDF.place.
  assert (Hlen : List.length
                   (firstn ibgn (NetCDF.data v
                                 ++ repeat (NetCDF.fill_value v)
                                      (ibgn - List.length (NetCDF.data v))))
                 = ibgn).
  { rewrite length_firstn, length_app, repeat_length. lia. }
  rewrite nth_error_app2 by lia. rewrite Hlen.
  replace (ibgn + i - ibgn)%nat with i by lia.
  now rewrite nth_error_app1.
Qed.

Lemma assign_from_holds ds path v dname dim ibgn value :
  get (NetCDF.variables ds) path = Some v ->
  0 <= ibgn ->
  exists data',
    option_map NetCDF.data
      (get (NetCDF.variables (NetCDF.assign_from ds path v dname dim ibgn value)) path)
    = Some data'
    /\ holds_from data' ibgn (NetCDF.size dim) value.
Proof.
  intros Hv Hpos. unfold NetCDF.assign_from.
  destruct value as [s|rows].
  - set (k := Z.to_nat ((if NetCDF.size dim =? 0 then 1 else NetCDF.size dim) - ibgn)).
    destruct (repeat (Scalar s) k) as [|r rs] eqn:Erep.
    + exists (NetCDF.data v). rewrite Hv. split; [reflexivity|].
      intros i Hi. exfalso.
      assert (k = 0%nat) by (destruct k; [reflexivity|discriminate]).
      unfold k in *. lia.
    + eexists. unfold NetCDF.with_dimension, NetCDF.with_variable.
      cbn [NetCDF.variables]. rewrite get_set_same. cbn [option_map NetCDF.data NetCDF.with_data].
      split; [reflexivity|]. intros i Hi. rewrite <- Erep.
      replace (Z.to_nat i) with (Z.to_nat ibgn + (Z.to_nat i - Z.to_nat ibgn))%nat by lia.
      rewrite place_holds by (rewrite repeat_length; unfold k; lia).
      apply nth_error_repeat. unfold k. lia.
  - destruct rows as [|r rs].
    + exists (NetCDF.data v). rewrite Hv. split; [reflexivity|].
      intros i Hi. cbn in Hi. lia.
    + eexists. unfold NetCDF.with_dimension, NetCDF.with_variable.
      cbn [NetCDF.variables]. rewrite get_set_same. cbn [option_map NetCDF.data NetCDF.with_data].
      split; [reflexivity|]. intros i Hi. now apply place_holds.
Qed.

(** ** Writing the whole of a variable *)

Lemma prod_positive (extents : list Z) :
  Forall (fun n => 0 < n) extents -> 0 < Np.prod extents.
Proof.
  induction 1 as [|n rest Hn _ IH]; cbn [Np.prod fold_right]; [lia|].
  fold (Np.prod rest). nia.
Qed.

Lemma datashape_positive (dl : list NetCDF.Dimension) :
  Forall (fun dim => NetCDF.isunlimited dim = false /\ 0 < NetCDF.size dim) dl ->
  Forall (fun n => 0 < n) (NetCDF.datashape dl).
Proof.
  intros Hdl. unfold NetCDF.datashape. destruct dl as [|d dl'].
  - constructor; [lia|constructor].
  - apply Forall_map. eapply Forall_impl; [|exact Hdl]. now intros a [_ Ha].
Qed.

Lemma shape_tile (s : scalar) (extents : list Z) :
  Forall (fun n => 0 < n) extents -> Np.shape (Np.tile s extents) = extents.
Proof.
  induction 1 as [|n rest Hn _ IH]; [reflexivity|].
  cbn [Np.tile Np.shape]. rewrite repeat_length, Z2Nat.id by lia.
  destruct (Z.to_nat n) as [|k] eqn:Ek; [lia|].
  cbn [repeat]. now rewrite IH.
Qed.

Lemma shape_has_shape (extents : list Z) :
  Forall (fun n => 0 < n) extents ->
  forall value, Np.has_shape extents value -> Np.shape value = extents.
Proof.
  induction 1 as [|n rest Hn _ IH]; intros [s|rows]; cbn [Np.has_shape Np.shape];
    try easy.
  intros [Hlen Hrows]. rewrite Hlen. f_equal.
  destruct rows as [|row rows']; [cbn in Hlen; lia|].
  apply IH. now apply Forall_inv in Hrows.
Qed.

(** An array of the shape of the variable is stored as it is. *)
Lemma assign_all_array ds path v dl rows :
  Forall (fun dim => NetCDF.isunlimited dim = false /\ 0 < NetCDF.size dim) dl ->
  Np.has_shape (NetCDF.datashape dl) (Array rows) ->
  NetCDF.assign_all ds path v dl (Array rows)
  = Ok (NetCDF.with_variable ds path (NetCDF.with_data v rows)).
Proof.
  intros Hdl Hhas.
  pose proof (shape_has_shape _ (datashape_positive dl Hdl) _ Hhas) as Hshape.
  pose proof (prod_positive _ (datashape_positive dl Hdl)) as Hprod.
  unfold NetCDF.assign_all, NetCDF.conformed, Np.ndim, Np.size.
  rewrite Hshape, Nat.eqb_refl.
  destruct (list_eq_dec Z.eq_dec (NetCDF.datashape dl) (NetCDF.datashape dl))
    as [_|Hne]; [|contradiction].
  cbn [negb orb andb]. unfold Np.size. rewrite Hshape, Z.eqb_refl.
  destruct (Z.eqb_spec (Np.prod (NetCDF.datashape dl)) 0); [lia|reflexivity].
Qed.

(** A scalar fills the variable. *)
Lemma assign_all_scalar ds path v dl s :
  Forall (fun dim => NetCDF.isunlimited dim = false /\ 0 < NetCDF.size dim) dl ->
  NetCDF.assign_all ds path v dl (Scalar s)
  = Ok (NetCDF.with_variable ds path (NetCDF.with_data v (entries dl (Scalar s)))).
Proof.
  intros Hdl.
  pose proof (datashape_positive dl Hdl) as Hpos.
  pose proof (prod_positive _ Hpos) as Hprod.
  unfold NetCDF.assign_all, NetCDF.conformed, Np.size.
  rewrite (shape_tile s _ Hpos), Z.eqb_refl.
  destruct (Z.eqb_spec (Np.prod (NetCDF.datashape dl)) 0); [lia|].
  unfold entries. destruct (NetCDF.datashape dl) as [|first rest] eqn:Eshape.
  - unfold NetCDF.datashape in Eshape. destruct dl; discriminate.
  - reflexivity.
Qed.

Lemma assign_all_fits ds path v dl value :
  Forall (fun dim => NetCDF.isunlimited dim = false /\ 0 < NetCDF.size dim) dl ->
  fits dl value ->
  NetCDF.assign_all ds path v dl value
  = Ok (NetCDF.with_variable ds path (NetCDF.with_data v (entries dl value))).
Proof.
  intros Hdl Hfits. destruct value as [s|rows].
  - now apply assign_all_scalar.
  - now apply assign_all_array.
Qed.

(** An array of one axis that is not empty and has not the length of
    the one dimension of the variable is refused. *)
Lemma assign_all_other_length ds path v dim rows :
  Np.has_shape [Z.of_nat (List.length rows)] (Array rows) ->
  rows <> [] ->
  Z.of_nat (List.length rows) <> NetCDF.size dim ->
  NetCDF.assign_all ds path v [dim] (Array rows) = Raise IndexError.
Proof.
  intros Hhas Hne Hlen.
  assert (Hshape : Np.shape (Array rows) = [Z.of_nat (List.length rows)]).
  { apply shape_has_shape; [|exact Hhas].
    constructor; [|constructor]. destruct rows; [contradiction|cbn; lia]. }
  assert (Hndim : Np.ndim (Array rows) = 1%nat)
    by (unfold Np.ndim; now rewrite Hshape).
  unfold NetCDF.assign_all, NetCDF.conformed. rewrite Hndim.
  cbn [NetCDF.datashape map List.length Nat.eqb negb orb Nat.ltb Nat.leb andb].
  rewrite andb_false_r. unfold Np.size. rewrite Hshape.
  cbn [Np.prod fold_right].
  destruct (Z.eqb_spec (Z.of_nat (List.length rows) * 1) 0) as [E|_].
  - destruct rows; [contradiction|cbn in E; lia].
  - destruct (Z.eqb_spec (Z.of_nat (List.length rows) * 1) (NetCDF.size dim * 1));
      [lia|reflexivity].
Qed.

(** [store] on a variable of fixed dimensions. *)
Lemma store_fixed h name ds path v dl value ibgn :
  open_variable h name ds path v ->
  fixed_shape ds v dl ->
  Lv1io.store name value ibgn h
  = match NetCDF.assign_all ds path v dl value with
    | Ok ds' => (Ok tt, (Lv1io.with_fid (fst h) (Some ds'), snd h))
    | Raise e => (Raise e, h)
    end.
Proof.
  intros [Hfid _ Hitem] [Hget Hdl]. destruct h as [self p]. cbn [fst snd] in *.
  unfold Lv1io.store, bind, Lv1io.fid_getitem, Lv1io.fid_member, lift.
  cbn [fst snd]. step Hfid. step Hitem. step Hfid.
  rewrite Hget. cbv beta iota.
  assert (Hall :
    match NetCDF.assign_all ds path v dl value with
    | Ok a => Lv1io.put_fid (Some a) (self, p)
    | Raise e => (Raise e, (self, p))
    end
    = match NetCDF.assign_all ds path v dl value with
      | Ok ds' => (Ok tt, (Lv1io.with_fid self (Some ds'), p))
      | Raise e => (Raise e, (self, p))
      end).
  { now destruct (NetCDF.assign_all ds path v dl value). }
  destruct (NetCDF.dims v) as [|dname rest]; destruct dl as [|dim drest];
    try exact Hall.
  apply Forall_inv in Hdl. destruct Hdl as [Hfix _]. rewrite Hfix. exact Hall.
Qed.

(** A value that fits is stored, and then the counter is looked up. *)
Lemma set_dset_fixed h name ds path v dl value ibgn :
  open_variable h name ds path v ->
  fixed_shape ds v dl ->
  fits dl value ->
  Lv1io.set_dset name value ibgn h
  = match counter h name with
    | Some c =>
        (Ok tt,
         written h (NetCDF.with_variable ds path (NetCDF.with_data v (entries dl value)))
           name (c + rows_of value))
    | None =>
        (Raise KeyError,
         (Lv1io.with_fid (fst h)
            (Some (NetCDF.with_variable ds path
                     (NetCDF.with_data v (entries dl value)))),
          snd h))
    end.
Proof.
  intros Hopen Hshape Hfits.
  rewrite (set_dset_unfold h name ds path v) by exact Hopen.
  unfold bind at 1. rewrite (store_fixed h name ds path v dl) by assumption.
  rewrite assign_all_fits by (apply Hshape || exact Hfits).
  destruct h as [self p]. unfold counter. cbn [fst snd].
  unfold bind, Lv1io.stored_getitem, Lv1io.stored_setitem, written.
  cbn [fst snd Lv1io.with_fid Lv1io.processing_level].
  now destruct (get (Lv1io.dset_stored (Lv1io.processing_level self) p) name).
Qed.

(** A value that the library refuses leaves the product as it was. *)
Lemma set_dset_fixed_refused h name ds path v dl value ibgn e :
  open_variable h name ds path v ->
  fixed_shape ds v dl ->
  NetCDF.assign_all ds path v dl value = Raise e ->
  Lv1io.set_dset name value ibgn h = (Raise e, h).
Proof.
  intros Hopen Hshape Hall.
  rewrite (set_dset_unfold h name ds path v) by exact Hopen.
  unfold bind at 1. rewrite (store_fixed h name ds path v dl) by assumption.
  now rewrite Hall.
Qed.

Lemma stored_data_with_fid (self : Lv1io.t) (p : Lv1io.process) ds path v :
  stored_data (Lv1io.with_fid self (Some (NetCDF.with_variable ds path v)), p) path
  = Some (NetCDF.data v).
Proof.
  unfold stored_data. cbn [fst Lv1io.fid Lv1io.with_fid].
  unfold NetCDF.with_variable. cbn [NetCDF.variables]. now rewrite get_set_same.
Qed.

(** Case analysis on what an innermost [match] of the goal inspects. *)
Ltac break_match :=
  match goal with
  | |- context [match ?x with _ => _ end] =>
      lazymatch x with
      | context [match _ with _ => _ end] => fail
      | _ => destruct x
      end
  end.

Lemma variable_present_state grp var (h : Lv1io.heap) :
  snd (Lv1io.variable_present grp var h) = h.
Proof.
  destruct h as [self p].
  unfold Lv1io.variable_present, bind, Lv1io.fid_getitem, Lv1io.fid_member, ret, raise.
  cbn [fst snd]. destruct (Lv1io.fid self) eqn:Hfid;
    repeat (cbn [fst snd]; rewrite ?Hfid; try break_match); reflexivity.
Qed.

(** Storing a value touches the file of the product and nothing else. *)
Lemma store_process name value ibgn (h : Lv1io.heap) :
  snd (snd (Lv1io.store name value ibgn h)) = snd h
  /\ Lv1io.processing_level (fst (snd (Lv1io.store name value ibgn h)))
     = Lv1io.processing_level (fst h).
Proof.
  destruct h as [self p].
  unfold Lv1io.store, bind, Lv1io.fid_getitem, Lv1io.fid_member, lift, ret, raise,
    Lv1io.put_fid, Lv1io.stored_getitem.
  cbn [fst snd].
  destruct (Lv1io.fid self) eqn:Hfid;
    repeat (cbn [fst snd Lv1io.with_fid Lv1io.processing_level Lv1io.fid];
            rewrite ?Hfid; try break_match);
    auto.
Qed.

Lemma set_dset_no_counter_raises name value ibgn (h : Lv1io.heap) :
  counter h name = None ->
  exists e h', Lv1io.set_dset name value ibgn h = (Raise e, h').
Proof.
  intros Hc. unfold Lv1io.set_dset. unfold bind at 1.
  pose proof (variable_present_state (grp_name_of name) (var_name_of name) h) as Hst.
  fold (grp_name_of name) (var_name_of name).
  destruct (Lv1io.variable_present (grp_name_of name) (var_name_of name) h)
    as [[present|e] h0]; cbn [snd] in Hst; subst h0; [|eauto].
  destruct present; cbn [negb]; [|unfold raise; eauto].
  unfold bind at 1.
  destruct (store_process name value ibgn h) as [Hp Hlv].
  destruct (Lv1io.store name value ibgn h) as [[[]|e] [self' p']];
    cbn [fst snd] in *; [|eauto].
  unfold bind, Lv1io.stored_getitem. cbn [fst snd].
  unfold counter in Hc. rewrite Hlv, Hp, Hc. eauto.
Qed.

Lemma get_not_in_keys {V} (d : dict V) (k : string) :
  ~ In k (keys d) -> get d k = None.
Proof.
  unfold keys. induction d as [|[k' v'] d IH]; simpl; [reflexivity|].
  intros Hn. destruct (String.eqb_spec k' k) as [->|Hne].
  - exfalso. auto.
  - apply IH. auto.
Qed.

Definition demhk_name : string := "/engineering_data/DemHK_telemetry".

Lemma demhk_no_counter (g : Lv1io.heap) :
  Lv1io.processing_level (fst g) = L1A ->
  keys (Lv1io.L1Aio_dset_stored (snd g)) = keys L1Aio.dset_stored ->
  counter g demhk_name = None.
Proof.
  intros Hlv Hkeys. unfold counter. rewrite Hlv. cbn [Lv1io.dset_stored].
  apply get_not_in_keys. rewrite Hkeys. cbv. intuition discriminate.
Qed.

(** C10, as the code has it. For a variable of the file that has no
    counter in the table of its class, [set_dset] never returns
    normally, and what it leaves behind depends on the variable and on
    the value.  When the first dimension is unlimited and no index is
    given, the counter is looked up first: [KeyError], and nothing is
    written.  When an index is given, the value, if its rows have the
    shape of the entries of the variable, is stored from that index on
    before the counter is looked up: [KeyError], and the file holds the
    value.  When the dimensions are fixed, or there is none, a
    value that fits the variable is stored before the counter is looked
    up: [KeyError], and the file holds the value; an array of one axis,
    of two elements or more and of another length than the variable, is
    refused by the library with [IndexError] or [ValueError] before the
    counter is looked up, and nothing is written.
    [fill_demhk] with data never returns normally in a Level-1A product
    whose table has the keys of [L1Aio.dset_stored]; it leaves the
    product as it was when the telemetry variable lies along an
    unlimited dimension, and has stored the telemetry when the
    dimensions are fixed and the telemetry fits. *)
Theorem C10_write_without_counter
    (h : Lv1io.heap) (name : string) (ds : NetCDF.Dataset) (path : string)
    (v : NetCDF.NcVariable) (value : ndarray) (ibgn : Z) :
  open_variable h name ds path v ->
  counter h name = None ->
  (exists e h', Lv1io.set_dset name value ibgn h = (Raise e, h'))
  /\ (forall dname dim,
      unlimited_first ds v dname dim ->
      (ibgn < 0 -> Lv1io.set_dset name value ibgn h = (Raise KeyError, h))
      /\ (0 <= ibgn ->
          rows_fit ds v value ->
          exists h' data',
            Lv1io.set_dset name value ibgn h = (Raise KeyError, h')
            /\ snd h' = snd h
            /\ stored_data h' path = Some data'
            /\ holds_from data' ibgn (NetCDF.size dim) value))
  /\ (forall dl,
        fixed_shape ds v dl ->
        (fits dl value ->
         exists h',
           Lv1io.set_dset name value ibgn h = (Raise KeyError, h')
           /\ snd h' = snd h
           /\ stored_data h' path = Some (entries dl value))
        /\ (forall dim rows,
              dl = [dim] -> value = Array rows ->
              Np.has_shape [Z.of_nat (List.length rows)] value ->
              (2 <= List.length rows)%nat ->
              Z.of_nat (List.length rows) <> NetCDF.size dim ->
              exists e,
                (e = IndexError \/ e = ValueError)
                /\ Lv1io.set_dset name value ibgn h = (Raise e, h)))
  /\ (forall (g : Lv1io.heap) (demhk_data : list ndarray),
        Lv1io.processing_level (fst g) = L1A ->
        keys (Lv1io.L1Aio_dset_stored (snd g)) = keys L1Aio.dset_stored ->
        demhk_data <> [] ->
        (exists e g', L1Aio.fill_demhk demhk_data g = (Raise e, g'))
        /\ (forall ds1 path1 v1,
              open_variable g demhk_name ds1 path1 v1 ->
              (forall dname dim,
                  unlimited_first ds1 v1 dname dim ->
                  L1Aio.fill_demhk demhk_data g = (Raise KeyError, g))
              /\ (forall dl,
                    fixed_shape ds1 v1 dl ->
                    Np.has_shape (NetCDF.datashape dl) (Array demhk_data) ->
                    exists g',
                      L1Aio.fill_demhk demhk_data g = (Raise KeyError, g')
                      /\ stored_data g' path1 = Some demhk_data))).
Proof.
  intros Hopen Hc. split; [now apply set_dset_no_counter_raises|]. split; [|split].
  - intros dname dim Huf. split; [intros Hi|intros Hi _].
    + now apply set_dset_unlimited_no_counter with (ds := ds) (path := path)
        (v := v) (dname := dname) (dim := dim).
    + destruct (getitem_variable _ _ _ _ (ov_item _ _ _ _ _ Hopen)) as (Hv & _ & _).
      destruct (assign_from_holds ds path v dname dim ibgn value Hv Hi)
        as (data' & Hdata & Hholds).
      eexists. exists data'. split; [|split; [|split]].
      * exact (set_dset_unlimited_at_no_counter h name ds path v dname dim value ibgn
                 Hopen Hc Huf Hi).
      * reflexivity.
      * unfold stored_data. cbn [fst Lv1io.fid Lv1io.with_fid]. exact Hdata.
      * exact Hholds.
  - intros dl Hshape. split.
    + intros Hfits. eexists. split; [|split].
      * rewrite (set_dset_fixed h name ds path v dl) by assumption.
        rewrite Hc. reflexivity.
      * reflexivity.
      * apply stored_data_with_fid.
    + intros dim rows -> -> Hndim Hne Hlen.
      exists IndexError. split; [now left|].
      apply (set_dset_fixed_refused h name ds path v [dim]); [exact Hopen|exact Hshape|].
      apply assign_all_other_length; [exact Hndim| |exact Hlen].
      intros ->. cbn in Hne. lia.
  - intros g demhk_data Hlv Hkeys Hne.
    pose proof (demhk_no_counter g Hlv Hkeys) as Hg.
    assert (Hrun : L1Aio.fill_demhk demhk_data g
                   = Lv1io.set_dset demhk_name (Array demhk_data) (-1) g).
    { unfold L1Aio.fill_demhk. destruct demhk_data; [contradiction|reflexivity]. }
    rewrite Hrun. split.
    + now apply set_dset_no_counter_raises.
    + intros ds1 path1 v1 Hopen1. split.
      * intros dname dim Huf.
        apply set_dset_unlimited_no_counter with (ds := ds1) (path := path1)
          (v := v1) (dname := dname) (dim := dim); [assumption..|lia].
      * intros dl Hshape Hfits. eexists. split.
        -- rewrite (set_dset_fixed g demhk_name ds1 path1 v1 dl) by assumption.
           rewrite Hg. reflexivity.
        -- apply stored_data_with_fid.
Qed.

Lemma sample_open_demhk :
  open_variable Sample.created demhk_name Sample.l1a demhk_name
    (Sample.variable ["hk_packets"] []).
Proof. split; reflexivity. Qed.

(** The sample schema with two housekeeping packets to a product:
    [hk_packets] has a fixed size. *)
Definition sample_packets_file : NetCDF.Dataset :=
  NetCDF.with_dimension Sample.l1a "hk_packets"
    {| NetCDF.size := 2; NetCDF.isunlimited := false |}.

Definition sample_packets : Lv1io.heap :=
  (Lv1io.with_fid (fst Sample.created) (Some sample_packets_file), new_process).

(** In the sample product the DemHK variable lies along the unlimited
    dimension [hk_packets]: [fill_demhk] raises [KeyError] and the
    product is as it was, nothing is stored.  With [hk_packets] of two
    entries, telemetry of three packets is refused by the library and
    again nothing is stored.  Telemetry of two packets is stored. *)
Lemma C10_counterexample :
  open_variable Sample.created demhk_name Sample.l1a demhk_name
    (Sample.variable ["hk_packets"] [])
  /\ counter Sample.created demhk_name = None
  /\ L1Aio.fill_demhk [Scalar (SInt 7)] Sample.created
     = (Raise KeyError, Sample.created)
  /\ Lv1io.set_dset demhk_name (Array [Scalar (SInt 7)]) (-1) Sample.created
     = (Raise KeyError, Sample.created)
  /\ stored_data Sample.created demhk_name = Some []
  /\ open_variable sample_packets demhk_name sample_packets_file demhk_name
       (Sample.variable ["hk_packets"] [])
  /\ counter sample_packets demhk_name = None
  /\ (exists e,
        (e = IndexError \/ e = ValueError)
        /\ L1Aio.fill_demhk [Scalar (SInt 7); Scalar (SInt 8); Scalar (SInt 9)]
             sample_packets
           = (Raise e, sample_packets))
  /\ stored_data sample_packets demhk_name = Some []
  /\ stored_data
       (snd (L1Aio.fill_demhk [Scalar (SInt 7); Scalar (SInt 8)] sample_packets))
       demhk_name
     = Some [Scalar (SInt 7); Scalar (SInt 8)].
Proof.
  split; [exact sample_open_demhk|]. split; [reflexivity|].
  split; [reflexivity|]. split; [reflexivity|]. split; [reflexivity|].
  split; [split; reflexivity|]. split; [reflexivity|].
  split; [exists IndexError; split; [now left|reflexivity]|].
  split; reflexivity.
Qed.

Lemma C10_write_without_counter_witness :
  open_variable Sample.created demhk_name Sample.l1a demhk_name
    (Sample.variable ["hk_packets"] [])
  /\ counter Sample.created demhk_name = None
  /\ (exists h' data',
        Lv1io.set_dset demhk_name (Array [Scalar (SInt 7)]) 4 Sample.created
        = (Raise KeyError, h')
        /\ snd h' = snd Sample.created
        /\ stored_data h' demhk_name = Some data'
        /\ nth_error data' 4 = Some (Scalar (SInt 7)))
  /\ stored_data Sample.created demhk_name = Some [].
Proof.
  assert (Hopen : open_variable Sample.created demhk_name Sample.l1a demhk_name
                    (Sample.variable ["hk_packets"] []))
    by (split; reflexivity).
  assert (Hc : counter Sample.created demhk_name = None) by reflexivity.
  assert (Huf : unlimited_first Sample.l1a (Sample.variable ["hk_packets"] [])
                  "hk_packets" Sample.unlimited)
    by (split; [exists [] | exists [] | ]; reflexivity).
  assert (Hpos : 0 <= 4) by lia.
  assert (Hfit : rows_fit Sample.l1a (Sample.variable ["hk_packets"] [])
                   (Array [Scalar (SInt 7)])).
  { eexists. split; [reflexivity|]. repeat constructor. }
  split; [exact Hopen|]. split; [exact Hc|]. split; [|reflexivity].
  destruct (proj2 (proj1 (proj2 (C10_write_without_counter Sample.created demhk_name
                                   Sample.l1a demhk_name
                                   (Sample.variable ["hk_packets"] [])
                                   (Array [Scalar (SInt 7)]) 4 Hopen Hc))
                     "hk_packets" Sample.unlimited Huf) Hpos Hfit)
    as (h' & data' & Hrun & Hp & Hdata & Hholds).
  exists h', data'. split; [exact Hrun|]. split; [exact Hp|]. split; [exact Hdata|].
  exact (Hholds 0%nat (Nat.lt_0_succ 0)).
Defined.

(** ** Closing a product *)

Lemma bind_ok {S A B} (m : M S A) (k : A -> M S B) (s s' : S) (b : B) :
  bind m k s = (Ok b, s') ->
  exists a s1, m s = (Ok a, s1) /\ k a s1 = (Ok b, s').
Proof.
  unfold bind. destruct (m s) as [[a|e] s1]; [eauto | discriminate].
Qed.

Lemma release_ok (h h' : Lv1io.heap) (u : unit) :
  Check.release h = (Ok u, h') ->
  exists ds,
    Lv1io.fid (fst h) = Some ds
    /\ h' = (Lv1io.with_fid (fst h) None,
             {| Lv1io.Lv1io_dset_stored := Lv1io.Lv1io_dset_stored (snd h);
                Lv1io.L1Aio_dset_stored := Lv1io.L1Aio_dset_stored (snd h);
                Lv1io.L1Bio_dset_stored := Lv1io.L1Bio_dset_stored (snd h);
                Lv1io.L1Cio_dset_stored := Lv1io.L1Cio_dset_stored (snd h);
                Lv1io.stdout := Lv1io.stdout (snd h);
                Lv1io.disk :=
                  set (Lv1io.disk (snd h)) (Lv1io.product (fst h)) ds |}).
Proof.
  destruct h as [self p].
  unfold Check.release, Lv1io.fid_close, bind, Lv1io.fid_member, Lv1io.put_fid.
  cbn [fst snd]. destruct (Lv1io.fid self) as [ds|]; [|discriminate].
  cbn [fst snd]. intros [= _ <-]. eauto.
Qed.

Lemma release_closes (h h' : Lv1io.heap) (u : unit) :
  Check.release h = (Ok u, h') -> Lv1io.fid (fst h') = None.
Proof.
  intros H. apply release_ok in H as (ds & _ & ->). reflexivity.
Qed.

Lemma L1Aio_close_closes (h h' : Lv1io.heap) (u : unit) :
  L1Aio.close h = (Ok u, h') -> Lv1io.fid (fst h') = None.
Proof.
  unfold L1Aio.close. destruct (Lv1io.fid (fst h)) eqn:Hfid.
  - intros H. apply bind_ok in H as (empty & h1 & _ & H).
    destruct empty; [now apply release_closes in H|].
    repeat (apply bind_ok in H as (? & ? & _ & H)).
    unfold Lv1io.put_fid in H. now injection H as _ <-.
  - now intros [= _ <-].
Qed.

Lemma close_binned_closes time_var check (h h' : Lv1io.heap) (u : unit) :
  Check.close_binned time_var check h = (Ok u, h') -> Lv1io.fid (fst h') = None.
Proof.
  unfold Check.close_binned. destruct (Lv1io.fid (fst h)) eqn:Hfid.
  - intros H. apply bind_ok in H as (empty & h1 & _ & H).
    destruct empty; [now apply release_closes in H|].
    repeat (apply bind_ok in H as (? & ? & _ & H)).
    unfold Lv1io.put_fid in H. now injection H as _ <-.
  - now intros [= _ <-].
Qed.

(** A [close] that returns leaves no file behind [fid]. *)
Lemma close_closes (h h' : Lv1io.heap) (u : unit) :
  close h = (Ok u, h') -> Lv1io.fid (fst h') = None.
Proof.
  unfold close. destruct (Lv1io.processing_level (fst h)).
  - unfold Lv1io.close. destruct (Lv1io.fid (fst h)) eqn:Hfid.
    + apply release_closes.
    + now intros [= _ <-].
  - apply L1Aio_close_closes.
  - apply close_binned_closes.
  - apply close_binned_closes.
Qed.

(** [close] on a product without a file returns at once. *)
Lemma close_closed (h : Lv1io.heap) :
  Lv1io.fid (fst h) = None -> close h = (Ok tt, h).
Proof.
  intros Hfid.
  unfold close, Lv1io.close, L1Aio.close, L1Bio.close, L1Cio.close, Check.close_binned.
  rewrite Hfid. now destruct (Lv1io.processing_level (fst h)).
Qed.

(** The exception of a write on a product without a file: [self.fid[...]]
    is a [TypeError] on [None], [self.fid.<member>] an [AttributeError].
    The target is the dataset name, or [None] for a global attribute. *)
Definition closed_error (target : option string) : exception :=
  match target with
  | None => AttributeError
  | Some name =>
      if negb (String.eqb (grp_name_of name) ".") then TypeError else AttributeError
  end.

Lemma set_dset_closed (h : Lv1io.heap) name value ibgn :
  Lv1io.fid (fst h) = None ->
  Lv1io.set_dset name value ibgn h = (Raise (closed_error (Some name)), h).
Proof.
  intros Hfid.
  unfold Lv1io.set_dset, Lv1io.variable_present, closed_error, bind,
    Lv1io.fid_getitem, Lv1io.fid_member.
  fold (grp_name_of name).
  destruct (negb (String.eqb (grp_name_of name) ".")); now rewrite Hfid.
Qed.

Lemma set_attr_closed (h : Lv1io.heap) name value ds_name :
  Lv1io.fid (fst h) = None ->
  Lv1io.set_attr name value ds_name h = (Raise (closed_error ds_name), h).
Proof.
  intros Hfid.
  unfold Lv1io.set_attr, Lv1io.target_present, closed_error, bind,
    Lv1io.fid_getitem, Lv1io.fid_member.
  destruct ds_name as [ds_name|]; [|now rewrite Hfid].
  fold (grp_name_of ds_name).
  destruct (negb (String.eqb (grp_name_of ds_name) ".")); now rewrite Hfid.
Qed.

(** C5, as the code has it. After a [close] that returned, every
    [set_dset] and every [set_attr] raises and leaves the product as it
    is; the exception is the [TypeError] or the [AttributeError] of
    Python for the use of [None] as a file, no exception class for a
    closed product exists. *)
Theorem C5_writes_after_close (h h' : Lv1io.heap) :
  close h = (Ok tt, h') ->
  (forall name value ibgn,
      Lv1io.set_dset name value ibgn h' = (Raise (closed_error (Some name)), h'))
  /\ (forall name value ds_name,
         Lv1io.set_attr name value ds_name h' = (Raise (closed_error ds_name), h'))
  /\ (forall target,
         closed_error target = TypeError \/ closed_error target = AttributeError).
Proof.
  intros Hclose. apply close_closes in Hclose. split; [|split].
  - intros. now apply set_dset_closed.
  - intros. now apply set_attr_closed.
  - intros [name|]; cbn [closed_error]; [|now right].
    destruct (negb _); auto.
Qed.

(** The sample product once closed. *)
Definition sample_closed : Lv1io.heap :=
  Eval vm_compute in snd (close Sample.created).

Lemma C5_writes_after_close_witness :
  close Sample.created = (Ok tt, sample_closed)
  /\ Lv1io.set_dset "/science_data/detector_images" (Array [Scalar (SInt 1)]) (-1)
       sample_closed
     = (Raise TypeError, sample_closed).
Proof.
  assert (H : close Sample.created = (Ok tt, sample_closed)) by reflexivity.
  split; [exact H|].
  exact (proj1 (C5_writes_after_close Sample.created sample_closed H)
           "/science_data/detector_images" (Array [Scalar (SInt 1)]) (-1)).
Defined.

(** The writes after [close] do fail, but not with an exception named
    [ClosedProductError]. *)
Lemma C5_counterexample :
  close Sample.created = (Ok tt, sample_closed)
  /\ Lv1io.set_dset "/science_data/detector_images" (Array [Scalar (SInt 1)]) (-1)
       sample_closed
     = (Raise TypeError, sample_closed)
  /\ Lv1io.set_attr "title" (NetCDF.AStr "sample") None sample_closed
     = (Raise AttributeError, sample_closed)
  /\ fst (Lv1io.set_dset "/science_data/detector_images"
            (Array [Scalar (SInt 1)]) (-1) sample_closed)
     <> Raise (OtherError "ClosedProductError")
  /\ fst (Lv1io.set_attr "title" (NetCDF.AStr "sample") None sample_closed)
     <> Raise (OtherError "ClosedProductError").
Proof.
  repeat split; try reflexivity; discriminate.
Qed.

(** The dimension that counts the rows of a product of each class. *)
Definition primary_dimension (lv : level) : option string :=
  match lv with
  | Unknown => None
  | L1A => Some "number_of_images"
  | L1B | L1C => Some "bins_along_track"
  end.

(** The state after [self.fid.close(); self.fid = None] on the file [ds]. *)
Definition released (h : Lv1io.heap) (ds : NetCDF.Dataset) : Lv1io.heap :=
  (Lv1io.with_fid (fst h) None,
   {| Lv1io.Lv1io_dset_stored := Lv1io.Lv1io_dset_stored (snd h);
      Lv1io.L1Aio_dset_stored := Lv1io.L1Aio_dset_stored (snd h);
      Lv1io.L1Bio_dset_stored := Lv1io.L1Bio_dset_stored (snd h);
      Lv1io.L1Cio_dset_stored := Lv1io.L1Cio_dset_stored (snd h);
      Lv1io.stdout := Lv1io.stdout (snd h);
      Lv1io.disk := set (Lv1io.disk (snd h)) (Lv1io.product (fst h)) ds |}).

Lemma release_open (h : Lv1io.heap) ds :
  Lv1io.fid (fst h) = Some ds -> Check.release h = (Ok tt, released h ds).
Proof.
  intros Hfid. destruct h as [self p]. cbn [fst] in Hfid.
  unfold Check.release, Lv1io.fid_close, bind, Lv1io.fid_member, Lv1io.put_fid.
  cbn [fst snd]. now rewrite Hfid.
Qed.

Lemma close_empty (h : Lv1io.heap) ds dname d :
  Lv1io.fid (fst h) = Some ds ->
  primary_dimension (Lv1io.processing_level (fst h)) = Some dname ->
  get (NetCDF.dimensions ds) dname = Some d ->
  NetCDF.size d = 0 ->
  close h = (Ok tt, released h ds).
Proof.
  intros Hfid Hprim Hdim Hsize.
  assert (Hempty : Check.dimension_is_empty dname h = (Ok true, h)).
  { unfold Check.dimension_is_empty, Lv1io.get_dim, bind, Lv1io.fid_member, ret.
    rewrite Hfid, Hdim, Hsize. reflexivity. }
  unfold close, L1Aio.close, L1Bio.close, L1Cio.close, Check.close_binned.
  destruct (Lv1io.processing_level (fst h)); try discriminate;
    injection Hprim as <-; rewrite Hfid; unfold bind at 1; rewrite Hempty;
    now apply release_open.
Qed.

(** C6. [close] on a product already closed does nothing, so closing
    twice is closing once; [close] on an open product whose row-count
    dimension is still zero returns without raising: the file goes to
    disk as it is, with no time-coverage attribute written and no line
    printed, and [fid] is dropped. *)
Theorem C6_close_again_and_close_empty :
  (forall h, Lv1io.fid (fst h) = None -> close h = (Ok tt, h))
  /\ (forall h, (close ;;; close) h = close h)
  /\ (forall h ds dname d,
         Lv1io.fid (fst h) = Some ds ->
         primary_dimension (Lv1io.processing_level (fst h)) = Some dname ->
         get (NetCDF.dimensions ds) dname = Some d ->
         NetCDF.size d = 0 ->
         close h = (Ok tt, released h ds)
         /\ get (Lv1io.disk (snd (released h ds))) (Lv1io.product (fst h)) = Some ds
         /\ Lv1io.stdout (snd (released h ds)) = Lv1io.stdout (snd h)
         /\ Lv1io.fid (fst (released h ds)) = None).
Proof.
  split; [exact close_closed|]. split.
  - intros h. unfold bind. destruct (close h) as [[[]|e] h1] eqn:Hc; [|reflexivity].
    apply close_closed. now apply close_closes in Hc.
  - intros h ds dname d Hfid Hprim Hdim Hsize. split.
    + now apply close_empty with (dname := dname) (d := d).
    + unfold released. cbn [fst snd Lv1io.disk Lv1io.stdout Lv1io.fid Lv1io.with_fid].
      now rewrite get_set_same.
Qed.

Lemma C6_close_again_and_close_empty_witness :
  Lv1io.fid (fst sample_closed) = None
  /\ close sample_closed = (Ok tt, sample_closed)
  /\ Lv1io.fid (fst Sample.created) = Some Sample.l1a
  /\ get (NetCDF.dimensions Sample.l1a) "number_of_images" = Some Sample.unlimited
  /\ NetCDF.size Sample.unlimited = 0
  /\ close Sample.created = (Ok tt, released Sample.created Sample.l1a).
Proof.
  assert (H1 : Lv1io.fid (fst sample_closed) = None) by reflexivity.
  assert (H2 : Lv1io.fid (fst Sample.created) = Some Sample.l1a) by reflexivity.
  assert (H3 : get (NetCDF.dimensions Sample.l1a) "number_of_images"
               = Some Sample.unlimited) by reflexivity.
  assert (H4 : NetCDF.size Sample.unlimited = 0) by reflexivity.
  split; [exact H1|].
  split; [exact (proj1 C6_close_again_and_close_empty sample_closed H1)|].
  split; [exact H2|]. split; [exact H3|]. split; [exact H4|].
  exact (proj1 (proj2 (proj2 C6_close_again_and_close_empty)
                  Sample.created Sample.l1a "number_of_images" Sample.unlimited
                  H2 eq_refl H3 H4)).
Defined.

(** ** The order in which the packet files are read *)

Section StringOrder.

Lemma ascii_compare_refl (a : ascii) : Ascii.compare a a = Eq.
Proof. unfold Ascii.compare. apply N.compare_refl. Qed.

Lemma ascii_compare_lt_trans (a b c : ascii) :
  Ascii.compare a b = Lt -> Ascii.compare b c = Lt -> Ascii.compare a c = Lt.
Proof.
  unfold Ascii.compare. rewrite !N.compare_lt_iff. apply N.lt_trans.
Qed.

Lemma string_compare_refl (s : string) : String.compare s s = Eq.
Proof.
  induction s as [|a s IH]; simpl; [reflexivity|].
  now rewrite ascii_compare_refl.
Qed.

Lemma string_compare_lt_trans (s1 : string) :
  forall s2 s3,
    String.compare s1 s2 = Lt -> String.compare s2 s3 = Lt ->
    String.compare s1 s3 = Lt.
Proof.
  induction s1 as [|a s1 IH]; intros [|b s2] [|c s3]; simpl;
    try discriminate; try reflexivity.
  destruct (Ascii.compare a b) eqn:Eab; try discriminate;
    destruct (Ascii.compare b c) eqn:Ebc; try discriminate.
  - apply Ascii.compare_eq_iff in Eab, Ebc. subst.
    rewrite ascii_compare_refl. apply IH.
  - apply Ascii.compare_eq_iff in Eab. subst. now rewrite Ebc.
  - apply Ascii.compare_eq_iff in Ebc. subst. now rewrite Eab.
  - now rewrite (ascii_compare_lt_trans a b c).
Qed.

Lemma string_leb_trans (s1 s2 s3 : string) :
  String.leb s1 s2 = true -> String.leb s2 s3 = true -> String.leb s1 s3 = true.
Proof.
  unfold String.leb.
  destruct (String.compare s1 s2) eqn:E12; try discriminate;
    destruct (String.compare s2 s3) eqn:E23; try discriminate; intros _ _.
  - apply String.compare_eq_iff in E12, E23. subst.
    now rewrite string_compare_refl.
  - apply String.compare_eq_iff in E12. subst. now rewrite E23.
  - apply String.compare_eq_iff in E23. subst. now rewrite E12.
  - now rewrite (string_compare_lt_trans s1 s2 s3).
Qed.

End StringOrder.

Definition string_le (a b : string) : Prop := String.leb a b = true.

Lemma insert_perm (x : string) (l : list string) :
  Permutation (Ccsds2l1a.insert x l) (x :: l).
Proof.
  induction l as [|y l IH]; simpl.
  - reflexivity.
  - destruct (String.leb x y); [reflexivity|].
    rewrite IH. apply perm_swap.
Qed.

Lemma sorted_perm (l : list string) : Permutation (Ccsds2l1a.sorted l) l.
Proof.
  induction l as [|x l IH]; simpl.
  - constructor.
  - rewrite insert_perm. now constructor.
Qed.

Lemma insert_sorted (x : string) (l : list string) :
  Sorted string_le l -> Sorted string_le (Ccsds2l1a.insert x l).
Proof.
  induction 1 as [|y l Hs IH Hhd]; simpl.
  - repeat constructor.
  - destruct (String.leb x y) eqn:E.
    + constructor; [now constructor | now constructor].
    + constructor; [exact IH|].
      assert (Hyx : string_le y x).
      { destruct (String.leb_total x y) as [H|H]; [congruence | exact H]. }
      destruct Hhd as [|z l Hyz]; simpl.
      * now constructor.
      * destruct (String.leb x z); now constructor.
Qed.

Lemma sorted_sorted (l : list string) : Sorted string_le (Ccsds2l1a.sorted l).
Proof.
  induction l as [|x l IH]; simpl.
  - constructor.
  - now apply insert_sorted.
Qed.

Lemma insert_insert (x y : string) (l : list string) :
  Ccsds2l1a.insert x (Ccsds2l1a.insert y l)
  = Ccsds2l1a.insert y (Ccsds2l1a.insert x l).
Proof.
  induction l as [|z l IH]; simpl.
  - destruct (String.leb x y) eqn:Exy, (String.leb y x) eqn:Eyx; try reflexivity.
    + now rewrite (String.leb_antisym x y).
    + destruct (String.leb_total x y); congruence.
  - destruct (String.leb y z) eqn:Eyz, (String.leb x z) eqn:Exz; simpl;
      rewrite ?Eyz, ?Exz;
      destruct (String.leb x y) eqn:Exy, (String.leb y x) eqn:Eyx;
      try reflexivity;
      try (now rewrite (String.leb_antisym x y));
      try (destruct (String.leb_total x y); congruence);
      try (rewrite (string_leb_trans x y z) in Exz by assumption; discriminate);
      try (rewrite (string_leb_trans y x z) in Eyz by assumption; discriminate);
      try (now rewrite IH).
Qed.

(** The order in which the caller gives the names does not reach the
    loop. *)
Lemma sorted_permutation (l l' : list string) :
  Permutation l l' -> Ccsds2l1a.sorted l = Ccsds2l1a.sorted l'.
Proof.
  induction 1; simpl.
  - reflexivity.
  - now f_equal.
  - apply insert_insert.
  - congruence.
Qed.

Section ReadFiles.

Variable packet : Type.
Variable is_file : string -> bool.
Variable read : string -> list packet.

(** [Path(flname).suffix == '.H'] *)
Definition is_header (flname : string) : bool :=
  String.eqb (Posix.suffix (Posix.parse flname)) ".H".

Lemma read_files_all (names : list string) :
  forall packet_list,
    Forall (fun flname => is_file flname = true) names ->
    Ccsds2l1a.read_files packet is_file read names packet_list
    = Ok (packet_list
          ++ List.concat (map read (filter (fun f => negb (is_header f)) names)))%list.
Proof.
  induction names as [|flname names IH]; intros packet_list Hall; simpl.
  - now rewrite app_nil_r.
  - inversion Hall as [|? ? Hf Hrest]; subst. rewrite Hf. cbn [negb].
    unfold is_header.
    destruct (String.eqb (Posix.suffix (Posix.parse flname)) ".H"); cbn [negb].
    + now apply IH.
    + rewrite IH by assumption. cbn [map List.concat]. now rewrite app_assoc.
Qed.

(** C9, as the code has it. The files are visited in the order of their
    sorted names, whatever the order of [file_list]: when every name is
    a file, the packets are those of the files that are not headers
    ([.H]), file after file in that order. *)
Theorem C9_files_read_in_sorted_order (file_list : list string) :
  Forall (fun flname => is_file flname = true) file_list ->
  Ccsds2l1a.collect packet is_file read file_list
  = Ok (List.concat (map read (filter (fun f => negb (is_header f))
                            (Ccsds2l1a.sorted file_list))))
  /\ Sorted string_le (Ccsds2l1a.sorted file_list)
  /\ Permutation (Ccsds2l1a.sorted file_list) file_list
  /\ (forall file_list',
         Permutation file_list file_list' ->
         Ccsds2l1a.collect packet is_file read file_list'
         = Ccsds2l1a.collect packet is_file read file_list).
Proof.
  intros Hall. repeat split.
  - unfold Ccsds2l1a.collect. rewrite read_files_all; [reflexivity|].
    rewrite Forall_forall in *. intros f Hin. apply Hall.
    now apply (Permutation_in f (sorted_perm file_list)).
  - apply sorted_sorted.
  - apply sorted_perm.
  - intros file_list' Hperm. unfold Ccsds2l1a.collect.
    now rewrite (sorted_permutation _ _ Hperm).
Qed.

End ReadFiles.

(** Two packet files, of two and of one packet, and a header file. *)
Definition sample_read (flname : string) : list nat :=
  if String.eqb flname "b_run.bin" then [21; 22]%nat
  else if String.eqb flname "a_run.bin" then [11]%nat
  else [].

Lemma C9_files_read_in_sorted_order_witness :
  Forall (fun flname => (fun _ : string => true) flname = true)
    ["b_run.bin"; "a_run.H"; "a_run.bin"]
  /\ Ccsds2l1a.collect nat (fun _ => true) sample_read
       ["b_run.bin"; "a_run.H"; "a_run.bin"]
     = Ok [11; 21; 22]%nat.
Proof.
  assert (H : Forall (fun flname => (fun _ : string => true) flname = true)
                ["b_run.bin"; "a_run.H"; "a_run.bin"])
    by (repeat constructor).
  split; [exact H|].
  exact (proj1 (C9_files_read_in_sorted_order nat (fun _ => true) sample_read
                  ["b_run.bin"; "a_run.H"; "a_run.bin"] H)).
Defined.

(** The caller gives [b_run.bin] first; its packets come last. *)
Lemma C9_counterexample :
  Ccsds2l1a.collect nat (fun _ => true) sample_read ["b_run.bin"; "a_run.bin"]
  = Ok [11; 21; 22]%nat
  /\ List.concat (map sample_read ["b_run.bin"; "a_run.bin"]) = [21; 22; 11]%nat
  /\ Ccsds2l1a.collect nat (fun _ => true) sample_read ["b_run.bin"; "a_run.bin"]
     <> Ok (List.concat (map sample_read ["b_run.bin"; "a_run.bin"])).
Proof.
  repeat split; try reflexivity. discriminate.
Qed.

(** ** The temperatures of [fill_nomhk] *)

(** What a channel receives, read from the sentence of the
    specification as the code allows it: the fallback constant for every
    record when all the readings of the batch are zero; otherwise, for
    every record, the documented polynomial of a positive reading and a
    NaN for a reading that is not positive. *)
Definition channel (readings : list Z) (fallback : Z) : ndarray :=
  Array
    (map (fun x : Z =>
            if L1Aio.all_zero readings then Scalar (SInt fallback)
            else Scalar (SFloat (if 0 <? x
                                 then Finite (documented_polynomial (IZR x))
                                 else NaN)))
       readings).

Lemma frac_poly_at_default (x : Z) :
  frac_poly_at default_coefs (Float.of_int x)
  = if 0 <? x then Finite (documented_polynomial (IZR x)) else NaN.
Proof.
  destruct (Z.ltb_spec 0 x).
  - now apply frac_poly_at_positive.
  - now apply frac_poly_at_not_positive.
Qed.

Lemma temperature_channel (readings : list Z) (fallback : Z) :
  L1Aio.temperature readings fallback = channel readings fallback.
Proof.
  unfold L1Aio.temperature, channel.
  destruct (L1Aio.all_zero readings) eqn:Ez.
  - unfold L1Aio.full. f_equal.
    induction readings as [|x readings IH]; simpl; [reflexivity|].
    f_equal. apply IH. simpl in Ez. now apply andb_true_iff in Ez.
  - unfold L1Aio.float_array, frac_poly. f_equal. rewrite !map_map.
    apply map_ext. intros x. now rewrite frac_poly_at_default.
Qed.

(** C3, as the code has it. [fill_nomhk] decides for the whole batch and
    for each sensor: when every reading of the batch is zero, every
    record gets the fallback constant (detector 273, housing 293,
    radiator 294); otherwise every reading of the batch goes through
    [frac_poly], which gives the documented polynomial for a positive
    reading and a NaN for a zero one. *)
Theorem C3_fill_nomhk_temperatures (nomhk_data : list nomhk_record) :
  nomhk_data <> [] ->
  L1Aio.fill_nomhk nomhk_data
  = (Lv1io.set_dset "/engineering_data/NomHK_telemetry"
       (Array (map (fun r => Scalar (SRecord r)) nomhk_data)) (-1) ;;;
     Lv1io.set_dset "/engineering_data/temp_detector"
       (channel (map TS1_DEM_N_T nomhk_data) 273) (-1) ;;;
     Lv1io.set_dset "/engineering_data/temp_housing"
       (channel (map TS2_HOUSING_N_T nomhk_data) 293) (-1) ;;;
     Lv1io.set_dset "/engineering_data/temp_radiator"
       (channel (map TS3_RADIATOR_N_T nomhk_data) 294) (-1)).
Proof.
  intros Hne. unfold L1Aio.fill_nomhk.
  destruct nomhk_data as [|r rest]; [contradiction|]. cbn [List.length Nat.eqb].
  now rewrite !temperature_channel.
Qed.

(** Two records: the detector sensor reads 0 in the first and 1000 in
    the second, the two other sensors read 0 in both. *)
Definition sample_nomhk : list nomhk_record :=
  [ {| TS1_DEM_N_T := 0; TS2_HOUSING_N_T := 0; TS3_RADIATOR_N_T := 0;
       other_fields := [] |};
    {| TS1_DEM_N_T := 1000; TS2_HOUSING_N_T := 0; TS3_RADIATOR_N_T := 0;
       other_fields := [] |} ].

Lemma C3_fill_nomhk_temperatures_witness :
  sample_nomhk <> []
  /\ L1Aio.fill_nomhk sample_nomhk
     = (Lv1io.set_dset "/engineering_data/NomHK_telemetry"
          (Array (map (fun r => Scalar (SRecord r)) sample_nomhk)) (-1) ;;;
        Lv1io.set_dset "/engineering_data/temp_detector"
          (channel [0; 1000] 273) (-1) ;;;
        Lv1io.set_dset "/engineering_data/temp_housing"
          (channel [0; 0] 293) (-1) ;;;
        Lv1io.set_dset "/engineering_data/temp_radiator"
          (channel [0; 0] 294) (-1)).
Proof.
  assert (H : sample_nomhk <> []) by discriminate.
  split; [exact H|].
  exact (C3_fill_nomhk_temperatures sample_nomhk H).
Defined.

Lemma sample_nomhk_stored :
  exists h',
    L1Aio.fill_nomhk sample_nomhk Sample.created = (Ok tt, h')
    /\ stored_data h' "/engineering_data/temp_detector"
       = Some [ Scalar (SFloat (frac_poly_at default_coefs (Float.of_int 0)));
                Scalar (SFloat (frac_poly_at default_coefs (Float.of_int 1000))) ]
    /\ stored_data h' "/engineering_data/temp_housing"
       = Some [ Scalar (SInt 293); Scalar (SInt 293) ].
Proof.
  eexists. split; [|split].
  - lazy -[frac_poly_at default_coefs Float.of_int]. reflexivity.
  - reflexivity.
  - reflexivity.
Qed.

(** The first record has a detector reading of zero, and the detector
    temperature stored for it is a NaN, not the constant 273. *)
Lemma C3_counterexample :
  exists h' first rest,
    L1Aio.fill_nomhk sample_nomhk Sample.created = (Ok tt, h')
    /\ map TS1_DEM_N_T sample_nomhk = [0; 1000]
    /\ stored_data h' "/engineering_data/temp_detector" = Some (first :: rest)
    /\ first = Scalar (SFloat NaN)
    /\ first <> Scalar (SInt 273)
    /\ first <> Scalar (SFloat (Finite 273)).
Proof.
  destruct sample_nomhk_stored as (h' & Hrun & Hdet & _).
  exists h'. eexists. eexists.
  split; [exact Hrun|]. split; [reflexivity|]. split; [exact Hdet|].
  rewrite (frac_poly_at_not_positive 0) by lia.
  repeat split; discriminate.
Qed.

(** ** The counters of a new product *)

(** A stand-in for [init_l1a]: the sample schema, whatever is asked. *)
Definition sample_init_l1 (lv : level) (product : string)
    (ref_date : Datetime.datetime) (dims : dict (option Z)) : NetCDF.Dataset :=
  Sample.l1a.

Definition sample_dims : dict (option Z) :=
  [ ("number_of_images", None); ("samples_per_image", Some 2); ("hk_packets", None) ].

Definition image_time : string := "/image_attributes/image_time".

(** Creating a product does not touch the tables of the classes. *)
Lemma init_keeps_process init_l1 cls product ref_date dims (p : Lv1io.process) :
  snd (Lv1io.init init_l1 cls product ref_date dims false p) = p.
Proof. unfold Lv1io.init. now destruct cls. Qed.

(** C8, on the code. In a process that made no product before, a new
    product finds every counter at zero.  But [__init__] leaves the
    table of the class as it is, and the table is shared by the
    instances: after a first product has written three image times, a
    second new product starts with the counter of [image_time] at 3. *)
Theorem C8_second_product_counters :
  (forall cls, Forall (fun n => n = 0) (values (Lv1io.dset_stored cls new_process)))
  /\ (forall init_l1 cls product ref_date dims p,
         snd (Lv1io.init init_l1 cls product ref_date dims false p) = p)
  /\ (exists first p1 first' p2 second p3,
         Lv1io.init sample_init_l1 L1A "first.nc" Sample.ref_date sample_dims false
           new_process = (Ok first, p1)
         /\ Lv1io.set_dset image_time (Array Sample.times) (-1) (first, p1)
            = (Ok tt, (first', p2))
         /\ Lv1io.init sample_init_l1 L1A "second.nc" Sample.ref_date sample_dims false
              p2 = (Ok second, p3)
         /\ Lv1io.fid second = Some Sample.l1a
         /\ counter (second, p3) image_time = Some 3).
Proof.
  split; [|split].
  - intros cls. destruct cls; cbn; repeat constructor.
  - intros. apply init_keeps_process.
  - do 6 eexists. repeat split; reflexivity.
Qed.

(** ** The lines printed by [check_stored] *)

(** The process after the lines [lines] were printed. *)
Definition printed (h : Lv1io.heap) (lines : list string) : Lv1io.heap :=
  (fst h,
   {| Lv1io.Lv1io_dset_stored := Lv1io.Lv1io_dset_stored (snd h);
      Lv1io.L1Aio_dset_stored := Lv1io.L1Aio_dset_stored (snd h);
      Lv1io.L1Bio_dset_stored := Lv1io.L1Bio_dset_stored (snd h);
      Lv1io.L1Cio_dset_stored := Lv1io.L1Cio_dset_stored (snd h);
      Lv1io.stdout := Lv1io.stdout (snd h) ++ lines;
      Lv1io.disk := Lv1io.disk (snd h) |}).

Lemma printed_nil (h : Lv1io.heap) : printed h [] = h.
Proof.
  destruct h as [self [? ? ? ? out ?]]. unfold printed. cbn.
  now rewrite app_nil_r.
Qed.

Lemma printed_app (h : Lv1io.heap) (l1 l2 : list string) :
  printed (printed h l1) l2 = printed h (l1 ++ l2).
Proof. unfold printed. cbn. now rewrite app_assoc. Qed.

Lemma print_printed (h : Lv1io.heap) (line : string) :
  Lv1io.print line h = (Ok tt, printed h [line]).
Proof. reflexivity. Qed.

(** The counter of a key, 0 for a key that has none. *)
Definition lookup (h : Lv1io.heap) (key : string) : Z :=
  match counter h key with
  | Some n => n
  | None => 0
  end.

Lemma stored_values_keys (h : Lv1io.heap) (key_list : list string) :
  Forall (fun key => counter h key <> None) key_list ->
  Check.stored_values key_list h = (Ok (map (lookup h) key_list), h).
Proof.
  induction 1 as [|key rest Hkey Hrest IH]; [reflexivity|].
  cbn [Check.stored_values map]. unfold bind at 1.
  unfold Lv1io.stored_getitem, lookup. unfold counter in *.
  destruct (get _ key) as [n|]; [|contradiction].
  unfold bind at 1. rewrite IH. reflexivity.
Qed.

Lemma for_each_app {S A} (l1 l2 : list A) (body : A -> M S unit) (s : S) :
  for_each (l1 ++ l2) body s = (for_each l1 body ;;; for_each l2 body) s.
Proof.
  revert s. induction l1 as [|x l1 IH]; intros s; cbn [for_each app].
  - reflexivity.
  - unfold bind in *. destruct (body x s) as [[u|e] s']; [apply IH | reflexivity].
Qed.

(** The warnings of one block of [check_stored]: one line for each key of
    [key_list] whose counter [wrong] flags, in the order of the keys. *)
Definition warnings (lv : string) (h : Lv1io.heap) (wrong : Z -> bool)
    (key_list : list string) : list string :=
  map (fun key => Check.warn_str lv key (lookup h key))
    (filter (fun key => wrong (lookup h key)) key_list).

Lemma report_warnings lv (f : string -> Z) (wrong : Z -> bool) (ks : list string) :
  forall (pre : list string) (h : Lv1io.heap),
    Check.report lv (pre ++ ks) (map f (pre ++ ks))
      (Check.nonzero (map wrong (map f ks)) (List.length pre)) h
    = (Ok tt,
       printed h (map (fun key => Check.warn_str lv key (f key))
                    (filter (fun key => wrong (f key)) ks))).
Proof.
  induction ks as [|k ks IH]; intros pre h.
  - cbn. now rewrite printed_nil.
  - cbn [map Check.nonzero filter]. unfold Check.report in *.
    rewrite for_each_app. unfold bind at 1.
    replace (pre ++ k :: ks)%list with ((pre ++ [k]) ++ ks)%list
      by now rewrite <- app_assoc.
    replace (S (List.length pre)) with (List.length (pre ++ [k])%list)
      by (rewrite length_app; cbn; lia).
    destruct (wrong (f k)) eqn:Ew.
    + cbn [for_each].
      assert (Hk : nth_error ((pre ++ [k]) ++ ks)%list (List.length pre) = Some k).
      { rewrite <- app_assoc. rewrite nth_error_app2 by lia.
        now rewrite Nat.sub_diag. }
      rewrite Hk, (map_nth_error f _ _ Hk). unfold bind, ret.
      rewrite print_printed, IH. cbn [map]. now rewrite printed_app.
    + cbn [for_each]. unfold ret. now rewrite IH.
Qed.

Lemma filter_all {A} (l : list A) : filter (fun _ => negb false) l = l.
Proof. induction l as [|x l IH]; cbn; [reflexivity | f_equal; exact IH]. Qed.

(** A block of [check_stored] that passes over no key. *)
Lemma block_warnings lv dim_name select wrong (h : Lv1io.heap) ds dim :
  Lv1io.fid (fst h) = Some ds ->
  get (NetCDF.dimensions ds) dim_name = Some dim ->
  Check.block lv dim_name select (fun _ => false) wrong h
  = (Ok tt,
     printed h
       (warnings lv h (wrong (NetCDF.size dim))
          (filter select
             (keys (Lv1io.dset_stored (Lv1io.processing_level (fst h)) (snd h)))))).
Proof.
  intros Hfid Hdim.
  unfold Check.block, Lv1io.get_dim. unfold bind at 1. unfold bind at 1.
  unfold Lv1io.fid_member. rewrite Hfid, Hdim. unfold ret at 1.
  unfold bind at 1. unfold get_state. cbv beta. rewrite filter_all.
  unfold bind at 1. rewrite stored_values_keys.
  - apply (report_warnings lv (lookup h) (wrong (NetCDF.size dim)) _ [] h).
  - rewrite Forall_forall. intros key Hin. apply filter_In in Hin as [Hin _].
    apply get_in_keys in Hin as [n Hn]. unfold counter. now rewrite Hn.
Qed.

(** ** The time coverage of a Level-1A product *)

Definition and_then {A B} (r : result A) (k : A -> result B) : result B :=
  match r with
  | Ok a => k a
  | Raise e => Raise e
  end.

Definition attr_of (ds : NetCDF.Dataset) (nd : NetCDF.node) (name : string)
    : result Z :=
  let attrs :=
    match nd with
    | NetCDF.NGroup path =>
        match get (NetCDF.groups ds) path with Some a => a | None => [] end
    | NetCDF.NVariable _ v => NetCDF.var_attrs v
    end in
  match get attrs name with
  | Some a => NetCDF.attr_to_int a
  | None => Raise AttributeError
  end.

(** The time stamp that [L1Aio.close] derives from the entry [i] of the
    time variable [nd] of the file [ds], as a function of the file. *)
Definition tstamp_of (ds : NetCDF.Dataset) (nd : NetCDF.node) (i : Z)
    : result Datetime.datetime :=
  and_then (attr_of ds nd "year") (fun year =>
  and_then (attr_of ds nd "month") (fun month =>
  and_then (attr_of ds nd "day") (fun day =>
  and_then (Datetime.make year month day true) (fun tstamp =>
  and_then (match nd with
            | NetCDF.NGroup _ => Raise TypeError
            | NetCDF.NVariable _ v => NetCDF.getrow ds v i
            end) (fun row =>
  and_then (to_float row) (fun seconds =>
  and_then (Datetime.of_seconds seconds) (fun delta =>
  Datetime.add tstamp delta))))))).

Lemma int_attr_pure (h : Lv1io.heap) ds nd name :
  Lv1io.fid (fst h) = Some ds ->
  L1Aio.int_attr nd name h = (attr_of ds nd name, h).
Proof.
  intros Hfid. unfold L1Aio.int_attr, attr_of, bind, Lv1io.fid_member, lift, raise.
  rewrite Hfid. now destruct (get _ name).
Qed.

Lemma tstamp_at_pure (h : Lv1io.heap) ds nd i :
  Lv1io.fid (fst h) = Some ds ->
  L1Aio.tstamp_at nd i h = (tstamp_of ds nd i, h).
Proof.
  intros Hfid. unfold L1Aio.tstamp_at, tstamp_of.
  unfold bind at 1. rewrite (int_attr_pure h ds) by exact Hfid.
  destruct (attr_of ds nd "year") as [year|e]; [|reflexivity]. cbn [and_then].
  unfold bind at 1. rewrite (int_attr_pure h ds) by exact Hfid.
  destruct (attr_of ds nd "month") as [month|e]; [|reflexivity]. cbn [and_then].
  unfold bind at 1. rewrite (int_attr_pure h ds) by exact Hfid.
  destruct (attr_of ds nd "day") as [day|e]; [|reflexivity]. cbn [and_then].
  unfold bind, lift, Lv1io.fid_member, raise.
  destruct (Datetime.make year month day true) as [tstamp|e]; [|reflexivity].
  cbn [and_then]. rewrite Hfid.
  destruct nd as [path|path v]; [reflexivity|].
  destruct (NetCDF.getrow ds v i) as [row|e]; [|reflexivity]. cbn [and_then].
  destruct (to_float row) as [seconds|e]; [|reflexivity]. cbn [and_then].
  destruct (Datetime.of_seconds seconds) as [delta|e]; reflexivity.
Qed.

(** A global attribute does not change what the time variable says. *)
Lemma tstamp_of_setncattr ds name value nd i :
  tstamp_of (NetCDF.setncattr ds name value) nd i = tstamp_of ds nd i.
Proof. reflexivity. Qed.

Lemma set_global_open (h : Lv1io.heap) ds name text :
  Lv1io.fid (fst h) = Some ds ->
  Check.set_global name text h
  = (Ok tt,
     (Lv1io.with_fid (fst h) (Some (NetCDF.setncattr ds name (NetCDF.AStr text))),
      snd h)).
Proof.
  intros Hfid. unfold Check.set_global, bind, Lv1io.fid_member, Lv1io.put_fid.
  now rewrite Hfid.
Qed.

(** The keys that [L1Aio.check_stored] holds against [number_of_images]
    and against [hk_packets]. *)
Definition image_keys (h : Lv1io.heap) : list string :=
  filter L1Aio.is_image_key
    (keys (Lv1io.dset_stored (Lv1io.processing_level (fst h)) (snd h))).

Definition hk_keys (h : Lv1io.heap) : list string :=
  filter L1Aio.is_hk_key
    (keys (Lv1io.dset_stored (Lv1io.processing_level (fst h)) (snd h))).

(** The lines of [check_stored(allow_empty=True)]: for each group of
    keys, a warning for every counter that is neither zero nor the size
    of the dimension. *)
Definition mismatch_warnings (h : Lv1io.heap) (n_images n_packets : Z) : list string :=
  warnings "1A" h (Check.wrong_nonempty n_images) (image_keys h)
  ++ warnings "1A" h (Check.wrong_nonempty n_packets) (hk_keys h).

Lemma check_stored_warnings (h : Lv1io.heap) ds d_img d_hk :
  Lv1io.fid (fst h) = Some ds ->
  get (NetCDF.dimensions ds) "number_of_images" = Some d_img ->
  get (NetCDF.dimensions ds) "hk_packets" = Some d_hk ->
  L1Aio.check_stored true h
  = (Ok tt, printed h (mismatch_warnings h (NetCDF.size d_img) (NetCDF.size d_hk))).
Proof.
  intros Hfid Himg Hhk. unfold L1Aio.check_stored, mismatch_warnings.
  unfold bind.
  rewrite (block_warnings "1A" "number_of_images" _ _ h ds d_img Hfid Himg).
  rewrite (block_warnings "1A" "hk_packets" _ _ _ ds d_hk); [|exact Hfid|exact Hhk].
  rewrite printed_app. reflexivity.
Qed.

(** The file of a product that [L1Aio.close] sealed with the time
    stamps [t0] and [t1]. *)
Definition with_coverage (ds : NetCDF.Dataset) (t0 t1 : Datetime.datetime)
    : NetCDF.Dataset :=
  NetCDF.setncattr
    (NetCDF.setncattr ds "time_coverage_start"
       (NetCDF.AStr (Datetime.isoformat_milliseconds t0)))
    "time_coverage_end" (NetCDF.AStr (Datetime.isoformat_milliseconds t1)).

Lemma L1Aio_close_nonempty (h : Lv1io.heap) ds d_img d_hk nd t0 t1 :
  Lv1io.processing_level (fst h) = L1A ->
  Lv1io.fid (fst h) = Some ds ->
  get (NetCDF.dimensions ds) "number_of_images" = Some d_img ->
  NetCDF.size d_img <> 0 ->
  get (NetCDF.dimensions ds) "hk_packets" = Some d_hk ->
  NetCDF.getitem ds image_time = Ok nd ->
  tstamp_of ds nd 0 = Ok t0 ->
  tstamp_of ds nd (-1) = Ok t1 ->
  close h
  = (Ok tt,
     released
       (printed h (mismatch_warnings h (NetCDF.size d_img) (NetCDF.size d_hk)))
       (with_coverage ds t0 t1)).
Proof.
  intros Hlv Hfid Himg Hsize Hhk Hitem Ht0 Ht1.
  unfold close. rewrite Hlv. unfold L1Aio.close. rewrite Hfid.
  unfold bind at 1.
  assert (Hempty : Check.dimension_is_empty "number_of_images" h = (Ok false, h)).
  { unfold Check.dimension_is_empty, Lv1io.get_dim, bind, Lv1io.fid_member, ret.
    rewrite Hfid, Himg. now apply Z.eqb_neq in Hsize as ->. }
  rewrite Hempty.
  unfold bind at 1.
  rewrite (check_stored_warnings h ds d_img d_hk Hfid Himg Hhk).
  set (h1 := printed h _).
  assert (Hfid1 : Lv1io.fid (fst h1) = Some ds) by exact Hfid.
  unfold bind at 1. unfold Lv1io.fid_getitem at 1. rewrite Hfid1.
  fold image_time. rewrite Hitem.
  unfold bind at 1. rewrite (tstamp_at_pure h1 ds nd 0 Hfid1), Ht0.
  unfold bind at 1. rewrite (set_global_open h1 ds _ _ Hfid1).
  set (ds2 := NetCDF.setncattr ds "time_coverage_start" _).
  set (h2 := (Lv1io.with_fid (fst h1) (Some ds2), snd h1)).
  assert (Hfid2 : Lv1io.fid (fst h2) = Some ds2) by reflexivity.
  unfold bind at 1. rewrite (tstamp_at_pure h2 ds2 nd (-1) Hfid2).
  unfold ds2 at 1. rewrite tstamp_of_setncattr, Ht1.
  unfold bind at 1. rewrite (set_global_open h2 ds2 _ _ Hfid2).
  rewrite (release_open _ (with_coverage ds t0 t1)) by reflexivity.
  reflexivity.
Qed.

(** ** Calendar dates and times of the day *)

Lemma days_before_year_bounds (year : Z) :
  1 <= year <= 9998 -> 0 <= Datetime.days_before_year year <= 3651428.
Proof.
  intros Hy. unfold Datetime.days_before_year. cbv zeta.
  Z.div_mod_to_equations. lia.
Qed.

Lemma days_before_month_bounds (year month : Z) :
  1 <= month <= 12 -> 0 <= Datetime.days_before_month year month <= 335.
Proof.
  intros Hm. unfold Datetime.days_before_month.
  assert (Hcases : month = 1 \/ month = 2 \/ month = 3 \/ month = 4 \/ month = 5
                   \/ month = 6 \/ month = 7 \/ month = 8 \/ month = 9
                   \/ month = 10 \/ month = 11 \/ month = 12) by lia.
  destruct (Datetime.is_leap year);
    repeat (destruct Hcases as [->|Hcases]; [vm_compute; split; discriminate|]);
    subst; vm_compute; split; discriminate.
Qed.

Lemma days_in_month_bounds (year month : Z) :
  1 <= month <= 12 -> Datetime.days_in_month year month <= 31.
Proof.
  intros Hm. unfold Datetime.days_in_month.
  assert (Hcases : month = 1 \/ month = 2 \/ month = 3 \/ month = 4 \/ month = 5
                   \/ month = 6 \/ month = 7 \/ month = 8 \/ month = 9
                   \/ month = 10 \/ month = 11 \/ month = 12) by lia.
  destruct (Datetime.is_leap year);
    repeat (destruct Hcases as [->|Hcases]; [vm_compute; discriminate|]);
    subst; vm_compute; discriminate.
Qed.

(** A calendar date before the last year of [datetime]. *)
Definition calendar_date (year month day : Z) : Prop :=
  1 <= year <= 9998 /\ 1 <= month <= 12
  /\ 1 <= day <= Datetime.days_in_month year month.

Lemma ymd2ord_bounds (year month day : Z) :
  calendar_date year month day ->
  1 <= Datetime.ymd2ord year month day <= 3651794.
Proof.
  intros (Hy & Hm & Hd). unfold Datetime.ymd2ord.
  pose proof (days_before_year_bounds year Hy).
  pose proof (days_before_month_bounds year month Hm).
  pose proof (days_in_month_bounds year month Hm). lia.
Qed.

Lemma make_calendar_date (year month day : Z) :
  calendar_date year month day ->
  Datetime.make year month day true
  = Ok {| Datetime.ordinal := Datetime.ymd2ord year month day;
          Datetime.micros := 0; Datetime.utc := true |}.
Proof.
  intros (Hy & Hm & Hd). unfold Datetime.make.
  replace (1 <=? year) with true by (symmetry; apply Z.leb_le; lia).
  replace (year <=? 9999) with true by (symmetry; apply Z.leb_le; lia).
  replace (1 <=? month) with true by (symmetry; apply Z.leb_le; lia).
  replace (month <=? 12) with true by (symmetry; apply Z.leb_le; lia).
  replace (1 <=? day) with true by (symmetry; apply Z.leb_le; lia).
  replace (day <=? Datetime.days_in_month year month) with true
    by (symmetry; apply Z.leb_le; lia).
  reflexivity.
Qed.

Lemma round_half_even_bounds (r : R) (lo hi : Z) :
  (IZR lo <= r)%R -> (r <= IZR hi)%R ->
  lo <= Float.round_half_even r <= hi.
Proof.
  intros Hlo Hhi. unfold Float.round_half_even.
  pose proof (Zfloor_bound r) as [Hf1 Hf2].
  assert (Hlof : lo <= Zfloor r) by now apply Zfloor_lub.
  assert (Hfhi : Zfloor r <= hi) by (apply le_IZR; lra).
  assert (Hup : (IZR (Zfloor r) < r)%R -> Zfloor r + 1 <= hi).
  { intros Hlt. assert (Zfloor r < hi) by (apply lt_IZR; lra). lia. }
  destruct (Rlt_dec (r - IZR (Zfloor r)) (1 / 2)) as [_|Hge]; [lia|].
  destruct (Rlt_dec (1 / 2) (r - IZR (Zfloor r))) as [Hgt|Hle].
  - split; [lia|]. apply Hup. lra.
  - destruct (Z.even (Zfloor r)); [lia|]. split; [lia|]. apply Hup. lra.
Qed.

(** The time stamp [s] seconds after the start of a day, to the
    microsecond. *)
Definition time_stamp (year month day : Z) (s : R) : Datetime.datetime :=
  let us := Float.round_half_even (s * 1000000)%R in
  {| Datetime.ordinal := Datetime.ymd2ord year month day + us / Datetime.us_per_day;
     Datetime.micros := us mod Datetime.us_per_day;
     Datetime.utc := true |}.

Lemma add_time_of_day (year month day : Z) (s : R) :
  calendar_date year month day ->
  (0 <= s < 86400)%R ->
  and_then (Datetime.of_seconds (Finite s))
    (Datetime.add {| Datetime.ordinal := Datetime.ymd2ord year month day;
                     Datetime.micros := 0; Datetime.utc := true |})
  = Ok (time_stamp year month day s).
Proof.
  intros Hdate Hs. pose proof (ymd2ord_bounds _ _ _ Hdate) as Hord.
  assert (Hus : 0 <= Float.round_half_even (s * 1000000)%R <= 86400000000)
    by (apply round_half_even_bounds; lra).
  unfold Datetime.of_seconds, Datetime.normalize, Datetime.us_per_day,
    Datetime.max_delta_days.
  set (us := Float.round_half_even (s * 1000000)%R) in *.
  assert (Hq : 0 <= us / 86400000000 <= 1) by (Z.div_mod_to_equations; lia).
  replace (Z.abs (us / 86400000000) <=? 999999999) with true
    by (symmetry; apply Z.leb_le; lia).
  cbn [and_then]. unfold Datetime.add, Datetime.us_per_day, Datetime.max_ordinal.
  cbn [Datetime.micros Datetime.ordinal Datetime.total_us Datetime.utc]. rewrite Z.add_0_l.
  replace (1 <=? Datetime.ymd2ord year month day + us / 86400000000) with true
    by (symmetry; apply Z.leb_le; lia).
  replace (Datetime.ymd2ord year month day + us / 86400000000 <=? 3652059) with true
    by (symmetry; apply Z.leb_le; lia).
  reflexivity.
Qed.


(** The attribute [name] among [attrs] reads as the integer [z]. *)
Definition reads_int (attrs : dict NetCDF.attr) (name : string) (z : Z) : Prop :=
  exists a, get attrs name = Some a /\ NetCDF.attr_to_int a = Ok z.

Lemma attr_of_reads ds path v name z :
  reads_int (NetCDF.var_attrs v) name z ->
  attr_of ds (NetCDF.NVariable path v) name = Ok z.
Proof. intros (a & Ha & Hz). unfold attr_of. now rewrite Ha. Qed.

(** The time stamp of an entry of a time variable that carries a
    calendar date. *)
Lemma tstamp_of_entry ds path v i year month day row :
  reads_int (NetCDF.var_attrs v) "year" year ->
  reads_int (NetCDF.var_attrs v) "month" month ->
  reads_int (NetCDF.var_attrs v) "day" day ->
  calendar_date year month day ->
  NetCDF.getrow ds v i = Ok row ->
  tstamp_of ds (NetCDF.NVariable path v) i
  = and_then (to_float row) (fun seconds =>
    and_then (Datetime.of_seconds seconds)
      (Datetime.add {| Datetime.ordinal := Datetime.ymd2ord year month day;
                       Datetime.micros := 0; Datetime.utc := true |})).
Proof.
  intros Hy Hm Hd Hdate Hrow. unfold tstamp_of.
  rewrite (attr_of_reads ds path v "year" year Hy).
  rewrite (attr_of_reads ds path v "month" month Hm).
  rewrite (attr_of_reads ds path v "day" day Hd).
  cbn [and_then]. rewrite (make_calendar_date _ _ _ Hdate). cbn [and_then].
  rewrite Hrow. reflexivity.
Qed.







(** The variable [v] is the time variable of a product of [n] images:
    it lies along [number_of_images] and carries the calendar date
    [year]-[month]-[day]. *)
Record time_variable (v : NetCDF.NcVariable) (year month day : Z) : Prop := {
  tv_dims : exists rest, NetCDF.dims v = "number_of_images" :: rest;
  tv_year : reads_int (NetCDF.var_attrs v) "year" year;
  tv_month : reads_int (NetCDF.var_attrs v) "month" month;
  tv_day : reads_int (NetCDF.var_attrs v) "day" day;
  tv_date : calendar_date year month day
}.


(** ** A product with a counter that disagrees *)

Lemma round_half_even_IZR (z : Z) : Float.round_half_even (IZR z) = z.
Proof.
  unfold Float.round_half_even. rewrite ZfloorZ.
  destruct (Rlt_dec (IZR z - IZR z) (1 / 2)) as [_|N]; [reflexivity|].
  exfalso. apply N. lra.
Qed.


(** The sample product after three image times and two images were
    written: [number_of_images] is 3, the counter of the images is 2. *)
Definition sample_written : Lv1io.heap :=
  Eval vm_compute in
    snd ((Lv1io.set_dset image_time (Array Sample.times) (-1) ;;;
          Lv1io.set_dset "/science_data/detector_images"
            (Array [ Array [Scalar (SInt 7); Scalar (SInt 8)];
                     Array [Scalar (SInt 9); Scalar (SInt 6)] ]) (-1))
           Sample.created).

Definition sample_written_file : NetCDF.Dataset :=
  Eval vm_compute in
    match Lv1io.fid (fst sample_written) with
    | Some ds => ds
    | None => Sample.l1a
    end.





Definition sample_time_variable (fill : ndarray) (data : list ndarray)
    : NetCDF.NcVariable :=
  {| NetCDF.dims := ["number_of_images"];
     NetCDF.data := data;
     NetCDF.fill_value := fill;
     NetCDF.var_attrs :=
       [ ("year", NetCDF.AStr "2020"); ("month", NetCDF.AStr "5");
         ("day", NetCDF.AStr "15") ] |}.

Lemma sample_time_variable_date fill data :
  time_variable (sample_time_variable fill data) 2020 5 15.
Proof.
  split.
  - now exists [].
  - eexists. split; reflexivity.
  - eexists. split; reflexivity.
  - eexists. split; reflexivity.
  - unfold calendar_date. vm_compute. intuition discriminate.
Qed.

(** The time stamp of an entry that holds a time of the day. *)
Lemma tstamp_of_time_of_day ds path v i year month day row s :
  time_variable v year month day ->
  NetCDF.getrow ds v i = Ok row ->
  to_float row = Ok (Finite s) ->
  (0 <= s < 86400)%R ->
  tstamp_of ds (NetCDF.NVariable path v) i = Ok (time_stamp year month day s).
Proof.
  intros [_ Hy Hm Hd Hdate] Hrow Hfloat Hs.
  rewrite (tstamp_of_entry ds path v i year month day row Hy Hm Hd Hdate Hrow).
  rewrite Hfloat. cbn [and_then]. now apply add_time_of_day.
Qed.

Lemma sample_written_closes :
  close sample_written
  = (Ok tt,
     released (printed sample_written (mismatch_warnings sample_written 3 0))
       (with_coverage sample_written_file
          (time_stamp 2020 5 15 10) (time_stamp 2020 5 15 12))).
Proof.
  apply (L1Aio_close_nonempty sample_written sample_written_file
           {| NetCDF.size := 3; NetCDF.isunlimited := true |} Sample.unlimited
           (NetCDF.NVariable image_time
              (sample_time_variable (Scalar (SInt 0)) Sample.times))).
  - reflexivity.
  - reflexivity.
  - reflexivity.
  - discriminate.
  - reflexivity.
  - reflexivity.
  - apply tstamp_of_time_of_day with (row := Scalar (SInt 10)).
    + apply sample_time_variable_date.
    + reflexivity.
    + reflexivity.
    + lra.
  - apply tstamp_of_time_of_day with (row := Scalar (SInt 12)).
    + apply sample_time_variable_date.
    + reflexivity.
    + reflexivity.
    + lra.
Qed.


(** ** The time coverage of a Level-1B product *)

(** [int(secnd % 1)] is zero whatever [secnd] is: the part of a second
    never reaches the time stamp. *)
Lemma to_int_mod1 (r : R) : Float.to_int (Float.mod1 (Finite r)) = Ok 0.
Proof.
  unfold Float.mod1, Float.to_int, Float.trunc.
  pose proof (Zfloor_bound r) as [Hlo Hhi].
  destruct (Rlt_dec (r - IZR (Zfloor r)) 0) as [Hneg|_]; [lra|].
  f_equal. apply Zfloor_eq. simpl. lra.
Qed.

Lemma trunc_between (r : R) (z : Z) :
  (0 <= IZR z <= r)%R -> (r < IZR z + 1)%R -> Float.trunc r = z.
Proof.
  intros [Hz Hlo] Hhi. unfold Float.trunc.
  destruct (Rlt_dec r 0) as [Hneg|_]; [lra|].
  apply Zfloor_eq. lra.
Qed.

(** The time stamp of an entry that holds the finite float [r]. *)
Lemma coverage_time_entry (h : Lv1io.heap) ds time_var path v i r td t t' :
  Lv1io.fid (fst h) = Some ds ->
  NetCDF.getitem ds time_var = Ok (NetCDF.NVariable path v) ->
  NetCDF.getrow ds v i = Ok (Scalar (SFloat (Finite r))) ->
  Datetime.of_int_seconds (Float.trunc r) = Ok td ->
  Datetime.add (Lv1io.epoch (fst h)) td = Ok t ->
  Datetime.add t {| Datetime.total_us := 0 |} = Ok t' ->
  Check.coverage_time time_var i h = (Ok t', h).
Proof.
  intros Hfid Hitem Hrow Htd Ht Ht'.
  unfold Check.coverage_time, Check.entry.
  unfold bind, Lv1io.fid_getitem, Lv1io.fid_member, lift, get_state.
  repeat progress (cbn [fst snd to_float]; rewrite ?Hfid, ?Hitem, ?Hrow).
  change (Float.to_int (Finite r)) with (Ok (Float.trunc r) : result Z).
  cbn [fst snd]. rewrite Htd. cbn [fst snd]. rewrite Ht, to_int_mod1.
  change (Datetime.of_int_microseconds 0)
    with (Ok {| Datetime.total_us := 0 |} : result Datetime.timedelta).
  cbn [fst snd]. now rewrite Ht'.
Qed.

Lemma close_binned_nonempty (h h1 : Lv1io.heap) time_var check ds d t0 t1 :
  Lv1io.fid (fst h) = Some ds ->
  get (NetCDF.dimensions ds) "bins_along_track" = Some d ->
  NetCDF.size d <> 0 ->
  check h = (Ok tt, h1) ->
  Lv1io.fid (fst h1) = Some ds ->
  Check.coverage_time time_var 0 h1 = (Ok t0, h1) ->
  Check.coverage_time time_var (-1) h1 = (Ok t1, h1) ->
  Check.close_binned time_var check h
  = (Ok tt,
     released (Lv1io.with_fid (fst h1) (Some (with_coverage ds t0 t1)), snd h1)
       (with_coverage ds t0 t1)).
Proof.
  intros Hfid Hdim Hsize Hcheck Hfid1 Ht0 Ht1.
  unfold Check.close_binned. rewrite Hfid. unfold bind at 1.
  assert (Hempty : Check.dimension_is_empty "bins_along_track" h = (Ok false, h)).
  { unfold Check.dimension_is_empty, Lv1io.get_dim, bind, Lv1io.fid_member, ret.
    rewrite Hfid, Hdim. now apply Z.eqb_neq in Hsize as ->. }
  rewrite Hempty. unfold bind at 1. rewrite Hcheck.
  unfold bind at 1. rewrite Ht0. unfold bind at 1. rewrite Ht1.
  unfold bind at 1. rewrite (set_global_open h1 ds _ _ Hfid1).
  unfold bind at 1.
  rewrite (set_global_open _
             (NetCDF.setncattr ds "time_coverage_start"
                (NetCDF.AStr (Datetime.isoformat_milliseconds t0))))
    by reflexivity.
  now rewrite (release_open _ (with_coverage ds t0 t1)).
Qed.

(** A Level-1B product with two rows, whose image times are [first] and
    [last] seconds after the epoch 2020-05-15. *)
Module SampleB.

Definition l1b : NetCDF.Dataset :=
  {| NetCDF.dimensions :=
       [ ("bins_along_track", Sample.unlimited);
         ("number_of_views", {| NetCDF.size := 5; NetCDF.isunlimited := false |}) ];
     NetCDF.groups := [ ("/BIN_ATTRIBUTES", []) ];
     NetCDF.variables :=
       [ ("/BIN_ATTRIBUTES/image_time", Sample.variable ["bins_along_track"] []) ];
     NetCDF.ncattrs := [] |}.

Definition created : Lv1io.heap :=
  ({| Lv1io.processing_level := L1B; Lv1io.product := "SPX1_L1B_sample.nc";
      Lv1io.fid := Some l1b; Lv1io.epoch := Sample.ref_date |},
   new_process).

Definition time_var : string := "/BIN_ATTRIBUTES/image_time".

Definition written (first last : R) : Lv1io.heap :=
  Eval vm_compute in
    snd (Lv1io.set_dset time_var
           (Array [Scalar (SFloat (Finite first)); Scalar (SFloat (Finite last))])
           (-1) created).

Definition file (first last : R) : NetCDF.Dataset :=
  Eval vm_compute in
    match Lv1io.fid (fst (written first last)) with
    | Some ds => ds
    | None => l1b
    end.

(** The lines that [check_stored] prints for this product. *)
Definition lines : list string :=
  Eval vm_compute in Lv1io.stdout (snd (snd (L1Bio.check_stored (written 0 0)))).

Definition at_second (seconds : Z) : Datetime.datetime :=
  {| Datetime.ordinal := Datetime.ymd2ord 2020 5 15;
     Datetime.micros := seconds * 1000000;
     Datetime.utc := true |}.

End SampleB.

Lemma sampleB_written (first last : R) :
  Lv1io.set_dset SampleB.time_var
    (Array [Scalar (SFloat (Finite first)); Scalar (SFloat (Finite last))])
    (-1) SampleB.created
  = (Ok tt, SampleB.written first last).
Proof. vm_compute. reflexivity. Qed.

Lemma sampleB_check_stored (first last : R) :
  L1Bio.check_stored (SampleB.written first last)
  = (Ok tt, printed (SampleB.written first last) SampleB.lines).
Proof. vm_compute. reflexivity. Qed.

Lemma sampleB_coverage (first last : R) (i : Z) (r : R) (whole : Z) :
  NetCDF.getrow (SampleB.file first last)
    (NetCDF.with_data (Sample.variable ["bins_along_track"] [])
       [Scalar (SFloat (Finite first)); Scalar (SFloat (Finite last))]) i
  = Ok (Scalar (SFloat (Finite r))) ->
  (0 <= IZR whole <= r)%R -> (r < IZR whole + 1)%R ->
  0 <= whole < 86400 ->
  Check.coverage_time SampleB.time_var i
    (printed (SampleB.written first last) SampleB.lines)
  = (Ok (SampleB.at_second whole),
     printed (SampleB.written first last) SampleB.lines).
Proof.
  intros Hrow Hlo Hhi Hday.
  assert (Hdiv : whole * 1000000 / Datetime.us_per_day = 0).
  { apply Z.div_small. unfold Datetime.us_per_day. lia. }
  apply coverage_time_entry
    with (ds := SampleB.file first last) (path := SampleB.time_var)
         (v := NetCDF.with_data (Sample.variable ["bins_along_track"] [])
                 [Scalar (SFloat (Finite first)); Scalar (SFloat (Finite last))])
         (r := r) (td := {| Datetime.total_us := whole * 1000000 |})
         (t := SampleB.at_second whole).
  - reflexivity.
  - reflexivity.
  - exact Hrow.
  - rewrite (trunc_between r whole Hlo Hhi).
    unfold Datetime.of_int_seconds, Datetime.normalize. now rewrite Hdiv.
  - unfold Datetime.add, SampleB.at_second.
    cbn [Lv1io.epoch fst printed SampleB.written Sample.ref_date
         Datetime.micros Datetime.ordinal Datetime.total_us Datetime.utc].
    rewrite Z.add_0_l, Hdiv, Z.add_0_r.
    rewrite Z.mod_small by (unfold Datetime.us_per_day; lia).
    reflexivity.
  - unfold Datetime.add, SampleB.at_second.
    cbn [Datetime.micros Datetime.ordinal Datetime.total_us Datetime.utc].
    rewrite Z.add_0_r, Hdiv, Z.add_0_r.
    rewrite Z.mod_small by (unfold Datetime.us_per_day; lia).
    reflexivity.
Qed.

(** C2, on the code. [L1Bio.close] adds [int(secnd % 1)] microseconds to
    the whole seconds of an entry, and that number is always zero: for
    a Level-1B product whose image times are 1.5 s and 2.75 s, the
    attributes written are the time stamps of 1 s and of 2 s, while the
    first entry to the millisecond is [...:01.500]. *)
Theorem C2_L1B_close_drops_subseconds :
  (forall r, Float.to_int (Float.mod1 (Finite r)) = Ok 0)
  /\ (exists h',
         close (SampleB.written 1.5 2.75) = (Ok tt, h')
         /\ Lv1io.fid (fst h') = None
         /\ get (Lv1io.disk (snd h')) "SPX1_L1B_sample.nc"
            = Some (with_coverage (SampleB.file 1.5 2.75)
                      (SampleB.at_second 1) (SampleB.at_second 2)))
  /\ Datetime.isoformat_milliseconds (SampleB.at_second 1)
     = "2020-05-15T00:00:01.000+00:00"
  /\ Datetime.isoformat_milliseconds (SampleB.at_second 2)
     = "2020-05-15T00:00:02.000+00:00"
  /\ and_then (Datetime.of_seconds (Finite 1.5))
       (fun delta =>
          and_then (Datetime.add Sample.ref_date delta)
            (fun t => Ok (Datetime.isoformat_milliseconds t)))
     = Ok "2020-05-15T00:00:01.500+00:00".
Proof.
  split; [exact to_int_mod1|]. split; [|split; [reflexivity|split; [reflexivity|]]].
  - eexists. split.
    + change (close (SampleB.written 1.5 2.75))
        with (Check.close_binned SampleB.time_var L1Bio.check_stored
                (SampleB.written 1.5 2.75)).
      apply close_binned_nonempty
        with (h1 := printed (SampleB.written 1.5 2.75) SampleB.lines)
             (d := {| NetCDF.size := 2; NetCDF.isunlimited := true |})
             (t0 := SampleB.at_second 1) (t1 := SampleB.at_second 2).
      * reflexivity.
      * reflexivity.
      * discriminate.
      * apply sampleB_check_stored.
      * reflexivity.
      * apply sampleB_coverage with (r := 1.5%R); [reflexivity | split; lra | lra | lia].
      * apply sampleB_coverage with (r := 2.75%R); [reflexivity | split; lra | lra | lia].
    + split; [reflexivity|]. reflexivity.
  - unfold Datetime.of_seconds.
    replace (1.5 * 1000000)%R with (IZR 1500000) by lra.
    rewrite round_half_even_IZR. reflexivity.
Qed.

(** * Further properties of the writer *)

(** ** What [set_dset] leaves alone *)

(** The tables of counters of the four classes. *)
Definition tables (p : Lv1io.process)
    : dict Z * dict Z * dict Z * dict Z :=
  (Lv1io.Lv1io_dset_stored p, Lv1io.L1Aio_dset_stored p,
   Lv1io.L1Bio_dset_stored p, Lv1io.L1Cio_dset_stored p).

Lemma stored_update (h : Lv1io.heap) (name : string) (n : Z) :
  (exists c r h',
      (c <- Lv1io.stored_getitem name ;; Lv1io.stored_setitem name (c + n)) h
      = (r, h')
      /\ counter h name = Some c
      /\ r = Ok tt
      /\ fst h' = fst h
      /\ counter h' name = Some (c + n)
      /\ (forall key, key <> name -> counter h' key = counter h key)
      /\ (forall lv, keys (Lv1io.dset_stored lv (snd h'))
                     = keys (Lv1io.dset_stored lv (snd h)))
      /\ Lv1io.stdout (snd h') = Lv1io.stdout (snd h)
      /\ Lv1io.disk (snd h') = Lv1io.disk (snd h))
  \/ (counter h name = None
      /\ (c <- Lv1io.stored_getitem name ;; Lv1io.stored_setitem name (c + n)) h
         = (Raise KeyError, h)).
Proof.
  destruct h as [self p]. unfold bind, Lv1io.stored_getitem, counter.
  cbn [fst snd]. destruct (get _ name) as [c|] eqn:Hc; [left|right; auto].
  exists c. do 2 eexists. split; [reflexivity|].
  split; [reflexivity|]. split; [reflexivity|]. split; [reflexivity|].
  cbn [fst snd]. rewrite dset_stored_with. split; [apply get_set_same|].
  split; [intros key Hne; now apply get_set_other|].
  split; [|split; reflexivity].
  intros lv.
  assert (Hk : keys (set (Lv1io.dset_stored (Lv1io.processing_level self) p)
                       name (c + n))
               = keys (Lv1io.dset_stored (Lv1io.processing_level self) p)).
  { apply keys_set. unfold mem. now rewrite Hc. }
  destruct (Lv1io.processing_level self), lv; cbn in *; auto.
Qed.

(** X1. Whatever [set_dset] does to the file, and whether it returns
    or raises, it leaves the keys of every table as they are, changes
    at most the counter of [name], and neither prints nor touches the
    disk; when it returns, that counter has grown by the number of rows
    of the value. *)
Theorem set_dset_frame (h : Lv1io.heap) (name : string) (value : ndarray) (ibgn : Z) :
  let h' := snd (Lv1io.set_dset name value ibgn h) in
  (forall lv, keys (Lv1io.dset_stored lv (snd h'))
              = keys (Lv1io.dset_stored lv (snd h)))
  /\ (forall key, key <> name -> counter h' key = counter h key)
  /\ Lv1io.stdout (snd h') = Lv1io.stdout (snd h)
  /\ Lv1io.disk (snd h') = Lv1io.disk (snd h)
  /\ (fst (Lv1io.set_dset name value ibgn h) = Ok tt ->
      exists c, counter h name = Some c
                /\ counter h' name = Some (c + rows_of value)).
Proof.
  cbv zeta. destruct (Lv1io.set_dset name value ibgn h) as [r h'] eqn:Hrun.
  cbn [fst snd]. revert Hrun. unfold Lv1io.set_dset. unfold bind at 1.
  pose proof (variable_present_state (grp_name_of name) (var_name_of name) h) as Hst.
  fold (grp_name_of name) (var_name_of name).
  destruct (Lv1io.variable_present (grp_name_of name) (var_name_of name) h)
    as [[present|e] h0]; cbn [snd] in Hst; subst h0;
    [|intros [= <- <-]; repeat split; auto; intros; discriminate].
  destruct present; cbn [negb];
    [|unfold raise; intros [= <- <-]; repeat split; auto; intros; discriminate].
  unfold bind at 1.
  destruct (store_process name value ibgn h) as [Hp Hlv].
  destruct (Lv1io.store name value ibgn h) as [[[]|e] h1] eqn:Hstore;
    cbn [fst snd] in Hp, Hlv.
  - assert (Hcnt : forall key, counter h1 key = counter h key)
      by (intros key; unfold counter; now rewrite Hlv, Hp).
    destruct (stored_update h1 name (rows_of value))
      as [(c & r2 & h2 & Hrun & Hc & Hr & _ & Hc2 & Hother & Hkeys & Hout & Hdisk)
         | [Hc Hrun]];
      rewrite Hrun; intros [= <- <-].
    + rewrite <- Hp. repeat split; auto.
      * intros key Hne. rewrite Hother by exact Hne. apply Hcnt.
      * intros _. exists c. rewrite <- Hcnt. auto.
    + rewrite Hp. repeat split; auto. intros; discriminate.
  - intros [= <- <-]. rewrite Hp. repeat split; auto.
    + intros key _. unfold counter. now rewrite Hlv, Hp.
    + intros; discriminate.
Qed.

Lemma set_dset_frame_witness :
  "/science_data/detector_images" <> image_time
  /\ fst (Lv1io.set_dset image_time (Array Sample.times) (-1) Sample.created) = Ok tt
  /\ counter (snd (Lv1io.set_dset image_time (Array Sample.times) (-1) Sample.created))
       "/science_data/detector_images"
     = counter Sample.created "/science_data/detector_images"
  /\ exists c,
       counter Sample.created image_time = Some c
       /\ counter (snd (Lv1io.set_dset image_time (Array Sample.times) (-1)
                          Sample.created)) image_time
          = Some (c + 3).
Proof.
  assert (Hne : "/science_data/detector_images" <> image_time) by discriminate.
  assert (Hok : fst (Lv1io.set_dset image_time (Array Sample.times) (-1)
                       Sample.created) = Ok tt) by reflexivity.
  destruct (set_dset_frame Sample.created image_time (Array Sample.times) (-1))
    as (_ & Hother & _ & _ & Hcount).
  split; [exact Hne|]. split; [exact Hok|].
  split; [exact (Hother _ Hne)|]. exact (Hcount Hok).
Defined.

(** ** What [close] leaves alone *)

(** What no method but [set_dset] and [__init__] changes: the tables of
    counters, and the class, the name and the epoch of the product. *)
Definition kept (h : Lv1io.heap)
    : dict Z * dict Z * dict Z * dict Z * level * string * Datetime.datetime :=
  (tables (snd h), Lv1io.processing_level (fst h), Lv1io.product (fst h),
   Lv1io.epoch (fst h)).

(** A computation that keeps them, however it ends. *)
Definition keeps {A} (m : M Lv1io.heap A) : Prop :=
  forall h, kept (snd (m h)) = kept h.

Lemma keeps_bind {A B} (m : M Lv1io.heap A) (k : A -> M Lv1io.heap B) :
  keeps m -> (forall a, keeps (k a)) -> keeps (bind m k).
Proof.
  intros Hm Hk h. unfold bind. specialize (Hm h).
  destruct (m h) as [[a|e] h1]; cbn [snd] in *; [|exact Hm].
  now rewrite Hk.
Qed.

Lemma keeps_pure {A} (r : result A) : keeps (lift r).
Proof. now intros h. Qed.

Lemma keeps_get_state : keeps (@get_state Lv1io.heap).
Proof. now intros h. Qed.

Lemma keeps_fid_member : keeps Lv1io.fid_member.
Proof. intros h. unfold Lv1io.fid_member. now destruct (Lv1io.fid (fst h)). Qed.

Lemma keeps_fid_getitem elem : keeps (Lv1io.fid_getitem elem).
Proof. intros h. unfold Lv1io.fid_getitem. now destruct (Lv1io.fid (fst h)). Qed.

Lemma keeps_put_fid f : keeps (Lv1io.put_fid f).
Proof. now intros h. Qed.

Lemma keeps_print line : keeps (Lv1io.print line).
Proof. now intros h. Qed.

Lemma keeps_stored_getitem key : keeps (Lv1io.stored_getitem key).
Proof.
  intros h. unfold Lv1io.stored_getitem. now destruct (get _ key).
Qed.

Lemma keeps_for_each {A} (l : list A) (body : A -> M Lv1io.heap unit) :
  (forall x, keeps (body x)) -> keeps (for_each l body).
Proof.
  intros Hbody. induction l as [|x l IH]; cbn [for_each].
  - apply (keeps_pure (Ok tt)).
  - apply keeps_bind; auto.
Qed.

Lemma keeps_fid_close : keeps Lv1io.fid_close.
Proof.
  unfold Lv1io.fid_close. apply keeps_bind; [apply keeps_fid_member|].
  now intros ds h.
Qed.

Lemma keeps_release : keeps Check.release.
Proof.
  unfold Check.release. apply keeps_bind; [apply keeps_fid_close|].
  intros _. apply keeps_put_fid.
Qed.

Lemma keeps_get_dim name : keeps (Lv1io.get_dim name).
Proof.
  unfold Lv1io.get_dim. apply keeps_bind; [apply keeps_fid_member|].
  intros ds. destruct (get _ name); [apply (keeps_pure (Ok _)) | apply (keeps_pure (Raise _))].
Qed.

Lemma keeps_stored_values key_list : keeps (Check.stored_values key_list).
Proof.
  induction key_list as [|key rest IH]; cbn [Check.stored_values].
  - apply (keeps_pure (Ok [])).
  - apply keeps_bind; [apply keeps_stored_getitem|]. intros n.
    apply keeps_bind; [exact IH|]. intros ns. apply (keeps_pure (Ok _)).
Qed.

Lemma keeps_block lv dim_name select skip wrong :
  keeps (Check.block lv dim_name select skip wrong).
Proof.
  unfold Check.block. apply keeps_bind; [apply keeps_get_dim|]. intros dim_sz.
  apply keeps_bind; [apply keeps_get_state|]. intros h.
  apply keeps_bind; [apply keeps_stored_values|]. intros res.
  unfold Check.report. apply keeps_for_each. intros ii.
  destruct (nth_error _ ii); [|apply (keeps_pure (Raise _))].
  destruct (nth_error res ii); [apply keeps_print | apply (keeps_pure (Raise _))].
Qed.

Lemma keeps_dump key_list : forall ii, keeps (Check.dump key_list ii).
Proof.
  induction key_list as [|key rest IH]; intros ii; cbn [Check.dump].
  - apply (keeps_pure (Ok tt)).
  - apply keeps_bind; [apply keeps_stored_getitem|]. intros n.
    apply keeps_bind; [apply keeps_print|]. intros _. apply IH.
Qed.

Lemma keeps_set_global name text : keeps (Check.set_global name text).
Proof.
  unfold Check.set_global. apply keeps_bind; [apply keeps_fid_member|].
  intros ds. apply keeps_put_fid.
Qed.

Lemma keeps_check_stored_A allow_empty : keeps (L1Aio.check_stored allow_empty).
Proof.
  unfold L1Aio.check_stored. apply keeps_bind; [apply keeps_block|].
  intros _. apply keeps_block.
Qed.

Lemma keeps_check_stored_binned lv : keeps (Check.check_stored_binned lv).
Proof.
  unfold Check.check_stored_binned.
  apply keeps_bind; [apply keeps_block|]. intros _.
  apply keeps_bind; [apply keeps_block|]. intros _.
  apply keeps_bind; [apply keeps_get_state|]. intros h. apply keeps_dump.
Qed.

Lemma keeps_int_attr nd name : keeps (L1Aio.int_attr nd name).
Proof.
  unfold L1Aio.int_attr. apply keeps_bind; [apply keeps_fid_member|].
  intros ds. destruct (get _ name); [apply keeps_pure | apply (keeps_pure (Raise _))].
Qed.

Lemma keeps_tstamp_at nd i : keeps (L1Aio.tstamp_at nd i).
Proof.
  unfold L1Aio.tstamp_at.
  apply keeps_bind; [apply keeps_int_attr|]. intros year.
  apply keeps_bind; [apply keeps_int_attr|]. intros month.
  apply keeps_bind; [apply keeps_int_attr|]. intros day.
  apply keeps_bind; [apply keeps_pure|]. intros tstamp.
  apply keeps_bind; [apply keeps_fid_member|]. intros ds.
  apply keeps_bind;
    [destruct nd; [apply (keeps_pure (Raise _)) | apply keeps_pure]|].
  intros row.
  apply keeps_bind; [apply keeps_pure|]. intros seconds.
  apply keeps_bind; [apply keeps_pure|]. intros delta. apply keeps_pure.
Qed.

Lemma keeps_coverage_time time_var i : keeps (Check.coverage_time time_var i).
Proof.
  unfold Check.coverage_time, Check.entry.
  apply keeps_bind.
  { apply keeps_bind; [apply keeps_fid_getitem|]. intros nd.
    apply keeps_bind; [apply keeps_fid_member|]. intros ds.
    destruct nd; [apply (keeps_pure (Raise _)) | apply keeps_pure]. }
  intros secnd_data.
  apply keeps_bind; [apply keeps_get_state|]. intros h.
  repeat (apply keeps_bind; [apply keeps_pure|intros ?]). apply keeps_pure.
Qed.

Lemma keeps_dimension_is_empty name : keeps (Check.dimension_is_empty name).
Proof.
  unfold Check.dimension_is_empty. apply keeps_bind; [apply keeps_get_dim|].
  intros n. apply (keeps_pure (Ok _)).
Qed.

Lemma keeps_close_binned time_var check :
  keeps check -> keeps (Check.close_binned time_var check).
Proof.
  intros Hcheck h. unfold Check.close_binned.
  destruct (Lv1io.fid (fst h)); [|reflexivity].
  revert h. change (keeps
    (empty <- Check.dimension_is_empty "bins_along_track" ;;
     if empty then Check.release
     else
       check ;;;
       time0 <- Check.coverage_time time_var 0 ;;
       time1 <- Check.coverage_time time_var (-1) ;;
       Check.set_global "time_coverage_start" (Datetime.isoformat_milliseconds time0) ;;;
       Check.set_global "time_coverage_end" (Datetime.isoformat_milliseconds time1) ;;;
       Check.release)).
  apply keeps_bind; [apply keeps_dimension_is_empty|]. intros [|].
  - apply keeps_release.
  - repeat (apply keeps_bind;
            [first [exact Hcheck | apply keeps_coverage_time
                   | apply keeps_set_global]|intros ?]).
    apply keeps_release.
Qed.

Lemma keeps_close_A : keeps L1Aio.close.
Proof.
  intros h. unfold L1Aio.close.
  destruct (Lv1io.fid (fst h)); [|reflexivity].
  revert h. change (keeps
    (empty <- Check.dimension_is_empty "number_of_images" ;;
     if empty then Check.release
     else
       L1Aio.check_stored true ;;;
       dset <- Lv1io.fid_getitem "/image_attributes/image_time" ;;
       tstamp <- L1Aio.tstamp_at dset 0 ;;
       Check.set_global "time_coverage_start" (Datetime.isoformat_milliseconds tstamp) ;;;
       tstamp <- L1Aio.tstamp_at dset (-1) ;;
       Check.set_global "time_coverage_end" (Datetime.isoformat_milliseconds tstamp) ;;;
       Check.release)).
  apply keeps_bind; [apply keeps_dimension_is_empty|]. intros [|].
  - apply keeps_release.
  - repeat (apply keeps_bind;
            [first [apply keeps_check_stored_A | apply keeps_fid_getitem
                   | apply keeps_tstamp_at | apply keeps_set_global]|intros ?]).
    apply keeps_release.
Qed.

Lemma keeps_close : keeps close.
Proof.
  intros h. unfold close. destruct (Lv1io.processing_level (fst h)).
  - unfold Lv1io.close. destruct (Lv1io.fid (fst h)); [|reflexivity].
    apply (keeps_release h).
  - apply keeps_close_A.
  - apply keeps_close_binned, keeps_check_stored_binned.
  - apply keeps_close_binned, keeps_check_stored_binned.
Qed.

(** X2. [close], of whatever class and however it ends, changes no
    counter: the tables of the classes are after [close] what they were
    before, so the counters that a product reached stay behind in the
    process when it is closed. *)
Theorem close_keeps_counters (h : Lv1io.heap) :
  tables (snd (snd (close h))) = tables (snd h)
  /\ forall key, counter (snd (close h)) key = counter h key.
Proof.
  pose proof (keeps_close h) as H. unfold kept in H.
  pose proof (f_equal (fun x => fst (fst (fst x))) H) as Ht.
  pose proof (f_equal (fun x => snd (fst (fst x))) H) as Hlv.
  cbn [fst snd] in Ht, Hlv. split; [exact Ht|].
  intros key. unfold counter. rewrite Hlv.
  unfold tables in Ht. injection Ht as H0 HA HB HC.
  destruct (Lv1io.processing_level (fst h)); cbn [Lv1io.dset_stored]; congruence.
Qed.

(** ** Names of the form [/group/variable] *)

(** A name without a slash that is neither empty nor [.]. *)
Definition plain (s : string) : bool := Posix.is_part s && NetCDF.no_slash s.

(** [/g/v] *)
Definition in_group (g v : string) : string := "/" ++ g ++ "/" ++ v.

Lemma split_no_slash (s : string) :
  NetCDF.no_slash s = true -> Posix.split Posix.slash s = [s].
Proof.
  induction s as [|a s IH]; cbn [NetCDF.no_slash Posix.split]; [reflexivity|].
  intros H. apply andb_true_iff in H as [Ha Hs].
  apply negb_true_iff in Ha. rewrite Ha, IH by exact Hs. reflexivity.
Qed.

Lemma split_app_slash (g r : string) :
  NetCDF.no_slash g = true ->
  Posix.split Posix.slash (g ++ String Posix.slash r)
  = g :: Posix.split Posix.slash r.
Proof.
  induction g as [|a g IH]; cbn [NetCDF.no_slash Posix.split String.append].
  - intros _. now rewrite Ascii.eqb_refl.
  - intros H. apply andb_true_iff in H as [Ha Hg].
    apply negb_true_iff in Ha. rewrite Ha, IH by exact Hg. reflexivity.
Qed.

Lemma parse_in_group (g v : string) :
  plain g = true -> plain v = true ->
  Posix.parse (in_group g v)
  = {| Posix.anchored := true; Posix.parts := [g; v] |}.
Proof.
  unfold plain. intros Hg Hv.
  apply andb_true_iff in Hg as [Hg1 Hg2]. apply andb_true_iff in Hv as [Hv1 Hv2].
  unfold Posix.parse, in_group. cbn [String.append]. f_equal.
  change (String "/" (g ++ String "/" v)) with (String Posix.slash (g ++ String Posix.slash v)).
  cbn [Posix.split]. rewrite Ascii.eqb_refl.
  rewrite split_app_slash, split_no_slash by assumption.
  cbn [filter]. now rewrite Hg1, Hv1.
Qed.

Lemma parse_group (g : string) :
  plain g = true ->
  Posix.parse ("/" ++ g) = {| Posix.anchored := true; Posix.parts := [g] |}.
Proof.
  unfold plain. intros Hg. apply andb_true_iff in Hg as [Hg1 Hg2].
  unfold Posix.parse. cbn [String.append]. f_equal.
  change (String "/" g) with (String Posix.slash g).
  cbn [Posix.split]. rewrite Ascii.eqb_refl, split_no_slash by assumption.
  cbn [filter]. now rewrite Hg1.
Qed.

Lemma grp_name_in_group (g v : string) :
  plain g = true -> plain v = true -> grp_name_of (in_group g v) = "/" ++ g.
Proof.
  intros Hg Hv. unfold grp_name_of. now rewrite parse_in_group.
Qed.

Lemma var_name_in_group (g v : string) :
  plain g = true -> plain v = true -> var_name_of (in_group g v) = v.
Proof.
  intros Hg Hv. unfold var_name_of. now rewrite parse_in_group.
Qed.

Lemma getitem_group (ds : NetCDF.Dataset) (g : string) :
  plain g = true ->
  mem (NetCDF.groups ds) ("/" ++ g) = true ->
  NetCDF.getitem ds ("/" ++ g) = Ok (NetCDF.NGroup ("/" ++ g)).
Proof.
  intros Hg Hmem. unfold NetCDF.getitem. rewrite parse_group by exact Hg.
  cbn [Posix.parts removelast NetCDF.nested_groups].
  change (NetCDF.abspath [g]) with ("/" ++ g). now rewrite Hmem.
Qed.

(** The test of [set_dset] and of [get_dset] on [/g/v]: the group must
    be there, and the answer is whether the variable is. *)
Lemma variable_present_in_group (h : Lv1io.heap) ds g v :
  plain g = true -> plain v = true ->
  Lv1io.fid (fst h) = Some ds ->
  mem (NetCDF.groups ds) ("/" ++ g) = true ->
  Lv1io.variable_present (grp_name_of (in_group g v)) (var_name_of (in_group g v)) h
  = (Ok (mem (NetCDF.variables ds) (in_group g v)), h).
Proof.
  intros Hg Hv Hfid Hmem.
  rewrite grp_name_in_group, var_name_in_group by assumption.
  unfold Lv1io.variable_present, bind, Lv1io.fid_getitem, Lv1io.fid_member, ret.
  cbn [String.eqb Ascii.eqb negb String.append Bool.eqb].
  rewrite Hfid. change (String "/" g) with ("/" ++ g).
  rewrite getitem_group by assumption. cbn [fst snd]. rewrite Hfid.
  reflexivity.
Qed.

Lemma getitem_in_group (ds : NetCDF.Dataset) g v var :
  plain g = true -> plain v = true ->
  mem (NetCDF.groups ds) ("/" ++ g) = true ->
  mem (NetCDF.groups ds) (in_group g v) = false ->
  get (NetCDF.variables ds) (in_group g v) = Some var ->
  NetCDF.getitem ds (in_group g v) = Ok (NetCDF.NVariable (in_group g v) var).
Proof.
  intros Hg Hv Hgrp Hnot Hvar. unfold NetCDF.getitem.
  rewrite parse_in_group by assumption.
  cbn [Posix.parts removelast NetCDF.nested_groups app].
  change (NetCDF.abspath [g]) with ("/" ++ g).
  change (NetCDF.abspath [g; v]) with (in_group g v).
  now rewrite Hgrp, Hnot, Hvar.
Qed.

(** A variable declared in a group of the file is one that [set_dset]
    can write. *)
Lemma open_variable_in_group (h : Lv1io.heap) ds g v var :
  plain g = true -> plain v = true ->
  Lv1io.fid (fst h) = Some ds ->
  mem (NetCDF.groups ds) ("/" ++ g) = true ->
  mem (NetCDF.groups ds) (in_group g v) = false ->
  get (NetCDF.variables ds) (in_group g v) = Some var ->
  open_variable h (in_group g v) ds (in_group g v) var.
Proof.
  intros Hg Hv Hfid Hgrp Hnot Hvar. split.
  - exact Hfid.
  - rewrite (variable_present_in_group h ds g v) by assumption.
    unfold mem. now rewrite Hvar.
  - now apply getitem_in_group.
Qed.

(** X3. For a name [/g/v] whose group is in the file and whose variable
    is not, [set_dset] and [get_dset] raise [KeyError] and the product is
    as before: nothing is written and no counter moves. *)
Theorem undeclared_variable_raises
    (h : Lv1io.heap) (ds : NetCDF.Dataset) (g v : string)
    (value : ndarray) (ibgn : Z) :
  plain g = true -> plain v = true ->
  Lv1io.fid (fst h) = Some ds ->
  mem (NetCDF.groups ds) ("/" ++ g) = true ->
  mem (NetCDF.variables ds) (in_group g v) = false ->
  Lv1io.set_dset (in_group g v) value ibgn h = (Raise KeyError, h)
  /\ Lv1io.get_dset (in_group g v) h = (Raise KeyError, h).
Proof.
  intros Hg Hv Hfid Hgrp Hvar.
  pose proof (variable_present_in_group h ds g v Hg Hv Hfid Hgrp) as Hp.
  rewrite Hvar in Hp.
  unfold Lv1io.set_dset, Lv1io.get_dset, bind.
  fold (grp_name_of (in_group g v)) (var_name_of (in_group g v)).
  now rewrite Hp.
Qed.

Lemma undeclared_variable_raises_witness :
  plain "engineering_data" = true /\ plain "temp_fpa" = true
  /\ Lv1io.fid (fst Sample.created) = Some Sample.l1a
  /\ mem (NetCDF.groups Sample.l1a) "/engineering_data" = true
  /\ mem (NetCDF.variables Sample.l1a) "/engineering_data/temp_fpa" = false
  /\ Lv1io.set_dset "/engineering_data/temp_fpa" (Scalar (SInt 1)) (-1) Sample.created
     = (Raise KeyError, Sample.created).
Proof.
  assert (H1 : plain "engineering_data" = true) by reflexivity.
  assert (H2 : plain "temp_fpa" = true) by reflexivity.
  assert (H3 : Lv1io.fid (fst Sample.created) = Some Sample.l1a) by reflexivity.
  assert (H4 : mem (NetCDF.groups Sample.l1a) ("/" ++ "engineering_data") = true)
    by reflexivity.
  assert (H5 : mem (NetCDF.variables Sample.l1a)
                 (in_group "engineering_data" "temp_fpa") = false) by reflexivity.
  split; [exact H1|]. split; [exact H2|]. split; [exact H3|].
  split; [exact H4|]. split; [exact H5|].
  exact (proj1 (undeclared_variable_raises Sample.created Sample.l1a
                  "engineering_data" "temp_fpa" (Scalar (SInt 1)) (-1)
                  H1 H2 H3 H4 H5)).
Defined.

(** ** Writing a variable of fixed size, and reading back *)

Lemma get_dims_same_dimensions (ds ds' : NetCDF.Dataset) (names : list string) :
  NetCDF.dimensions ds' = NetCDF.dimensions ds ->
  NetCDF.get_dims ds' names = NetCDF.get_dims ds names.
Proof.
  intros Hd. induction names as [|n names IH]; cbn [NetCDF.get_dims];
    [reflexivity|].
  now rewrite Hd, IH.
Qed.

Lemma get_dims_head (ds : NetCDF.Dataset) dname rest dim drest :
  NetCDF.get_dims ds (dname :: rest) = Ok (dim :: drest) ->
  get (NetCDF.dimensions ds) dname = Some dim.
Proof.
  cbn [NetCDF.get_dims]. destruct (get _ dname) as [d|]; [|discriminate].
  destruct (NetCDF.get_dims ds rest); [|discriminate]. now intros [= -> _].
Qed.

(** X4. A variable of fixed dimensions is overwritten as a whole by
    every [set_dset] with a value that fits it, whatever [ibgn] is, but
    its counter grows with every call: after two writes the variable
    holds the second value and the counter has grown by the rows of
    both.  An array of one axis, of two elements or more and of another
    length than the variable, is refused by the library: [set_dset]
    raises, nothing is written and nothing is counted. *)
Theorem fixed_variable_counts_every_write
    (h : Lv1io.heap) (name : string) (ds : NetCDF.Dataset) (path : string)
    (v : NetCDF.NcVariable) (dl : list NetCDF.Dimension) (c : Z)
    (value1 value2 : ndarray) (ibgn1 ibgn2 : Z) :
  open_variable h name ds path v ->
  fixed_shape ds v dl ->
  counter h name = Some c ->
  (fits dl value1 -> fits dl value2 ->
   exists h1 h2,
     Lv1io.set_dset name value1 ibgn1 h = (Ok tt, h1)
     /\ Lv1io.set_dset name value2 ibgn2 h1 = (Ok tt, h2)
     /\ counter h2 name = Some (c + rows_of value1 + rows_of value2)
     /\ stored_data h2 path = Some (entries dl value2))
  /\ (forall dim rows,
        dl = [dim] -> value1 = Array rows ->
        Np.has_shape [Z.of_nat (List.length rows)] value1 ->
        (2 <= List.length rows)%nat ->
        Z.of_nat (List.length rows) <> NetCDF.size dim ->
        exists e,
          (e = IndexError \/ e = ValueError)
          /\ Lv1io.set_dset name value1 ibgn1 h = (Raise e, h)).
Proof.
  intros Hopen Hshape Hc. split.
  - intros Hfits1 Hfits2.
    pose proof (set_dset_fixed h name ds path v dl value1 ibgn1
                  Hopen Hshape Hfits1) as Hrun1.
    rewrite Hc in Hrun1.
    set (v1 := NetCDF.with_data v (entries dl value1)) in *.
    set (ds1 := NetCDF.with_variable ds path v1) in *.
    set (h1 := written h ds1 name (c + rows_of value1)) in *.
    assert (Hopen1 : open_variable h1 name ds1 path v1).
    { apply open_variable_written with (ds := ds) (v := v); [exact Hopen|].
      split; reflexivity. }
    assert (Hshape1 : fixed_shape ds1 v1 dl).
    { destruct Hshape as [Hg Hf]. split; [|exact Hf].
      now rewrite (get_dims_same_dimensions ds ds1). }
    pose proof (set_dset_fixed h1 name ds1 path v1 dl value2 ibgn2
                  Hopen1 Hshape1 Hfits2) as Hrun2.
    assert (Hc1 : counter h1 name = Some (c + rows_of value1))
      by apply counter_written.
    rewrite Hc1 in Hrun2.
    exists h1. eexists. split; [exact Hrun1|]. split; [exact Hrun2|].
    split; [apply counter_written|].
    unfold written. apply stored_data_with_fid.
  - intros dim rows -> -> Hndim Hne Hlen.
    exists IndexError. split; [now left|].
    apply (set_dset_fixed_refused h name ds path v [dim]); [exact Hopen|exact Hshape|].
    apply assign_all_other_length; [exact Hndim| |exact Hlen].
    intros ->. cbn in Hne. lia.
Qed.

(** The sample schema with two images to a product: [number_of_images]
    has a fixed size. *)
Definition sample_fixed_file : NetCDF.Dataset :=
  NetCDF.with_dimension Sample.l1a "number_of_images"
    {| NetCDF.size := 2; NetCDF.isunlimited := false |}.

Definition sample_fixed : Lv1io.heap :=
  (Lv1io.with_fid (fst Sample.created) (Some sample_fixed_file), new_process).

Definition image_id : string := "/image_attributes/image_ID".

Lemma fixed_variable_counts_every_write_witness :
  open_variable sample_fixed image_id sample_fixed_file image_id
    (Sample.variable ["number_of_images"] [])
  /\ fixed_shape sample_fixed_file (Sample.variable ["number_of_images"] [])
       [ {| NetCDF.size := 2; NetCDF.isunlimited := false |} ]
  /\ counter sample_fixed image_id = Some 0
  /\ (exists h1 h2,
        Lv1io.set_dset image_id (Array [Scalar (SInt 1); Scalar (SInt 2)]) (-1)
          sample_fixed = (Ok tt, h1)
        /\ Lv1io.set_dset image_id (Array [Scalar (SInt 3); Scalar (SInt 4)]) (-1) h1
           = (Ok tt, h2)
        /\ counter h2 image_id = Some (0 + 2 + 2)
        /\ stored_data h2 image_id = Some [Scalar (SInt 3); Scalar (SInt 4)])
  /\ (exists e,
        (e = IndexError \/ e = ValueError)
        /\ Lv1io.set_dset image_id
             (Array [Scalar (SInt 1); Scalar (SInt 2); Scalar (SInt 3)]) (-1)
             sample_fixed
           = (Raise e, sample_fixed)).
Proof.
  assert (H1 : open_variable sample_fixed image_id sample_fixed_file image_id
                 (Sample.variable ["number_of_images"] []))
    by (split; reflexivity).
  assert (H2 : fixed_shape sample_fixed_file (Sample.variable ["number_of_images"] [])
                 [ {| NetCDF.size := 2; NetCDF.isunlimited := false |} ]).
  { split; [reflexivity|]. constructor; [|constructor].
    split; [reflexivity|]. cbn. lia. }
  assert (H3 : counter sample_fixed image_id = Some 0) by reflexivity.
  assert (H4 : fits [ {| NetCDF.size := 2; NetCDF.isunlimited := false |} ]
                 (Array [Scalar (SInt 1); Scalar (SInt 2)]))
    by (split; [reflexivity|repeat constructor]).
  assert (H5 : fits [ {| NetCDF.size := 2; NetCDF.isunlimited := false |} ]
                 (Array [Scalar (SInt 3); Scalar (SInt 4)]))
    by (split; [reflexivity|repeat constructor]).
  assert (H6 : Np.has_shape [3]
                 (Array [Scalar (SInt 1); Scalar (SInt 2); Scalar (SInt 3)]))
    by (split; [reflexivity|repeat constructor]).
  split; [exact H1|]. split; [exact H2|]. split; [exact H3|].
  split.
  - exact (proj1 (fixed_variable_counts_every_write sample_fixed image_id
                    sample_fixed_file image_id _ _ 0
                    (Array [Scalar (SInt 1); Scalar (SInt 2)])
                    (Array [Scalar (SInt 3); Scalar (SInt 4)]) (-1) (-1) H1 H2 H3)
             H4 H5).
  - refine (proj2 (fixed_variable_counts_every_write sample_fixed image_id
                     sample_fixed_file image_id _ _ 0
                     (Array [Scalar (SInt 1); Scalar (SInt 2); Scalar (SInt 3)])
                     (Scalar (SInt 0)) (-1) (-1) H1 H2 H3)
              _ _ eq_refl eq_refl H6 _ _).
    + cbn. lia.
    + cbn. lia.
Defined.

Lemma get_dset_open (h : Lv1io.heap) name ds path v :
  open_variable h name ds path v ->
  Lv1io.get_dset name h = (NetCDF.getall ds v, h).
Proof.
  intros [Hfid Hpres Hitem]. unfold Lv1io.get_dset. unfold bind at 1.
  fold (grp_name_of name) (var_name_of name). rewrite Hpres. cbn [negb].
  unfold bind, Lv1io.fid_getitem, Lv1io.fid_member, lift.
  rewrite Hfid, Hitem. cbn [fst snd]. now rewrite Hfid.
Qed.

Lemma place_at_end (v : NetCDF.NcVariable) (rows : list ndarray) :
  NetCDF.place v (List.length (NetCDF.data v)) rows = (NetCDF.data v ++ rows)%list.
Proof.
  unfold NetCDF.place. rewrite Nat.sub_diag. cbn [repeat].
  rewrite app_nil_r, firstn_all.
  rewrite skipn_all2 by lia. now rewrite app_nil_r.
Qed.

(** X5. Appending rows to a variable that is as long as its counter and
    its unlimited dimension say, and reading the variable back with
    [get_dset], gives the old entries followed by the new ones. *)
Theorem append_then_read
    (h : Lv1io.heap) (name : string) (ds : NetCDF.Dataset) (path : string)
    (v : NetCDF.NcVariable) (dname : string) (dim : NetCDF.Dimension)
    (rows : list ndarray) :
  open_variable h name ds path v ->
  unlimited_first ds v dname dim ->
  counter h name = Some (Z.of_nat (List.length (NetCDF.data v))) ->
  NetCDF.size dim = Z.of_nat (List.length (NetCDF.data v)) ->
  exists h',
    Lv1io.set_dset name (Array rows) (-1) h = (Ok tt, h')
    /\ Lv1io.get_dset name h' = (Ok (Array (NetCDF.data v ++ rows)), h').
Proof.
  intros Hopen Huf Hc Hsize.
  pose proof (set_dset_append h name ds path v dname dim _ (Array rows)
                Hopen Huf Hc) as Hrun.
  destruct (getitem_variable _ _ _ _ (ov_item _ _ _ _ _ Hopen)) as (Hv & _ & _).
  destruct Huf as [[rest Hdims] [drest Hget] Hunl].
  pose proof Hget as Hhead. rewrite Hdims in Hhead. apply get_dims_head in Hhead.
  unfold NetCDF.assign_from in Hrun. destruct rows as [|row rows].
  - eexists. split; [exact Hrun|].
    rewrite (get_dset_open _ name ds path v).
    + unfold NetCDF.getall. rewrite Hdims, Hhead, Hsize, Nat2Z.id.
      rewrite Nat.sub_diag. cbn [repeat]. now rewrite !app_nil_r, firstn_all.
    + apply open_variable_written with (ds := ds) (v := v); [exact Hopen|].
      split; [reflexivity|]. now rewrite set_get_same.
  - rewrite Nat2Z.id, place_at_end in Hrun.
    set (v' := NetCDF.with_data v (NetCDF.data v ++ row :: rows)) in *.
    set (dim' := {| NetCDF.size := Z.max _ _; NetCDF.isunlimited := _ |}) in *.
    set (ds' := NetCDF.with_dimension (NetCDF.with_variable ds path v') dname dim') in *.
    eexists. split; [exact Hrun|].
    rewrite (get_dset_open _ name ds' path v').
    + unfold NetCDF.getall. cbn [NetCDF.dims NetCDF.with_data v'].
      rewrite Hdims. unfold ds', NetCDF.with_dimension. cbn [NetCDF.dimensions].
      rewrite get_set_same. unfold dim'. cbn [NetCDF.size NetCDF.data NetCDF.fill_value].
      rewrite Hsize.
      replace (Z.to_nat (Z.max (Z.of_nat (List.length (NetCDF.data v)))
                           (Z.of_nat (List.length (NetCDF.data v))
                            + Z.of_nat (List.length (row :: rows)))))
        with (List.length (NetCDF.data v ++ row :: rows))
        by (rewrite length_app; lia).
      rewrite Nat.sub_diag. cbn [repeat]. now rewrite app_nil_r, firstn_all.
    + apply open_variable_written with (ds := ds) (v := v); [exact Hopen|].
      split; reflexivity.
Qed.

Lemma append_then_read_witness :
  open_variable Sample.created image_time Sample.l1a image_time
    (Sample.variable ["number_of_images"]
       [ ("year", NetCDF.AStr "2020"); ("month", NetCDF.AStr "5");
         ("day", NetCDF.AStr "15") ])
  /\ unlimited_first Sample.l1a
       (Sample.variable ["number_of_images"]
          [ ("year", NetCDF.AStr "2020"); ("month", NetCDF.AStr "5");
            ("day", NetCDF.AStr "15") ])
       "number_of_images" Sample.unlimited
  /\ counter Sample.created image_time = Some (Z.of_nat 0)
  /\ NetCDF.size Sample.unlimited = Z.of_nat 0
  /\ exists h',
       Lv1io.set_dset image_time (Array Sample.times) (-1) Sample.created
       = (Ok tt, h')
       /\ Lv1io.get_dset image_time h' = (Ok (Array ([] ++ Sample.times)), h').
Proof.
  assert (H1 := sample_open_image_time).
  assert (H2 := sample_unlimited_image_time).
  assert (H3 : counter Sample.created image_time = Some (Z.of_nat 0)) by reflexivity.
  assert (H4 : NetCDF.size Sample.unlimited = Z.of_nat 0) by reflexivity.
  split; [exact H1|]. split; [exact H2|]. split; [exact H3|]. split; [exact H4|].
  exact (append_then_read Sample.created image_time Sample.l1a image_time _
           "number_of_images" Sample.unlimited Sample.times H1 H2 H3 H4).
Defined.

(** ** Attributes *)





(** The test of [set_attr] on [/g/v]. *)
Lemma target_present_in_group (h : Lv1io.heap) ds g v :
  plain g = true -> plain v = true ->
  Lv1io.fid (fst h) = Some ds ->
  mem (NetCDF.groups ds) ("/" ++ g) = true ->
  Lv1io.target_present (grp_name_of (in_group g v)) (var_name_of (in_group g v)) h
  = (Ok (mem (NetCDF.groups ds) (in_group g v)
         || mem (NetCDF.variables ds) (in_group g v)), h).
Proof.
  intros Hg Hv Hfid Hmem.
  rewrite grp_name_in_group, var_name_in_group by assumption.
  unfold Lv1io.target_present, bind, Lv1io.fid_getitem, Lv1io.fid_member, ret.
  cbn [String.eqb Ascii.eqb negb String.append Bool.eqb].
  rewrite Hfid. change (String "/" g) with ("/" ++ g).
  rewrite getitem_group by assumption. cbn [fst snd]. rewrite Hfid.
  reflexivity.
Qed.

(** X7. [set_attr] attaches an attribute to a variable named by its
    path [/g/v], but [Lv1io.get_attr] looks for the whole path among the
    children of the root, where no name has a slash: for such a target
    it returns [None], also right after the attribute was set.  (A text
    with a character outside ASCII is not attached: [set_attr] raises
    [UnicodeEncodeError] and the attributes of the variable are as
    before.) *)
Theorem nested_attribute_not_read_back
    (h : Lv1io.heap) (ds : NetCDF.Dataset) (g v : string) (var : NetCDF.NcVariable)
    (name : string) (value : NetCDF.attr) :
  plain g = true -> plain v = true ->
  Lv1io.fid (fst h) = Some ds ->
  mem (NetCDF.groups ds) ("/" ++ g) = true ->
  mem (NetCDF.groups ds) (in_group g v) = false ->
  get (NetCDF.variables ds) (in_group g v) = Some var ->
  exists h' var',
    Lv1io.set_attr name value (Some (in_group g v)) h
    = (if Lv1io.encodable value then Ok tt
       else Raise (OtherError "UnicodeEncodeError"), h')
    /\ stored_data h' (in_group g v) = Some (NetCDF.data var)
    /\ option_map NetCDF.var_attrs
         (match Lv1io.fid (fst h') with
          | Some ds' => get (NetCDF.variables ds') (in_group g v)
          | None => None
          end) = Some (NetCDF.var_attrs var')
    /\ get (NetCDF.var_attrs var') name
       = (if Lv1io.encodable value then Some (Lv1io.stored_attr value)
          else get (NetCDF.var_attrs var) name)
    /\ Lv1io.get_attr name (Some (in_group g v)) h' = (Ok None, h').
Proof.
  intros Hg Hv Hfid Hgrp Hnot Hvar. destruct h as [self p]. cbn [fst] in Hfid.
  pose proof (target_present_in_group (self, p) ds g v Hg Hv Hfid Hgrp) as Hp.
  unfold mem at 2 in Hp. rewrite Hvar, orb_true_r in Hp.
  destruct (Lv1io.encodable value) eqn:Henc.
  - do 2 eexists. split; [|split; [|split; [|split]]].
    + unfold Lv1io.set_attr. unfold bind at 1.
      fold (grp_name_of (in_group g v)) (var_name_of (in_group g v)).
      rewrite Hp, Henc. cbn [negb].
      unfold Lv1io.setncattr_at, bind, Lv1io.fid_getitem, Lv1io.fid_member, Lv1io.put_fid.
      cbn [fst snd]. rewrite Hfid.
      rewrite (getitem_in_group ds g v var) by assumption.
      cbn [fst snd]. rewrite Hfid. reflexivity.
    + unfold stored_data. cbn [fst Lv1io.fid Lv1io.with_fid NetCDF.variables
                               NetCDF.with_variable].
      now rewrite get_set_same.
    + cbn [fst Lv1io.fid Lv1io.with_fid NetCDF.variables NetCDF.with_variable].
      rewrite get_set_same. reflexivity.
    + cbn [NetCDF.var_attrs]. apply get_set_same.
    + unfold Lv1io.get_attr, bind, Lv1io.fid_member, ret.
      cbn [fst snd Lv1io.fid Lv1io.with_fid]. reflexivity.
  - exists (self, p), var. split; [|split; [|split; [|split]]].
    + unfold Lv1io.set_attr. unfold bind at 1.
      fold (grp_name_of (in_group g v)) (var_name_of (in_group g v)).
      rewrite Hp, Henc. cbn [negb].
      unfold bind, Lv1io.fid_getitem, Lv1io.fid_member, raise.
      cbn [fst snd]. rewrite Hfid.
      rewrite (getitem_in_group ds g v var) by assumption.
      reflexivity.
    + unfold stored_data. cbn [fst]. now rewrite Hfid, Hvar.
    + cbn [fst]. now rewrite Hfid, Hvar.
    + reflexivity.
    + unfold Lv1io.get_attr, bind, Lv1io.fid_member, ret.
      cbn [fst snd]. rewrite Hfid.
      unfold in_group. reflexivity.
Qed.

Lemma nested_attribute_not_read_back_witness :
  plain "image_attributes" = true /\ plain "image_time" = true
  /\ Lv1io.fid (fst Sample.created) = Some Sample.l1a
  /\ mem (NetCDF.groups Sample.l1a) "/image_attributes" = true
  /\ mem (NetCDF.groups Sample.l1a) image_time = false
  /\ exists h',
       Lv1io.set_attr "units" (NetCDF.AStr "s") (Some image_time) Sample.created
       = (Ok tt, h')
       /\ Lv1io.get_attr "units" (Some image_time) h' = (Ok None, h').
Proof.
  assert (H1 : plain "image_attributes" = true) by reflexivity.
  assert (H2 : plain "image_time" = true) by reflexivity.
  assert (H3 : Lv1io.fid (fst Sample.created) = Some Sample.l1a) by reflexivity.
  assert (H4 : mem (NetCDF.groups Sample.l1a) ("/" ++ "image_attributes") = true)
    by reflexivity.
  assert (H5 : mem (NetCDF.groups Sample.l1a)
                 (in_group "image_attributes" "image_time") = false) by reflexivity.
  split; [exact H1|]. split; [exact H2|]. split; [exact H3|].
  split; [exact H4|]. split; [exact H5|].
  destruct (nested_attribute_not_read_back Sample.created Sample.l1a
              "image_attributes" "image_time" _ "units" (NetCDF.AStr "s")
              H1 H2 H3 H4 H5 eq_refl)
    as (h' & var' & Hset & _ & _ & _ & Hget).
  exists h'. split; [exact Hset | exact Hget].
Defined.

(** ** Opening a product to append *)

Lemma load_stored_ok (h h' : Lv1io.heap) ds key :
  Lv1io.fid (fst h) = Some ds ->
  Lv1io.load_stored key h = (Ok tt, h') ->
  exists path v n,
    NetCDF.getitem ds key = Ok (NetCDF.NVariable path v)
    /\ NetCDF.shape0 ds v = Ok n
    /\ h' = (fst h,
             Lv1io.with_dset_stored (Lv1io.processing_level (fst h)) (snd h)
               (set (Lv1io.dset_stored (Lv1io.processing_level (fst h)) (snd h))
                  key n)).
Proof.
  intros Hfid. destruct h as [self p]. cbn [fst snd] in *.
  unfold Lv1io.load_stored, bind, Lv1io.fid_getitem, Lv1io.fid_member, lift, raise.
  cbn [fst snd]. rewrite Hfid.
  destruct (NetCDF.getitem ds key) as [[path|path v]|e]; cbn [fst snd];
    rewrite ?Hfid; try discriminate.
  destruct (NetCDF.shape0 ds v) as [n|e] eqn:Hshape; [|discriminate].
  unfold Lv1io.stored_setitem. cbn [fst snd]. intros [= <-].
  exists path, v, n. auto.
Qed.

Lemma load_all_ok (ds : NetCDF.Dataset) (l : list string) :
  forall h h',
    Lv1io.fid (fst h) = Some ds ->
    Forall (fun key => counter h key <> None) l ->
    for_each l Lv1io.load_stored h = (Ok tt, h') ->
    fst h' = fst h
    /\ (forall lv, keys (Lv1io.dset_stored lv (snd h'))
                   = keys (Lv1io.dset_stored lv (snd h)))
    /\ (forall key, ~ In key l -> counter h' key = counter h key)
    /\ (forall key, In key l ->
        exists path v n,
          NetCDF.getitem ds key = Ok (NetCDF.NVariable path v)
          /\ NetCDF.shape0 ds v = Ok n
          /\ counter h' key = Some n).
Proof.
  induction l as [|key0 l IH]; intros h h' Hfid Hall; cbn [for_each].
  - intros [= <-]. repeat split; auto. intros key [].
  - intros Hrun. apply bind_ok in Hrun as ([] & h1 & Hstep & Hrest).
    inversion Hall as [|? ? Hkey0 Hl]; subst.
    destruct (load_stored_ok h h1 ds key0 Hfid Hstep)
      as (path0 & v0 & n0 & Hitem0 & Hshape0 & ->).
    set (h1 := (fst h, _)) in *.
    assert (Hc1 : forall key, key <> key0 -> counter h1 key = counter h key).
    { intros key Hne. unfold counter, h1. cbn [fst snd].
      rewrite dset_stored_with. now apply get_set_other. }
    assert (Hc0 : counter h1 key0 = Some n0).
    { unfold counter, h1. cbn [fst snd]. rewrite dset_stored_with.
      apply get_set_same. }
    assert (Hk1 : forall lv, keys (Lv1io.dset_stored lv (snd h1))
                             = keys (Lv1io.dset_stored lv (snd h))).
    { intros lv. unfold h1. cbn [snd].
      assert (Hk : keys (set (Lv1io.dset_stored (Lv1io.processing_level (fst h))
                                (snd h)) key0 n0)
                   = keys (Lv1io.dset_stored (Lv1io.processing_level (fst h)) (snd h))).
      { apply keys_set. unfold mem. unfold counter in Hkey0.
        now destruct (get _ key0). }
      destruct (Lv1io.processing_level (fst h)), lv; cbn in *; auto. }
    destruct (IH h1 h' Hfid) as (Hfst & Hkeys & Hout & Hin); [|exact Hrest|].
    { rewrite Forall_forall in *. intros key Hkey.
      destruct (string_dec key key0) as [->|Hne]; [now rewrite Hc0|].
      rewrite Hc1 by exact Hne. auto. }
    split; [exact Hfst|]. split; [intros lv; now rewrite Hkeys|]. split.
    + intros key Hnot. rewrite Hout by (intros Hi; apply Hnot; now right).
      apply Hc1. intros ->. apply Hnot. now left.
    + intros key [<-|Hkey]; [|now apply Hin].
      destruct (in_dec string_dec key0 l) as [Hi|Hni]; [now apply Hin|].
      exists path0, v0, n0. rewrite Hout by exact Hni. auto.
Qed.

(** X8. When opening a product with [append=True] succeeds, the product
    holds a file, the one that was closed under its name if there is
    one; the table of the class has the keys it had, and every counter
    is the present length of the first dimension of its variable in
    that file, whatever the counters were before. *)
Theorem append_init_loads_counters
    (init_l1 : level -> string -> Datetime.datetime -> dict (option Z)
               -> NetCDF.Dataset)
    (cls : level) (product : string) (ref_date : Datetime.datetime)
    (dims : dict (option Z)) (p : Lv1io.process)
    (self : Lv1io.t) (p' : Lv1io.process) :
  Lv1io.init init_l1 cls product ref_date dims true p = (Ok self, p') ->
  exists ds,
    Lv1io.fid self = Some ds
    /\ (forall closed, get (Lv1io.disk p) product = Some closed -> ds = closed)
    /\ Lv1io.processing_level self = cls
    /\ keys (Lv1io.dset_stored cls p') = keys (Lv1io.dset_stored cls p)
    /\ forall key,
         In key (keys (Lv1io.dset_stored cls p)) ->
         exists path v n,
           NetCDF.getitem ds key = Ok (NetCDF.NVariable path v)
           /\ NetCDF.shape0 ds v = Ok n
           /\ counter (self, p') key = Some n.
Proof.
  unfold Lv1io.init. cbn [negb].
  set (ds := Lv1io.open_to_append p product).
  set (self0 := Lv1io.with_fid _ (Some ds)).
  destruct (for_each _ Lv1io.load_stored (self0, p)) as [[[]|e] [self1 p1]] eqn:Hrun;
    [|discriminate].
  intros [= <- <-].
  destruct (load_all_ok ds (keys (Lv1io.dset_stored cls p)) (self0, p) (self1, p1) eq_refl)
    as (Hfst & Hkeys & _ & Hin).
  - rewrite Forall_forall. intros key Hkey. unfold counter. cbn [fst snd].
    apply get_in_keys in Hkey as [n Hn]. cbn [Lv1io.processing_level self0 Lv1io.with_fid].
    now rewrite Hn.
  - exact Hrun.
  - cbn [fst] in Hfst. subst self1. exists ds.
    split; [reflexivity|]. split.
    + intros closed Hclosed. unfold ds, Lv1io.open_to_append. now rewrite Hclosed.
    + split; [reflexivity|]. split; [apply Hkeys|]. exact Hin.
Qed.

(** A process in which the file of the sample product, three images
    long, is on disk, and the counters are those a previous product left:
    2 for the images. *)
Definition sample_reopen : Lv1io.process :=
  {| Lv1io.Lv1io_dset_stored := [];
     Lv1io.L1Aio_dset_stored := Lv1io.L1Aio_dset_stored (snd sample_written);
     Lv1io.L1Bio_dset_stored := L1Bio.dset_stored;
     Lv1io.L1Cio_dset_stored := L1Cio.dset_stored;
     Lv1io.stdout := [];
     Lv1io.disk := [("SPX1_L1A_sample.nc", sample_written_file)] |}.

Definition sample_reopened : Lv1io.t * Lv1io.process :=
  Eval vm_compute in
    match Lv1io.init sample_init_l1 L1A "SPX1_L1A_sample.nc" Sample.ref_date
            sample_dims true sample_reopen with
    | (Ok self, p') => (self, p')
    | (Raise _, p') => (fst Sample.created, p')
    end.

Lemma append_init_loads_counters_witness :
  Lv1io.init sample_init_l1 L1A "SPX1_L1A_sample.nc" Sample.ref_date
    sample_dims true sample_reopen
  = (Ok (fst sample_reopened), snd sample_reopened)
  /\ counter (fst sample_reopened, sample_reopen)
       "/science_data/detector_images" = Some 2
  /\ exists path v n,
       NetCDF.getitem sample_written_file "/science_data/detector_images"
       = Ok (NetCDF.NVariable path v)
       /\ NetCDF.shape0 sample_written_file v = Ok n
       /\ counter sample_reopened "/science_data/detector_images" = Some n.
Proof.
  assert (H : Lv1io.init sample_init_l1 L1A "SPX1_L1A_sample.nc" Sample.ref_date
                sample_dims true sample_reopen
              = (Ok (fst sample_reopened), snd sample_reopened)) by reflexivity.
  split; [exact H|]. split; [reflexivity|].
  destruct (append_init_loads_counters sample_init_l1 L1A
              "SPX1_L1A_sample.nc" Sample.ref_date sample_dims sample_reopen
              _ _ H) as (ds & _ & Hds & _ & _ & Hall).
  rewrite <- (Hds sample_written_file eq_refl).
  apply Hall. cbn. tauto.
Defined.

(** ** A name that is not a file *)

Section MissingFile.

Variable packet : Type.
Variable is_file : string -> bool.

(** With a reader that returns for every file, [visit] gives what
    [read_files] gives. *)
Lemma visit_read_files (read : string -> list packet) (names : list string) :
  forall packet_list out,
    fst (Ccsds2l1a.visit packet is_file (fun flname => Ok (read flname))
           names packet_list out)
    = Ccsds2l1a.read_files packet is_file read names packet_list.
Proof.
  induction names as [|name names IH]; intros packet_list out; [reflexivity|].
  cbn [Ccsds2l1a.visit Ccsds2l1a.read_files].
  destruct (is_file name); cbn [negb]; [|reflexivity].
  destruct (String.eqb _ ".H").
  - unfold bind, Ccsds2l1a.print. apply IH.
  - unfold bind, lift. apply IH.
Qed.

Variable read : string -> result (list packet).

(** The reader raised [e] on a file of [names]. *)
Definition reader_raised (names : list string) (e : exception) : Prop :=
  exists name, In name names /\ is_file name = true /\ read name = Raise e.

Lemma visit_raises (names : list string) :
  forall packet_list out e out',
    Ccsds2l1a.visit packet is_file read names packet_list out = (Raise e, out') ->
    (e = FileNotFoundError /\ exists name, In name names /\ is_file name = false)
    \/ reader_raised names e.
Proof.
  induction names as [|name names IH]; intros packet_list out e out';
    cbn [Ccsds2l1a.visit]; [discriminate|].
  destruct (is_file name) eqn:Hname; cbn [negb].
  - assert (Hrest : forall pl o,
               Ccsds2l1a.visit packet is_file read names pl o = (Raise e, out') ->
               (e = FileNotFoundError
                /\ exists n, In n (name :: names) /\ is_file n = false)
               \/ reader_raised (name :: names) e).
    { intros pl o Hrun. destruct (IH pl o e out' Hrun) as [[He (n & Hn & Hf)]|(n & Hn & Hf)].
      - left. split; [exact He|]. exists n. split; [now right|exact Hf].
      - right. exists n. split; [now right|exact Hf]. }
    destruct (String.eqb _ ".H").
    + unfold bind, Ccsds2l1a.print. apply Hrest.
    + unfold bind, lift. destruct (read name) as [packets|e0] eqn:Hread.
      * apply Hrest.
      * intros [= <- <-]. right. exists name. split; [now left|]. now split.
  - intros [= <- <-]. left. split; [reflexivity|].
    exists name. split; [now left|exact Hname].
Qed.

Lemma visit_missing (names : list string) (flname : string) :
  In flname names ->
  is_file flname = false ->
  forall packet_list out,
    exists e out',
      Ccsds2l1a.visit packet is_file read names packet_list out = (Raise e, out').
Proof.
  intros Hin Hmiss.
  induction names as [|name names IH]; intros packet_list out; [easy|].
  cbn [Ccsds2l1a.visit].
  destruct (is_file name) eqn:Hname; cbn [negb]; [|unfold raise; eauto].
  destruct Hin as [->|Hin]; [congruence|].
  destruct (String.eqb _ ".H").
  - unfold bind, Ccsds2l1a.print. now apply IH.
  - unfold bind, lift. destruct (read name) as [packets|e0]; [now apply IH|eauto].
Qed.

(** X9. The loop of [main] tests every name before it looks at the
    suffix: with one name in the list that is not a file, wherever it
    stands in the list and even if it is a header file ([.H]) that would
    be passed over, the run returns no packets: it ends with
    [FileNotFoundError], unless reading a file that comes before in the
    sorted order raised first.  A run of the loop that ends with an
    exception either met a name that is not a file, and ends with
    [FileNotFoundError], or ends with the exception that the reader
    raised on a file of the list. *)
Theorem missing_file_stops_run
    (file_list : list string) (flname : string) (out : list string) :
  In flname file_list ->
  is_file flname = false ->
  (exists e out',
      Ccsds2l1a.run packet is_file read file_list out = (Raise e, out')
      /\ (e = FileNotFoundError \/ reader_raised file_list e))
  /\ ((forall name, In name file_list -> is_file name = true ->
                    exists packets, read name = Ok packets) ->
      exists out',
        Ccsds2l1a.run packet is_file read file_list out
        = (Raise FileNotFoundError, out'))
  /\ (forall names e out',
         Ccsds2l1a.run packet is_file read names out = (Raise e, out') ->
         (e = FileNotFoundError /\ exists name, In name names /\ is_file name = false)
         \/ reader_raised names e).
Proof.
  intros Hin Hmiss.
  assert (Hconv : forall names e out',
             Ccsds2l1a.run packet is_file read names out = (Raise e, out') ->
             (e = FileNotFoundError
              /\ exists name, In name names /\ is_file name = false)
             \/ reader_raised names e).
  { intros names e out' Hrun. unfold Ccsds2l1a.run in Hrun.
    destruct (visit_raises _ _ _ _ _ Hrun) as [[He (n & Hn & Hf)]|(n & Hn & Hf)].
    - left. split; [exact He|]. exists n. split; [|exact Hf].
      now apply (Permutation_in n (sorted_perm names)).
    - right. exists n. split; [|exact Hf].
      now apply (Permutation_in n (sorted_perm names)). }
  assert (Hrun : exists e out',
             Ccsds2l1a.run packet is_file read file_list out = (Raise e, out')).
  { apply visit_missing with (flname := flname); [|exact Hmiss].
    apply (Permutation_in flname (Permutation_sym (sorted_perm file_list)) Hin). }
  destruct Hrun as (e & out' & Hrun).
  split; [|split].
  - exists e, out'. split; [exact Hrun|].
    destruct (Hconv _ _ _ Hrun) as [[He _]|Hr]; [now left|now right].
  - intros Hreads. exists out'. rewrite Hrun.
    destruct (Hconv _ _ _ Hrun) as [[-> _]|(n & Hn & Hf & Hr)]; [reflexivity|].
    destruct (Hreads n Hn Hf) as [packets Hok]. congruence.
  - exact Hconv.
Qed.

End MissingFile.

(** The files on disk are the two packet files; the header file named
    last is not there. *)
Definition sample_is_file (flname : string) : bool :=
  String.eqb flname "a_run.bin" || String.eqb flname "b_run.bin".

(** A reader that fails on the second packet file. *)
Definition sample_read_or_raise (flname : string) : result (list nat) :=
  if String.eqb flname "b_run.bin" then Raise ValueError
  else Ok (sample_read flname).

Lemma missing_file_stops_run_witness :
  In "c_run.H" ["b_run.bin"; "a_run.bin"; "c_run.H"]
  /\ sample_is_file "c_run.H" = false
  /\ (exists out',
        Ccsds2l1a.run nat sample_is_file (fun flname => Ok (sample_read flname))
          ["b_run.bin"; "a_run.bin"; "c_run.H"] []
        = (Raise FileNotFoundError, out'))
  /\ Ccsds2l1a.run nat sample_is_file sample_read_or_raise
       ["b_run.bin"; "a_run.bin"; "c_run.H"] []
     = (Raise ValueError, [])
  /\ Ccsds2l1a.run nat (fun _ => true) (fun flname => Ok (sample_read flname))
       ["b_run.bin"; "a_run.bin"; "c_run.H"] []
     = (Ok [11; 21; 22]%nat, ["[INFO]: skip CCSDS header file"]).
Proof.
  assert (H1 : In "c_run.H" ["b_run.bin"; "a_run.bin"; "c_run.H"])
    by (right; right; left; reflexivity).
  assert (H2 : sample_is_file "c_run.H" = false) by reflexivity.
  split; [exact H1|]. split; [exact H2|]. split; [|split; reflexivity].
  apply (proj1 (proj2 (missing_file_stops_run nat sample_is_file
                         (fun flname => Ok (sample_read flname))
                         ["b_run.bin"; "a_run.bin"; "c_run.H"] "c_run.H" [] H1 H2))).
  intros name _ _. eexists. reflexivity.
Defined.

(** ** The names in the warnings of a Level-1B product *)

Lemma counter_printed (h : Lv1io.heap) (lines : list string) (key : string) :
  counter (printed h lines) key = counter h key.
Proof.
  unfold counter, printed. cbn [fst snd].
  now destruct (Lv1io.processing_level (fst h)).
Qed.

Lemma fst_printed (h : Lv1io.heap) (lines : list string) :
  fst (printed h lines) = fst h.
Proof. reflexivity. Qed.

Lemma dset_stored_printed lv (h : Lv1io.heap) (lines : list string) :
  Lv1io.dset_stored lv (snd (printed h lines)) = Lv1io.dset_stored lv (snd h).
Proof. now destruct lv. Qed.

Lemma lookup_printed (h : Lv1io.heap) (lines : list string) (key : string) :
  lookup (printed h lines) key = lookup h key.
Proof. unfold lookup. now rewrite counter_printed. Qed.

(** The lines of [report]: the position [ii] of [res] is printed under
    the name at the position [ii] of [key_list]. *)
Definition labelled (lv : string) (wrong : Z -> bool) (key_list : list string)
    (res : list Z) : list string :=
  map (fun p => Check.warn_str lv (fst p) (snd p))
    (filter (fun p => wrong (snd p)) (combine key_list res)).

Lemma report_labelled lv (wrong : Z -> bool) (res : list Z) :
  forall (key_list pre_k : list string) (pre_r : list Z) (h : Lv1io.heap),
    List.length pre_k = List.length pre_r ->
    (List.length res <= List.length key_list)%nat ->
    Check.report lv (pre_k ++ key_list) (pre_r ++ res)
      (Check.nonzero (map wrong res) (List.length pre_r)) h
    = (Ok tt, printed h (labelled lv wrong key_list res)).
Proof.
  unfold labelled.
  induction res as [|n res IH]; intros key_list pre_k pre_r h Hpre Hlen.
  - rewrite combine_nil. cbn. now rewrite printed_nil.
  - destruct key_list as [|key key_list]; [cbn in Hlen; lia|].
    cbn [List.length] in Hlen.
    cbn [map Check.nonzero combine filter fst snd]. unfold Check.report in *.
    rewrite for_each_app. unfold bind at 1.
    replace (pre_k ++ key :: key_list)%list with ((pre_k ++ [key]) ++ key_list)%list
      by now rewrite <- app_assoc.
    replace (pre_r ++ n :: res)%list with ((pre_r ++ [n]) ++ res)%list
      by now rewrite <- app_assoc.
    replace (S (List.length pre_r)) with (List.length (pre_r ++ [n])%list)
      by (rewrite length_app; cbn; lia).
    assert (Hpre' : List.length (pre_k ++ [key]) = List.length (pre_r ++ [n]))
      by (rewrite !length_app; cbn; lia).
    destruct (wrong n) eqn:Ew.
    + cbn [for_each].
      assert (Hk : nth_error ((pre_k ++ [key]) ++ key_list)%list (List.length pre_r)
                   = Some key).
      { rewrite <- app_assoc, <- Hpre. rewrite nth_error_app2 by lia.
        now rewrite Nat.sub_diag. }
      assert (Hn : nth_error ((pre_r ++ [n]) ++ res)%list (List.length pre_r)
                   = Some n).
      { rewrite <- app_assoc. rewrite nth_error_app2 by lia.
        now rewrite Nat.sub_diag. }
      rewrite Hk, Hn. unfold bind, ret.
      rewrite print_printed, IH by (assumption || lia).
      cbn [map fst snd]. now rewrite printed_app.
    + cbn [for_each]. unfold ret. rewrite IH by (assumption || lia). reflexivity.
Qed.

(** A block of [check_stored], whatever it passes over. *)
Lemma block_labelled lv dim_name select skip wrong (h : Lv1io.heap) ds dim :
  Lv1io.fid (fst h) = Some ds ->
  get (NetCDF.dimensions ds) dim_name = Some dim ->
  Check.block lv dim_name select skip wrong h
  = (Ok tt,
     printed h
       (labelled lv (wrong (NetCDF.size dim))
          (filter select
             (keys (Lv1io.dset_stored (Lv1io.processing_level (fst h)) (snd h))))
          (map (lookup h)
             (filter (fun key => negb (skip key))
                (filter select
                   (keys (Lv1io.dset_stored (Lv1io.processing_level (fst h))
                            (snd h)))))))).
Proof.
  intros Hfid Hdim.
  unfold Check.block, Lv1io.get_dim. unfold bind at 1. unfold bind at 1.
  unfold Lv1io.fid_member. rewrite Hfid, Hdim. unfold ret at 1.
  unfold bind at 1. unfold get_state. cbv beta.
  unfold bind at 1. rewrite stored_values_keys.
  - set (key_list := filter select _).
    assert (Hlen : (List.length (map (lookup h)
                                   (filter (fun key => negb (skip key)) key_list))
                    <= List.length key_list)%nat)
      by (rewrite length_map; apply filter_length_le).
    exact (report_labelled lv (wrong (NetCDF.size dim)) _ _ [] [] h eq_refl Hlen).
  - rewrite Forall_forall. intros key Hin. apply filter_In in Hin as [Hin _].
    apply filter_In in Hin as [Hin _].
    apply get_in_keys in Hin as [n Hn]. unfold counter. now rewrite Hn.
Qed.

(** The lines of the closing loop
    [for ii, key in enumerate(self.dset_stored): print(ii, key, ...)]. *)
Fixpoint dump_lines (h : Lv1io.heap) (key_list : list string) (ii : Z) : list string :=
  match key_list with
  | [] => []
  | key :: rest =>
      (Datetime.string_of_Z ii ++ " " ++ key ++ " "
       ++ Datetime.string_of_Z (lookup h key))
      :: dump_lines h rest (ii + 1)
  end.

Lemma dump_lines_printed h lines key_list :
  forall ii, dump_lines (printed h lines) key_list ii = dump_lines h key_list ii.
Proof.
  induction key_list as [|key rest IH]; intros ii; cbn [dump_lines]; [reflexivity|].
  now rewrite lookup_printed, IH.
Qed.

Lemma dump_printed (key_list : list string) :
  forall (h : Lv1io.heap) (ii : Z),
    Forall (fun key => counter h key <> None) key_list ->
    Check.dump key_list ii h = (Ok tt, printed h (dump_lines h key_list ii)).
Proof.
  induction key_list as [|key rest IH]; intros h ii Hall; cbn [Check.dump dump_lines].
  - unfold ret. now rewrite printed_nil.
  - inversion Hall as [|? ? Hkey Hrest]; subst.
    unfold bind at 1. unfold Lv1io.stored_getitem, lookup.
    unfold counter in Hkey |- *.
    destruct (get _ key) as [n|] eqn:Hn; [|contradiction].
    unfold bind at 1. rewrite print_printed. cbn [fst snd].
    rewrite IH.
    + rewrite printed_app, dump_lines_printed. reflexivity.
    + rewrite Forall_forall in *. intros k Hk. rewrite counter_printed. auto.
Qed.

(** The keys of the group [/SENSOR_VIEWS_BANDS] in the table of [L1Bio],
    in the order of the table. *)
Definition views_keys : list string :=
  Eval vm_compute in
    filter (fun x => Check.startswith x "/SENSOR_VIEWS_BANDS") (keys L1Bio.dset_stored).

(** The keys of the other groups. *)
Definition bins_keys : list string :=
  Eval vm_compute in
    filter (fun x => negb (Check.startswith x "/SENSOR_VIEWS_BANDS"))
      (keys L1Bio.dset_stored).

(** X10. [L1Bio.check_stored] gathers the counters of the group
    [/SENSOR_VIEWS_BANDS] without that of [viewport_index], the first key
    of the group, but takes the name of a warning from the full list of
    keys at the same position: the counter of each key of the group is
    tested, and reported, under the name of the key before it. A wrong
    number of [intensity_wavelengths] is reported as a wrong size of
    [viewport_index]. The second block and the closing listing name the
    keys as they are. *)
Theorem L1B_check_stored_names_previous_key (h : Lv1io.heap) ds nv nb :
  Lv1io.processing_level (fst h) = L1B ->
  Lv1io.fid (fst h) = Some ds ->
  keys (Lv1io.L1Bio_dset_stored (snd h)) = keys L1Bio.dset_stored ->
  get (NetCDF.dimensions ds) "number_of_views" = Some nv ->
  get (NetCDF.dimensions ds) "bins_along_track" = Some nb ->
  L1Bio.check_stored h
  = (Ok tt,
     printed h
       (labelled "1B" (Check.wrong_any (NetCDF.size nv))
          views_keys (map (lookup h) (tl views_keys))
        ++ warnings "1B" h (Check.wrong_any (NetCDF.size nb)) bins_keys
        ++ dump_lines h (keys L1Bio.dset_stored) 0))
  /\ (lookup h "/SENSOR_VIEWS_BANDS/intensity_wavelengths" <> NetCDF.size nv ->
      In (Check.warn_str "1B" "/SENSOR_VIEWS_BANDS/viewport_index"
            (lookup h "/SENSOR_VIEWS_BANDS/intensity_wavelengths"))
         (labelled "1B" (Check.wrong_any (NetCDF.size nv))
            views_keys (map (lookup h) (tl views_keys)))).
Proof.
  intros Hlv Hfid Hkeys Hnv Hnb. split.
  - assert (Hviews : filter (fun x => Check.startswith x "/SENSOR_VIEWS_BANDS")
                       (keys L1Bio.dset_stored) = views_keys) by reflexivity.
    assert (Htl : filter
                    (fun key =>
                       negb (String.eqb key "/SENSOR_VIEWS_BANDS/viewport_index"))
                    views_keys = tl views_keys) by reflexivity.
    assert (Hbins : filter (fun x => negb (Check.startswith x "/SENSOR_VIEWS_BANDS"))
                      (keys L1Bio.dset_stored) = bins_keys) by reflexivity.
    assert (Htable : forall lines,
               keys (Lv1io.dset_stored (Lv1io.processing_level (fst (printed h lines)))
                       (snd (printed h lines)))
               = keys L1Bio.dset_stored).
    { intros lines. rewrite fst_printed, dset_stored_printed, Hlv. exact Hkeys. }
    unfold L1Bio.check_stored, Check.check_stored_binned.
    unfold bind at 1.
    rewrite (block_labelled _ _ _ _ _ h ds nv Hfid Hnv).
    assert (Htable0 : keys (Lv1io.dset_stored (Lv1io.processing_level (fst h)) (snd h))
                      = keys L1Bio.dset_stored) by (rewrite Hlv; exact Hkeys).
    rewrite Htable0, Hviews, Htl.
    set (first := labelled "1B" (Check.wrong_any (NetCDF.size nv)) views_keys
                    (map (lookup h) (tl views_keys))).
    unfold bind at 1.
    rewrite (block_warnings _ _ _ _ (printed h first) ds nb Hfid Hnb).
    rewrite (Htable first), Hbins, printed_app.
    set (second := warnings "1B" (printed h first)
                     (Check.wrong_any (NetCDF.size nb)) bins_keys).
    unfold bind at 1. unfold get_state. cbv beta.
    rewrite (Htable (first ++ second)%list), dump_printed.
    + rewrite dump_lines_printed, printed_app, <- app_assoc.
      unfold second, warnings.
      assert (Hl : forall key, lookup (printed h first) key = lookup h key)
        by (intros; apply lookup_printed).
      rewrite (map_ext _ _ (fun key => f_equal (Check.warn_str "1B" key) (Hl key))).
      rewrite (filter_ext _ (fun key => Check.wrong_any (NetCDF.size nb) (lookup h key))).
      * reflexivity.
      * intros key. now rewrite Hl.
    + rewrite Forall_forall. intros key Hin. rewrite counter_printed.
      unfold counter. rewrite Hlv. cbn [Lv1io.dset_stored].
      rewrite <- Hkeys in Hin. apply get_in_keys in Hin as [n Hn]. now rewrite Hn.
  - intros Hwrong. unfold labelled, views_keys.
    cbn [tl map combine filter snd fst].
    assert (E : Check.wrong_any (NetCDF.size nv)
                  (lookup h "/SENSOR_VIEWS_BANDS/intensity_wavelengths") = true).
    { unfold Check.wrong_any. apply Z.eqb_neq in Hwrong. now rewrite Hwrong. }
    rewrite E. cbn [map fst snd]. now left.
Qed.

Lemma L1B_check_stored_names_previous_key_witness :
  Lv1io.processing_level (fst (SampleB.written 0 0)) = L1B
  /\ Lv1io.fid (fst (SampleB.written 0 0)) = Some (SampleB.file 0 0)
  /\ lookup (SampleB.written 0 0) "/SENSOR_VIEWS_BANDS/intensity_wavelengths" <> 5
  /\ In (Check.warn_str "1B" "/SENSOR_VIEWS_BANDS/viewport_index" 0)
        (labelled "1B" (Check.wrong_any 5) views_keys
           (map (lookup (SampleB.written 0 0)) (tl views_keys))).
Proof.
  assert (H1 : Lv1io.processing_level (fst (SampleB.written 0 0)) = L1B)
    by reflexivity.
  assert (H2 : Lv1io.fid (fst (SampleB.written 0 0)) = Some (SampleB.file 0 0))
    by reflexivity.
  assert (H3 : lookup (SampleB.written 0 0)
                 "/SENSOR_VIEWS_BANDS/intensity_wavelengths" <> 5)
    by (vm_compute; discriminate).
  split; [exact H1|]. split; [exact H2|]. split; [exact H3|].
  exact (proj2 (L1B_check_stored_names_previous_key (SampleB.written 0 0)
                  (SampleB.file 0 0)
                  {| NetCDF.size := 5; NetCDF.isunlimited := false |}
                  {| NetCDF.size := 2; NetCDF.isunlimited := true |}
                  H1 H2 eq_refl eq_refl eq_refl) H3).
Defined.

(** ** The counters after a batch of housekeeping records *)

Lemma set_dset_returns (h h' : Lv1io.heap) name value ibgn :
  Lv1io.set_dset name value ibgn h = (Ok tt, h') ->
  (exists c, counter h name = Some c /\ counter h' name = Some (c + rows_of value))
  /\ (forall key, key <> name -> counter h' key = counter h key)
  /\ Lv1io.stdout (snd h') = Lv1io.stdout (snd h)
  /\ Lv1io.disk (snd h') = Lv1io.disk (snd h).
Proof.
  unfold Lv1io.set_dset. fold (grp_name_of name) (var_name_of name). intros Hrun.
  apply bind_ok in Hrun as (present & h0 & Hpresent & Hrun).
  pose proof (variable_present_state (grp_name_of name) (var_name_of name) h) as Hst.
  rewrite Hpresent in Hst. cbn [snd] in Hst. subst h0.
  destruct present; [|discriminate]. cbn [negb] in Hrun.
  apply bind_ok in Hrun as ([] & h1 & Hstore & Hrun).
  destruct (store_process name value ibgn h) as [Hp Hlv].
  rewrite Hstore in Hp, Hlv. cbn [fst snd] in Hp, Hlv.
  assert (Hcnt : forall key, counter h1 key = counter h key)
    by (intros key; unfold counter; now rewrite Hlv, Hp).
  destruct (stored_update h1 name (rows_of value))
    as [(c & r2 & h2 & Hrun' & Hc & Hr & _ & Hc2 & Hother & _ & Hout & Hdisk)
       | [_ Hrun']];
    rewrite Hrun' in Hrun; [|discriminate].
  injection Hrun as _ <-. rewrite <- Hp.
  split; [exists c; rewrite <- Hcnt; auto|].
  split; [|now split].
  intros key Hne. rewrite Hother by exact Hne. apply Hcnt.
Qed.

Lemma rows_of_temperature (readings : list Z) (fallback : Z) :
  rows_of (L1Aio.temperature readings fallback) = Z.of_nat (List.length readings).
Proof.
  unfold L1Aio.temperature, L1Aio.full, L1Aio.float_array, frac_poly.
  destruct (L1Aio.all_zero readings); cbn [rows_of].
  - now rewrite repeat_length.
  - now rewrite !length_map.
Qed.

(** The variables that [fill_nomhk] writes. *)
Definition nomhk_names : list string :=
  [ "/engineering_data/NomHK_telemetry"; "/engineering_data/temp_detector";
    "/engineering_data/temp_housing"; "/engineering_data/temp_radiator" ].

(** X11. When [fill_nomhk] returns, the counters of the telemetry and of
    the three temperatures have each grown by the number of records of
    the batch, whichever branch each temperature took, so that the four
    variables stay aligned; every other counter, what was printed and
    the disk are as before. With no record the product is left as it
    is. *)
Theorem fill_nomhk_counters (nomhk_data : list nomhk_record) (h h' : Lv1io.heap) :
  L1Aio.fill_nomhk nomhk_data h = (Ok tt, h') ->
  (nomhk_data = [] -> h' = h)
  /\ (nomhk_data <> [] ->
      forall name, In name nomhk_names ->
        exists c, counter h name = Some c
                  /\ counter h' name = Some (c + Z.of_nat (List.length nomhk_data)))
  /\ (forall key, ~ In key nomhk_names -> counter h' key = counter h key)
  /\ Lv1io.stdout (snd h') = Lv1io.stdout (snd h)
  /\ Lv1io.disk (snd h') = Lv1io.disk (snd h).
Proof.
  unfold L1Aio.fill_nomhk. destruct nomhk_data as [|r rest].
  - cbn [List.length Nat.eqb]. unfold ret. intros [= <-].
    split; [reflexivity|]. split; [now intros []|]. now split.
  - set (nomhk_data := r :: rest).
    change (Nat.eqb (List.length nomhk_data) 0) with false. cbv iota.
    intros Hrun.
    apply bind_ok in Hrun as ([] & h1 & Hrun1 & Hrun).
    apply bind_ok in Hrun as ([] & h2 & Hrun2 & Hrun).
    apply bind_ok in Hrun as ([] & h3 & Hrun3 & Hrun4).
    apply set_dset_returns in Hrun1 as ((c1 & Hc1 & Hn1) & Ho1 & Hout1 & Hdisk1).
    apply set_dset_returns in Hrun2 as ((c2 & Hc2 & Hn2) & Ho2 & Hout2 & Hdisk2).
    apply set_dset_returns in Hrun3 as ((c3 & Hc3 & Hn3) & Ho3 & Hout3 & Hdisk3).
    apply set_dset_returns in Hrun4 as ((c4 & Hc4 & Hn4) & Ho4 & Hout4 & Hdisk4).
    rewrite rows_of_temperature, length_map in Hn2, Hn3, Hn4.
    cbn [rows_of] in Hn1. rewrite length_map in Hn1.
    split; [discriminate|]. split; [|split; [|split; congruence]].
    + intros _ name [<-|[<-|[<-|[<-|[]]]]].
      * exists c1. split; [exact Hc1|].
        rewrite Ho4, Ho3, Ho2 by discriminate. exact Hn1.
      * exists c2. split; [rewrite <- Hc2; symmetry; apply Ho1; discriminate|].
        rewrite Ho4, Ho3 by discriminate. exact Hn2.
      * exists c3. split.
        -- rewrite <- Hc3, Ho2, Ho1 by discriminate. reflexivity.
        -- rewrite Ho4 by discriminate. exact Hn3.
      * exists c4. split; [|exact Hn4].
        rewrite <- Hc4, Ho3, Ho2, Ho1 by discriminate. reflexivity.
    + intros key Hnot. unfold nomhk_names in Hnot. cbn [In] in Hnot.
      rewrite Ho4, Ho3, Ho2, Ho1; [reflexivity| | | |];
        intros ->; apply Hnot; tauto.
Qed.

Lemma fill_nomhk_counters_witness :
  exists h',
    L1Aio.fill_nomhk sample_nomhk Sample.created = (Ok tt, h')
    /\ sample_nomhk <> []
    /\ In "/engineering_data/temp_housing" nomhk_names
    /\ counter Sample.created "/engineering_data/temp_housing" = Some 0
    /\ counter h' "/engineering_data/temp_housing" = Some 2.
Proof.
  destruct sample_nomhk_stored as (h' & Hrun & _).
  assert (Hne : sample_nomhk <> []) by discriminate.
  assert (Hin : In "/engineering_data/temp_housing" nomhk_names)
    by (right; right; left; reflexivity).
  assert (Hc : counter Sample.created "/engineering_data/temp_housing" = Some 0)
    by reflexivity.
  exists h'. split; [exact Hrun|]. split; [exact Hne|]. split; [exact Hin|].
  split; [exact Hc|].
  destruct (proj1 (proj2 (fill_nomhk_counters sample_nomhk Sample.created h' Hrun))
              Hne _ Hin) as (c & Hc' & Hn).
  rewrite Hc in Hc'. injection Hc' as <-. exact Hn.
Defined.

(** ** The global attributes of a product *)

Section DictOrder.

Context {V : Type}.

Lemma in_keys_set (d : dict V) (k : string) (v : V) (x : string) :
  In x (keys (set d k v)) <-> x = k \/ In x (keys d).
Proof.
  unfold keys. induction d as [|[k' v'] d IH]; cbn [set map fst In].
  - intuition congruence.
  - destruct (String.eqb_spec k' k) as [->|Hne]; cbn [map fst In].
    + intuition congruence.
    + rewrite IH. intuition congruence.
Qed.

Lemma NoDup_keys_set (d : dict V) (k : string) (v : V) :
  NoDup (keys d) -> NoDup (keys (set d k v)).
Proof.
  unfold keys. induction d as [|[k' v'] d IH]; cbn [set map fst]; intros Hd.
  - constructor; [easy | constructor].
  - inversion Hd as [|? ? Hnot Hrest]; subst.
    destruct (String.eqb_spec k' k) as [->|Hne]; cbn [map fst].
    + now constructor.
    + constructor; [|now apply IH].
      intros Hin. apply (in_keys_set d k v k') in Hin as [->|Hin]; auto.
Qed.

Lemma get_not_key (d : dict V) (k : string) :
  ~ In k (keys d) -> get d k = None.
Proof.
  unfold keys. induction d as [|[k' v'] d IH]; cbn [get map fst In]; [easy|].
  intros Hnot. destruct (String.eqb_spec k' k) as [->|Hne]; [tauto|].
  apply IH. tauto.
Qed.

Lemma get_in (d : dict V) (k : string) (v : V) :
  get d k = Some v -> In (k, v) d.
Proof.
  induction d as [|[k' v'] d IH]; cbn [get In]; [discriminate|].
  destruct (String.eqb_spec k' k) as [->|Hne].
  - intros [= ->]. now left.
  - intros H. right. now apply IH.
Qed.

End DictOrder.

(** The attributes after the loop of [fill_global_attrs] over [items]:
    every item with a value is set, in the order of the items. *)
Definition assigned (items : dict (option NetCDF.attr)) (attrs : dict NetCDF.attr)
    : dict NetCDF.attr :=
  fold_left
    (fun acc item =>
       match snd item with
       | Some value => set acc (fst item) value
       | None => acc
       end)
    items attrs.

Definition with_ncattrs (ds : NetCDF.Dataset) (attrs : dict NetCDF.attr)
    : NetCDF.Dataset :=
  {| NetCDF.dimensions := NetCDF.dimensions ds; NetCDF.groups := NetCDF.groups ds;
     NetCDF.variables := NetCDF.variables ds; NetCDF.ncattrs := attrs |}.

Lemma get_assigned (items : dict (option NetCDF.attr)) :
  forall (attrs : dict NetCDF.attr) (key : string),
    NoDup (keys items) ->
    get (assigned items attrs) key
    = match get items key with
      | Some (Some value) => Some value
      | _ => get attrs key
      end.
Proof.
  unfold assigned.
  induction items as [|[k ov] items IH]; intros attrs key Hnd; [reflexivity|].
  inversion Hnd as [|? ? Hnot Hrest]; subst.
  cbn [fold_left fst snd get]. rewrite IH by exact Hrest.
  destruct (String.eqb_spec k key) as [->|Hne].
  - rewrite (get_not_key items key Hnot).
    destruct ov as [value|]; [apply get_set_same | reflexivity].
  - destruct (get items key) as [[value|]|]; try reflexivity;
      destruct ov as [value'|]; try reflexivity; now apply get_set_other.
Qed.

Section GlobalAttrsFacts.

Variable attrs_def : level -> bool -> dict (option NetCDF.attr).

Definition set_items (items : dict (option NetCDF.attr)) : M Lv1io.heap unit :=
  for_each items
    (fun item =>
       match snd item with
       | Some value => Lv1io.fid_setncattr (fst item) value
       | None => ret tt
       end).

Lemma fid_setncattr_open (self : Lv1io.t) (p : Lv1io.process) ds key value :
  Lv1io.fid_setncattr key value (Lv1io.with_fid self (Some ds), p)
  = (Ok tt, (Lv1io.with_fid self (Some (NetCDF.setncattr ds key value)), p)).
Proof. reflexivity. Qed.

Lemma set_items_open (items : dict (option NetCDF.attr)) :
  forall (self : Lv1io.t) (p : Lv1io.process) (ds : NetCDF.Dataset),
    set_items items (Lv1io.with_fid self (Some ds), p)
    = (Ok tt,
       (Lv1io.with_fid self
          (Some (with_ncattrs ds (assigned items (NetCDF.ncattrs ds)))), p)).
Proof.
  unfold set_items, assigned.
  induction items as [|[k ov] items IH]; intros self p ds.
  - cbn [for_each fold_left]. unfold ret. now destruct ds.
  - cbn [for_each fold_left fst snd]. unfold bind at 1.
    destruct ov as [value|].
    + rewrite fid_setncattr_open.
      rewrite (IH self p (NetCDF.setncattr ds k value)). reflexivity.
    + unfold ret at 1. apply IH.
Qed.

Lemma set_items_closed (items : dict (option NetCDF.attr)) (h : Lv1io.heap) :
  Lv1io.fid (fst h) = None ->
  (exists key value, In (key, Some value) items) ->
  set_items items h = (Raise AttributeError, h).
Proof.
  intros Hfid. unfold set_items.
  induction items as [|[k ov] items IH]; intros (key & value & Hin); [easy|].
  cbn [for_each fst snd]. unfold bind at 1.
  destruct ov as [value'|].
  - unfold Lv1io.fid_setncattr, bind, Lv1io.fid_member. now rewrite Hfid.
  - unfold ret at 1. apply IH. destruct Hin as [[= _ ?]|Hin]; eauto.
Qed.

Lemma global_attrs_keys (self : Lv1io.t) orbit bin_size inflight :
  NoDup (keys (attrs_def (Lv1io.processing_level self) inflight)) ->
  NoDup (keys (Lv1io.global_attrs attrs_def self orbit bin_size inflight)).
Proof.
  intros Hnd. unfold Lv1io.global_attrs.
  destruct bin_size; repeat apply NoDup_keys_set; exact Hnd.
Qed.

Lemma global_attrs_product_name (self : Lv1io.t) orbit bin_size inflight :
  get (Lv1io.global_attrs attrs_def self orbit bin_size inflight) "product_name"
  = Some (Some (NetCDF.AStr (Posix.name (Posix.parse (Lv1io.product self))))).
Proof.
  unfold Lv1io.global_attrs.
  destruct bin_size; rewrite ?get_set_other by discriminate; apply get_set_same.
Qed.

Lemma global_attrs_orbit_number (self : Lv1io.t) orbit bin_size inflight :
  get (Lv1io.global_attrs attrs_def self orbit bin_size inflight) "orbit_number"
  = Some (Some (NetCDF.AInt orbit)).
Proof.
  unfold Lv1io.global_attrs.
  destruct bin_size; rewrite ?get_set_other by discriminate; apply get_set_same.
Qed.

(** X12. On an open product [fill_global_attrs] returns and changes
    only the global attributes of the file: [product_name] is the last
    component of the product's path and [orbit_number] the given number,
    whatever [attrs_def] holds for these two; [bin_size_at_nadir] is the
    given size when one is given; every other attribute for which
    [attrs_def] has a value is set to it, and an attribute whose value is
    [None] is left as the file has it. On a closed product the call
    raises [AttributeError]. *)
Theorem fill_global_attrs_sets
    (h : Lv1io.heap) (orbit : Z) (bin_size : option string) (inflight : bool) :
  NoDup (keys (attrs_def (Lv1io.processing_level (fst h)) inflight)) ->
  (Lv1io.fid (fst h) = None ->
   Lv1io.fill_global_attrs attrs_def orbit bin_size inflight h
   = (Raise AttributeError, h))
  /\ (forall ds,
         Lv1io.fid (fst h) = Some ds ->
         exists attrs,
           Lv1io.fill_global_attrs attrs_def orbit bin_size inflight h
           = (Ok tt, (Lv1io.with_fid (fst h) (Some (with_ncattrs ds attrs)), snd h))
           /\ get attrs "product_name"
              = Some (NetCDF.AStr (Posix.name (Posix.parse (Lv1io.product (fst h)))))
           /\ get attrs "orbit_number" = Some (NetCDF.AInt orbit)
           /\ (forall size, bin_size = Some size ->
                 get attrs "bin_size_at_nadir" = Some (NetCDF.AStr size))
           /\ (forall key,
                 key <> "product_name" -> key <> "orbit_number" ->
                 (bin_size <> None -> key <> "bin_size_at_nadir") ->
                 get attrs key
                 = match get (attrs_def (Lv1io.processing_level (fst h)) inflight)
                           key with
                   | Some (Some value) => Some value
                   | _ => get (NetCDF.ncattrs ds) key
                   end)).
Proof.
  intros Hnd.
  pose proof (global_attrs_keys (fst h) orbit bin_size inflight Hnd) as Hkeys.
  unfold Lv1io.fill_global_attrs. unfold bind at 1. unfold get_state.
  fold (set_items (Lv1io.global_attrs attrs_def (fst h) orbit bin_size inflight)).
  split.
  - intros Hfid. apply set_items_closed; [exact Hfid|].
    exists "product_name". eexists. apply get_in.
    apply global_attrs_product_name.
  - intros ds Hfid.
    exists (assigned (Lv1io.global_attrs attrs_def (fst h) orbit bin_size inflight)
              (NetCDF.ncattrs ds)).
    split; [|split; [|split; [|split]]].
    + destruct h as [[lv product fid epoch] p]. cbn [fst snd Lv1io.fid] in *. subst fid.
      apply (set_items_open _
               {| Lv1io.processing_level := lv; Lv1io.product := product;
                  Lv1io.fid := Some ds; Lv1io.epoch := epoch |} p ds).
    + rewrite get_assigned by exact Hkeys.
      now rewrite global_attrs_product_name.
    + rewrite get_assigned by exact Hkeys.
      now rewrite global_attrs_orbit_number.
    + intros size ->. rewrite get_assigned by exact Hkeys.
      unfold Lv1io.global_attrs. now rewrite get_set_same.
    + intros key Hn1 Hn2 Hn3. rewrite get_assigned by exact Hkeys.
      unfold Lv1io.global_attrs.
      destruct bin_size as [size|].
      * rewrite !get_set_other; [reflexivity| | |]; intros E; symmetry in E;
          [now apply Hn1 | now apply Hn2 | now apply Hn3].
      * rewrite !get_set_other; [reflexivity| |]; intros E; symmetry in E;
          [now apply Hn1 | now apply Hn2].
Qed.

End GlobalAttrsFacts.

(** Global attributes as [attrs_def] could give them: a title, a product
    name to be filled in, and a history that is not known. *)
Definition sample_attrs_def (lv : level) (inflight : bool)
    : dict (option NetCDF.attr) :=
  [ ("title", Some (NetCDF.AStr "SPEXone Level-1 product"));
    ("product_name", None);
    ("history", None) ].

Lemma fill_global_attrs_sets_witness :
  NoDup (keys (sample_attrs_def L1A false))
  /\ exists attrs,
       fst (Lv1io.fill_global_attrs sample_attrs_def 12 None false Sample.created)
       = Ok tt
       /\ get attrs "product_name" = Some (NetCDF.AStr "SPX1_L1A_sample.nc")
       /\ get attrs "orbit_number" = Some (NetCDF.AInt 12)
       /\ get attrs "history" = None.
Proof.
  assert (Hnd : NoDup (keys (sample_attrs_def L1A false))).
  { repeat constructor; cbn; intuition discriminate. }
  split; [exact Hnd|].
  destruct (proj2 (fill_global_attrs_sets sample_attrs_def Sample.created 12 None
                     false Hnd) Sample.l1a eq_refl)
    as (attrs & Hrun & Hname & Horbit & _ & Hother).
  exists attrs. split; [now rewrite Hrun|]. split; [exact Hname|].
  split; [exact Horbit|].
  rewrite Hother; [reflexivity | discriminate | discriminate | congruence].
Defined.

(** ** What [close] writes *)

(** The dimensions, the groups and the variables of a file. *)
Definition data_of (ds : NetCDF.Dataset)
    : dict NetCDF.Dimension * dict (dict NetCDF.attr) * dict NetCDF.NcVariable :=
  (NetCDF.dimensions ds, NetCDF.groups ds, NetCDF.variables ds).

Definition coverage_name (key : string) : Prop :=
  key = "time_coverage_start" \/ key = "time_coverage_end".

(** [ds'] is [ds] but for the two attributes of the time coverage. *)
Definition same_but_coverage (ds' ds : NetCDF.Dataset) : Prop :=
  data_of ds' = data_of ds
  /\ forall key, ~ coverage_name key ->
       get (NetCDF.ncattrs ds') key = get (NetCDF.ncattrs ds) key.

(** A product that was open with the file [ds0] in the state [h0] is
    still open, with such a file, and nothing was written out. *)
Definition opened (h0 : Lv1io.heap) (ds0 : NetCDF.Dataset) (h : Lv1io.heap) : Prop :=
  Lv1io.product (fst h) = Lv1io.product (fst h0)
  /\ Lv1io.disk (snd h) = Lv1io.disk (snd h0)
  /\ exists ds, Lv1io.fid (fst h) = Some ds /\ same_but_coverage ds ds0.

(** It is released, and such a file was written out under its name. *)
Definition stored (h0 : Lv1io.heap) (ds0 : NetCDF.Dataset) (h : Lv1io.heap) : Prop :=
  Lv1io.fid (fst h) = None
  /\ exists ds',
       Lv1io.disk (snd h) = set (Lv1io.disk (snd h0)) (Lv1io.product (fst h0)) ds'
       /\ same_but_coverage ds' ds0.

Section Closing.

Variable h0 : Lv1io.heap.
Variable ds0 : NetCDF.Dataset.

(** A computation that leaves the state as it is. *)
Definition reads {A} (m : M Lv1io.heap A) : Prop := forall h, snd (m h) = h.

(** A computation that leaves the product open. *)
Definition holds {A} (m : M Lv1io.heap A) : Prop :=
  forall h, opened h0 ds0 h -> opened h0 ds0 (snd (m h)).

(** A computation that ends with the product released, or raises with
    the product still open. *)
Definition finishes {A} (m : M Lv1io.heap A) : Prop :=
  forall h,
    opened h0 ds0 h ->
    match m h with
    | (Ok _, h') => stored h0 ds0 h'
    | (Raise _, h') => opened h0 ds0 h'
    end.

Lemma reads_bind {A B} (m : M Lv1io.heap A) (k : A -> M Lv1io.heap B) :
  reads m -> (forall a, reads (k a)) -> reads (bind m k).
Proof.
  intros Hm Hk h. unfold bind. specialize (Hm h).
  destruct (m h) as [[a|e] h1]; cbn [snd] in *; subst; [apply Hk | reflexivity].
Qed.

Lemma reads_lift {A} (r : result A) : reads (lift r).
Proof. now intros h. Qed.

Lemma reads_fid_member : reads Lv1io.fid_member.
Proof. intros h. unfold Lv1io.fid_member. now destruct (Lv1io.fid (fst h)). Qed.

Lemma reads_fid_getitem elem : reads (Lv1io.fid_getitem elem).
Proof. intros h. unfold Lv1io.fid_getitem. now destruct (Lv1io.fid (fst h)). Qed.

Lemma reads_stored_getitem key : reads (Lv1io.stored_getitem key).
Proof. intros h. unfold Lv1io.stored_getitem. now destruct (get _ key). Qed.

Lemma reads_get_dim name : reads (Lv1io.get_dim name).
Proof.
  unfold Lv1io.get_dim. apply reads_bind; [apply reads_fid_member|].
  intros ds. destruct (get _ name); [apply (reads_lift (Ok _)) | apply (reads_lift (Raise _))].
Qed.

Lemma reads_stored_values key_list : reads (Check.stored_values key_list).
Proof.
  induction key_list as [|key rest IH]; cbn [Check.stored_values].
  - apply (reads_lift (Ok [])).
  - apply reads_bind; [apply reads_stored_getitem|]. intros n.
    apply reads_bind; [exact IH|]. intros ns. apply (reads_lift (Ok _)).
Qed.

Lemma reads_int_attr nd name : reads (L1Aio.int_attr nd name).
Proof.
  unfold L1Aio.int_attr. apply reads_bind; [apply reads_fid_member|].
  intros ds. destruct (get _ name); [apply reads_lift | apply (reads_lift (Raise _))].
Qed.

Lemma reads_tstamp_at nd i : reads (L1Aio.tstamp_at nd i).
Proof.
  unfold L1Aio.tstamp_at.
  apply reads_bind; [apply reads_int_attr|]. intros year.
  apply reads_bind; [apply reads_int_attr|]. intros month.
  apply reads_bind; [apply reads_int_attr|]. intros day.
  apply reads_bind; [apply reads_lift|]. intros tstamp.
  apply reads_bind; [apply reads_fid_member|]. intros ds.
  apply reads_bind;
    [destruct nd; [apply (reads_lift (Raise _)) | apply reads_lift]|].
  intros row.
  apply reads_bind; [apply reads_lift|]. intros seconds.
  apply reads_bind; [apply reads_lift|]. intros delta. apply reads_lift.
Qed.

Lemma reads_coverage_time time_var i : reads (Check.coverage_time time_var i).
Proof.
  unfold Check.coverage_time, Check.entry.
  apply reads_bind.
  { apply reads_bind; [apply reads_fid_getitem|]. intros nd.
    apply reads_bind; [apply reads_fid_member|]. intros ds.
    destruct nd; [apply (reads_lift (Raise _)) | apply reads_lift]. }
  intros secnd_data.
  apply reads_bind; [now intros h|]. intros h.
  repeat (apply reads_bind; [apply reads_lift|intros ?]). apply reads_lift.
Qed.

Lemma reads_dimension_is_empty name : reads (Check.dimension_is_empty name).
Proof.
  unfold Check.dimension_is_empty. apply reads_bind; [apply reads_get_dim|].
  intros n. apply (reads_lift (Ok _)).
Qed.

Lemma holds_reads {A} (m : M Lv1io.heap A) : reads m -> holds m.
Proof. intros Hm h Hh. now rewrite Hm. Qed.

Lemma holds_bind {A B} (m : M Lv1io.heap A) (k : A -> M Lv1io.heap B) :
  holds m -> (forall a, holds (k a)) -> holds (bind m k).
Proof.
  intros Hm Hk h Hh. unfold bind. specialize (Hm h Hh).
  destruct (m h) as [[a|e] h1]; cbn [snd] in *; [now apply Hk | exact Hm].
Qed.

Lemma holds_print line : holds (Lv1io.print line).
Proof. now intros h Hh. Qed.

Lemma holds_for_each {A} (l : list A) (body : A -> M Lv1io.heap unit) :
  (forall x, holds (body x)) -> holds (for_each l body).
Proof.
  intros Hbody. induction l as [|x l IH]; cbn [for_each].
  - now intros h Hh.
  - apply holds_bind; auto.
Qed.

Lemma holds_block lv dim_name select skip wrong :
  holds (Check.block lv dim_name select skip wrong).
Proof.
  unfold Check.block.
  apply holds_bind; [apply holds_reads, reads_get_dim|]. intros dim_sz.
  apply holds_bind; [now intros h Hh|]. intros h.
  apply holds_bind; [apply holds_reads, reads_stored_values|]. intros res.
  unfold Check.report. apply holds_for_each. intros ii.
  destruct (nth_error _ ii); [|now intros h' Hh'].
  destruct (nth_error res ii); [apply holds_print | now intros h' Hh'].
Qed.

Lemma holds_dump key_list : forall ii, holds (Check.dump key_list ii).
Proof.
  induction key_list as [|key rest IH]; intros ii; cbn [Check.dump].
  - now intros h Hh.
  - apply holds_bind; [apply holds_reads, reads_stored_getitem|]. intros n.
    apply holds_bind; [apply holds_print|]. intros _. apply IH.
Qed.

Lemma holds_check_stored_A allow_empty : holds (L1Aio.check_stored allow_empty).
Proof.
  unfold L1Aio.check_stored. apply holds_bind; [apply holds_block|].
  intros _. apply holds_block.
Qed.

Lemma holds_check_stored_binned lv : holds (Check.check_stored_binned lv).
Proof.
  unfold Check.check_stored_binned.
  apply holds_bind; [apply holds_block|]. intros _.
  apply holds_bind; [apply holds_block|]. intros _.
  apply holds_bind; [now intros h Hh|]. intros h. apply holds_dump.
Qed.

Lemma holds_set_global name text :
  coverage_name name -> holds (Check.set_global name text).
Proof.
  intros Hname h (Hproduct & Hdisk & ds & Hfid & Hdata & Hattrs).
  unfold Check.set_global, bind, Lv1io.fid_member. rewrite Hfid.
  unfold Lv1io.put_fid, opened. cbn [fst snd Lv1io.fid Lv1io.with_fid Lv1io.product].
  split; [exact Hproduct|]. split; [exact Hdisk|].
  eexists. split; [reflexivity|]. split; [exact Hdata|].
  intros key Hkey. cbn [NetCDF.setncattr NetCDF.ncattrs].
  rewrite get_set_other; [now apply Hattrs|].
  intros <-. now apply Hkey.
Qed.

Lemma finishes_bind {A B} (m : M Lv1io.heap A) (k : A -> M Lv1io.heap B) :
  holds m -> (forall a, finishes (k a)) -> finishes (bind m k).
Proof.
  intros Hm Hk h Hh. unfold bind. specialize (Hm h Hh).
  destruct (m h) as [[a|e] h1]; cbn [snd] in *; [now apply Hk | exact Hm].
Qed.

Lemma finishes_release : finishes Check.release.
Proof.
  intros h (Hproduct & Hdisk & ds & Hfid & Hsame).
  rewrite (release_open h ds Hfid). unfold stored, released.
  cbn [fst snd Lv1io.fid Lv1io.with_fid Lv1io.product Lv1io.disk].
  split; [reflexivity|]. exists ds. now rewrite Hdisk, Hproduct.
Qed.

Lemma finishes_close_binned time_var check :
  holds check -> finishes (Check.close_binned time_var check).
Proof.
  intros Hcheck h Hh. unfold Check.close_binned.
  destruct Hh as (Hproduct & Hdisk & ds & Hfid & Hsame). rewrite Hfid.
  assert (Hh : opened h0 ds0 h) by (split; [|split]; eauto).
  clear Hproduct Hdisk Hfid Hsame. revert h Hh. change (finishes
    (empty <- Check.dimension_is_empty "bins_along_track" ;;
     if empty then Check.release
     else
       check ;;;
       time0 <- Check.coverage_time time_var 0 ;;
       time1 <- Check.coverage_time time_var (-1) ;;
       Check.set_global "time_coverage_start" (Datetime.isoformat_milliseconds time0) ;;;
       Check.set_global "time_coverage_end" (Datetime.isoformat_milliseconds time1) ;;;
       Check.release)).
  apply finishes_bind; [apply holds_reads, reads_dimension_is_empty|]. intros [|].
  - apply finishes_release.
  - apply finishes_bind; [exact Hcheck|]. intros _.
    apply finishes_bind; [apply holds_reads, reads_coverage_time|]. intros time0.
    apply finishes_bind; [apply holds_reads, reads_coverage_time|]. intros time1.
    apply finishes_bind; [apply holds_set_global; now left|]. intros _.
    apply finishes_bind; [apply holds_set_global; now right|]. intros _.
    apply finishes_release.
Qed.

Lemma finishes_close_A : finishes L1Aio.close.
Proof.
  intros h Hh. unfold L1Aio.close.
  destruct Hh as (Hproduct & Hdisk & ds & Hfid & Hsame). rewrite Hfid.
  assert (Hh : opened h0 ds0 h) by (split; [|split]; eauto).
  clear Hproduct Hdisk Hfid Hsame. revert h Hh. change (finishes
    (empty <- Check.dimension_is_empty "number_of_images" ;;
     if empty then Check.release
     else
       L1Aio.check_stored true ;;;
       dset <- Lv1io.fid_getitem "/image_attributes/image_time" ;;
       tstamp <- L1Aio.tstamp_at dset 0 ;;
       Check.set_global "time_coverage_start" (Datetime.isoformat_milliseconds tstamp) ;;;
       tstamp <- L1Aio.tstamp_at dset (-1) ;;
       Check.set_global "time_coverage_end" (Datetime.isoformat_milliseconds tstamp) ;;;
       Check.release)).
  apply finishes_bind; [apply holds_reads, reads_dimension_is_empty|]. intros [|].
  - apply finishes_release.
  - apply finishes_bind; [apply holds_check_stored_A|]. intros _.
    apply finishes_bind; [apply holds_reads, reads_fid_getitem|]. intros dset.
    apply finishes_bind; [apply holds_reads, reads_tstamp_at|]. intros tstamp0.
    apply finishes_bind; [apply holds_set_global; now left|]. intros _.
    apply finishes_bind; [apply holds_reads, reads_tstamp_at|]. intros tstamp1.
    apply finishes_bind; [apply holds_set_global; now right|]. intros _.
    apply finishes_release.
Qed.

Lemma finishes_close : finishes close.
Proof.
  intros h Hh. unfold close. destruct (Lv1io.processing_level (fst h)).
  - unfold Lv1io.close.
    destruct Hh as (Hproduct & Hdisk & ds & Hfid & Hsame). rewrite Hfid.
    apply (finishes_release h). split; [|split]; eauto.
  - now apply finishes_close_A.
  - apply finishes_close_binned; [apply holds_check_stored_binned | exact Hh].
  - apply finishes_close_binned; [apply holds_check_stored_binned | exact Hh].
Qed.

End Closing.

(** X17. [close] on an open product never changes the dimensions, the
    groups or the variables of its file, nor any global attribute other
    than [time_coverage_start] and [time_coverage_end]. When it returns,
    the product is released and that file is on disk under the name of
    the product; when it raises, the product is still open, with that
    file. *)
Theorem close_stores_the_data (h : Lv1io.heap) (ds : NetCDF.Dataset) :
  Lv1io.fid (fst h) = Some ds ->
  match close h with
  | (Ok _, h') =>
      Lv1io.fid (fst h') = None
      /\ exists ds',
           Lv1io.disk (snd h')
           = set (Lv1io.disk (snd h)) (Lv1io.product (fst h)) ds'
           /\ same_but_coverage ds' ds
  | (Raise _, h') =>
      exists ds',
        Lv1io.fid (fst h') = Some ds' /\ same_but_coverage ds' ds
  end.
Proof.
  intros Hfid.
  assert (Hstart : opened h ds h).
  { split; [reflexivity|]. split; [reflexivity|].
    exists ds. split; [exact Hfid|]. now split. }
  pose proof (finishes_close h ds h Hstart) as Hend.
  destruct (close h) as [[[]|e] h']; [exact Hend|].
  destruct Hend as (_ & _ & Hopen). exact Hopen.
Qed.

Lemma close_stores_the_data_witness :
  Lv1io.fid (fst sample_written) = Some sample_written_file
  /\ fst (close sample_written) = Ok tt
  /\ exists ds',
       get (Lv1io.disk (snd (snd (close sample_written)))) "SPX1_L1A_sample.nc"
       = Some ds'
       /\ NetCDF.variables ds' = NetCDF.variables sample_written_file
       /\ get (NetCDF.ncattrs ds') "time_coverage_start"
          = Some (NetCDF.AStr (Datetime.isoformat_milliseconds
                                 (time_stamp 2020 5 15 10)))
       /\ get (NetCDF.ncattrs sample_written_file) "time_coverage_start" = None.
Proof.
  assert (H : Lv1io.fid (fst sample_written) = Some sample_written_file)
    by reflexivity.
  pose proof (close_stores_the_data sample_written sample_written_file H) as Hclose.
  rewrite sample_written_closes in Hclose. rewrite sample_written_closes.
  destruct Hclose as (_ & ds' & Hdisk & Hdata & _).
  split; [exact H|]. split; [reflexivity|].
  exists ds'. cbn [snd]. rewrite Hdisk. split; [apply get_set_same|].
  split; [unfold data_of in Hdata; congruence|].
  assert (Hsame : Some ds'
                  = Some (with_coverage sample_written_file
                            (time_stamp 2020 5 15 10) (time_stamp 2020 5 15 12))).
  { rewrite <- (get_set_same (Lv1io.disk (snd sample_written))
                  "SPX1_L1A_sample.nc" ds').
    change "SPX1_L1A_sample.nc" with (Lv1io.product (fst sample_written)) at 1.
    rewrite <- Hdisk. cbn [released snd Lv1io.disk]. apply get_set_same. }
  injection Hsame as ->. split; reflexivity.
Defined.

(** * Properties of the other modules *)

(** ** Splitting a string *)

(** No character of [s] is [c]. *)
Fixpoint without (c : ascii) (s : string) : bool :=
  match s with
  | EmptyString => true
  | String a rest => negb (Ascii.eqb a c) && without c rest
  end.

Lemma split_without (c : ascii) (s : string) :
  without c s = true -> Posix.split c s = [s].
Proof.
  induction s as [|a s IH]; cbn [without Posix.split]; [reflexivity|].
  intros H. apply andb_true_iff in H as [Ha Hs].
  apply negb_true_iff in Ha. rewrite Ha, IH by exact Hs. reflexivity.
Qed.

Lemma split_not_nil (c : ascii) (s : string) : Posix.split c s <> [].
Proof.
  destruct s as [|a s]; cbn [Posix.split]; [discriminate|].
  destruct (Ascii.eqb a c); [discriminate|].
  destruct (Posix.split c s); discriminate.
Qed.

(** [(p + c + s).split(c) == p.split(c) + s.split(c)] *)
Lemma split_app (c : ascii) (p s : string) :
  Posix.split c (p ++ String c s) = (Posix.split c p ++ Posix.split c s)%list.
Proof.
  induction p as [|a p IH]; cbn [String.append Posix.split].
  - now rewrite Ascii.eqb_refl.
  - rewrite IH. destruct (Ascii.eqb a c); [reflexivity|].
    pose proof (split_not_nil c p) as Hp.
    destruct (Posix.split c p) as [|h t]; [contradiction | reflexivity].
Qed.

(** The first part of a split: it is free of [c], and it is the whole
    string or what stands before the first [c]. *)
Lemma split_first (c : ascii) (s : string) :
  exists first others,
    Posix.split c s = first :: others
    /\ without c first = true
    /\ (without c s = true -> first = s)
    /\ (without c s = false -> exists rest, s = first ++ String c rest).
Proof.
  induction s as [|a s (first & others & Hsplit & Hfree & Hall & Hcut)];
    cbn [Posix.split without].
  - exists "", []. repeat split; auto. discriminate.
  - destruct (Ascii.eqb a c) eqn:Ea; cbn [negb andb].
    + apply Ascii.eqb_eq in Ea as ->.
      exists "", (Posix.split c s). repeat split; [discriminate|].
      intros _. now exists s.
    + rewrite Hsplit. exists (String a first), others.
      cbn [without]. rewrite Ea, Hfree. repeat split.
      * intros Hs. now rewrite (Hall Hs).
      * intros Hs. destruct (Hcut Hs) as [rest ->]. now exists rest.
Qed.

Lemma last_app_not_nil {A} (l1 l2 : list A) (d : A) :
  l2 <> [] -> last (l1 ++ l2) d = last l2 d.
Proof.
  intros Hne. induction l1 as [|x l1 IH]; [reflexivity|].
  cbn [app last]. destruct (l1 ++ l2)%list eqn:E; [|exact IH].
  apply app_eq_nil in E as [_ ->]. contradiction.
Qed.

Lemma string_app_assoc (a b c : string) : ((a ++ b) ++ c = a ++ b ++ c)%string.
Proof. induction a as [|x a IH]; cbn [String.append]; [reflexivity | now rewrite IH]. Qed.

(** ** The public version *)

(** X13. [version.get()] never fails and returns the part of
    [__version__] before its first [+]: the result holds no [+], it is
    the whole of [__version__] when that holds none, and otherwise
    [__version__] is the result, a [+] and a local part; asking for the
    public part of the result gives the result again. With [full=True]
    the version is returned as it is. *)
Theorem version_get_public (__version__ : string) :
  Version.get __version__ true = Ok __version__
  /\ exists public,
       Version.get __version__ false = Ok public
       /\ without "+" public = true
       /\ (without "+" __version__ = true -> public = __version__)
       /\ (without "+" __version__ = false ->
           exists local, __version__ = public ++ "+" ++ local)
       /\ Version.get public false = Ok public.
Proof.
  split; [reflexivity|].
  destruct (split_first "+" __version__) as (public & others & Hs & Hfree & Hall & Hcut).
  exists public. unfold Version.get. rewrite Hs.
  repeat split; auto. now rewrite (split_without "+" public Hfree).
Qed.

(** ** The time stamp in the name of an input file *)

Definition hk_chars : list ascii := ["_"%char; "h"%char; "k"%char].

Lemma rstrip_app (chars : list ascii) (s t : string) :
  Egse2l1a.rstrip chars t <> "" ->
  Egse2l1a.rstrip chars (s ++ t) = s ++ Egse2l1a.rstrip chars t.
Proof.
  intros Hne. induction s as [|a s IH]; cbn [String.append Egse2l1a.rstrip];
    [reflexivity|].
  rewrite IH. destruct (s ++ Egse2l1a.rstrip chars t) eqn:E; [|reflexivity].
  destruct s; cbn [String.append] in E; [contradiction | discriminate].
Qed.

(** X14. For an input file whose stem is [prefix_stamp] or
    [prefix_stamp_hk], where the stamp holds no underscore and ends with
    a character other than [h] and [k], [write_egse] takes the stamp as
    the start of the measurement: [date_str] is the stamp followed by
    [+00:00]. ([rstrip('_hk')] takes off every trailing [_], [h] and [k],
    so the condition on the last character of the stamp is needed.) *)
Theorem date_str_of_input_file (res prefix body : string) (z : ascii) :
  without "_" (body ++ String z "") = true ->
  existsb (Ascii.eqb z) hk_chars = false ->
  Posix.stem (Posix.parse res) = prefix ++ "_" ++ body ++ String z "_hk"
  \/ Posix.stem (Posix.parse res) = prefix ++ "_" ++ body ++ String z "" ->
  Egse2l1a.input_file res = prefix ++ "_" ++ body ++ String z ""
  /\ Egse2l1a.date_str (Egse2l1a.input_file res) = body ++ String z "" ++ "+00:00".
Proof.
  intros Hfree Hz Hstem.
  assert (Hin : Egse2l1a.input_file res = prefix ++ "_" ++ body ++ String z "").
  { unfold Egse2l1a.input_file. fold hk_chars.
    assert (Hend : forall tail,
               Egse2l1a.rstrip hk_chars (String z tail) = String z "" ->
               Egse2l1a.rstrip hk_chars (prefix ++ "_" ++ body ++ String z tail)
               = prefix ++ "_" ++ body ++ String z "").
    { intros tail Htail.
      rewrite <- !string_app_assoc. rewrite rstrip_app; [now rewrite Htail|].
      now rewrite Htail. }
    destruct Hstem as [-> | ->]; apply Hend.
    - cbn [Egse2l1a.rstrip]. cbn [hk_chars existsb Ascii.eqb Bool.eqb orb] in Hz |- *.
      cbn. now rewrite Hz.
    - cbn [Egse2l1a.rstrip]. now rewrite Hz. }
  split; [exact Hin|]. rewrite Hin. unfold Egse2l1a.date_str.
  change (prefix ++ "_" ++ body ++ String z "")
    with (prefix ++ String "_" (body ++ String z "")).
  rewrite split_app, last_app_not_nil by apply split_not_nil.
  rewrite (split_without "_" _ Hfree). cbn [last].
  now rewrite string_app_assoc.
Qed.

Lemma date_str_of_input_file_witness :
  without "_" ("20210313T123456.78" ++ String "9" "") = true
  /\ existsb (Ascii.eqb "9") hk_chars = false
  /\ Posix.stem (Posix.parse "Logs/ocal_run_20210313T123456.789_hk.dat")
     = "ocal_run" ++ "_" ++ "20210313T123456.78" ++ String "9" "_hk"
  /\ Egse2l1a.date_str (Egse2l1a.input_file "Logs/ocal_run_20210313T123456.789_hk.dat")
     = "20210313T123456.789+00:00".
Proof.
  assert (H1 : without "_" ("20210313T123456.78" ++ String "9" "") = true)
    by reflexivity.
  assert (H2 : existsb (Ascii.eqb "9") hk_chars = false) by reflexivity.
  assert (H3 : Posix.stem (Posix.parse "Logs/ocal_run_20210313T123456.789_hk.dat")
               = "ocal_run" ++ "_" ++ "20210313T123456.78" ++ String "9" "_hk")
    by reflexivity.
  split; [exact H1|]. split; [exact H2|]. split; [exact H3|].
  exact (proj2 (date_str_of_input_file
                  "Logs/ocal_run_20210313T123456.789_hk.dat" "ocal_run"
                  "20210313T123456.78" "9" H1 H2 (or_introl H3))).
Defined.

(** ** The EGSE records of a measurement *)

Lemma leb_trans (a b c : float64) :
  Float.leb a b = true -> Float.leb b c = true -> Float.leb a c = true.
Proof.
  destruct a as [x| | |], b as [y| | |], c as [z| | |]; cbn [Float.leb];
    try discriminate; try reflexivity.
  destruct (Rle_dec x y), (Rle_dec y z), (Rle_dec x z);
    try discriminate; try reflexivity.
  lra.
Qed.

(** The entries of [l] at the positions where [flags] holds [true]. *)
Fixpoint pick {A} (flags : list bool) (l : list A) : list A :=
  match flags, l with
  | true :: flags', x :: l' => x :: pick flags' l'
  | false :: flags', _ :: l' => pick flags' l'
  | _, _ => []
  end.

Lemma pick_filter {A} (w : A -> bool) (l : list A) :
  pick (map w l) l = filter w l.
Proof.
  induction l as [|x l IH]; cbn [map pick filter]; [reflexivity|].
  destruct (w x); now rewrite IH.
Qed.

Lemma pick_rows {A B} (w : A -> bool) (l : list A) :
  forall (r : list B),
    pick (map w l) r
    = map snd (filter (fun row => w (fst row)) (combine l r)).
Proof.
  induction l as [|x l IH]; intros [|y r]; cbn [map pick combine filter fst snd];
    try reflexivity.
  - now destruct (w x).
  - destruct (w x); cbn [map snd]; now rewrite IH.
Qed.

Lemma pick_none {A} (n : nat) : forall (l : list A), pick (repeat false n) l = [].
Proof. induction n as [|n IH]; intros [|x l]; cbn [repeat pick]; auto. Qed.

Lemma pick_run {A} (na nb nc : nat) :
  forall (l : list A),
    pick (repeat false na ++ repeat true nb ++ repeat false nc) l
    = firstn nb (skipn na l).
Proof.
  induction na as [|na IHa]; cbn [repeat app].
  - induction nb as [|nb IHb]; intros l; cbn [repeat app skipn].
    + now rewrite pick_none.
    + destruct l as [|x l]; cbn [pick firstn]; [reflexivity|].
      f_equal. apply (IHb l).
  - intros [|x l]; cbn [pick skipn]; [now rewrite firstn_nil | apply IHa].
Qed.

Lemma nonzero_none (n pos : nat) : Check.nonzero (repeat false n) pos = [].
Proof. revert pos. induction n as [|n IH]; intros pos; cbn; auto. Qed.

Lemma nonzero_run (na nb nc : nat) :
  forall pos,
    Check.nonzero (repeat false na ++ repeat true nb ++ repeat false nc) pos
    = seq (pos + na) nb.
Proof.
  induction na as [|na IHa]; cbn [repeat app].
  - induction nb as [|nb IHb]; intros pos; cbn [repeat app Check.nonzero seq].
    + apply nonzero_none.
    + rewrite Nat.add_0_r. cbn [app]. f_equal.
      specialize (IHb (S pos)). now rewrite Nat.add_0_r in IHb.
  - intros pos. cbn [Check.nonzero app]. rewrite IHa. f_equal. lia.
Qed.

Lemma last_seq (start len : nat) (d : nat) :
  last (seq start (S len)) d = (start + len)%nat.
Proof.
  revert start. induction len as [|len IH]; intros start.
  - cbn. lia.
  - change (seq start (S (S len))) with (start :: seq (S start) (S len)).
    cbn [last]. destruct (seq (S start) (S len)) eqn:E; [discriminate|].
    rewrite <- E, IH. lia.
Qed.

(** In a list of times that do not decrease, the entries of a window
    stand together. *)
Lemma sorted_window (start stop : float64) (egse_time : list float64) :
  StronglySorted (fun a b => Float.leb a b = true) egse_time ->
  exists na nb nc,
    map (Egse2l1a.in_window start stop) egse_time
    = (repeat false na ++ repeat true nb ++ repeat false nc)%list.
Proof.
  induction 1 as [|x l Hsorted (na & nb & nc & IH) Hx].
  - now exists O, O, O.
  - cbn [map]. rewrite IH.
    destruct (Egse2l1a.in_window start stop x) eqn:Ex.
    + destruct nb as [|nb].
      * exists O, 1%nat, (na + nc)%nat. cbn [repeat app]. now rewrite repeat_app.
      * destruct na as [|na]; [now exists O, (S (S nb)), nc|].
        exfalso.
        destruct l as [|y l]; [discriminate|].
        cbn [map repeat app] in IH. injection IH as Hy Hrest.
        assert (Hin : In true (map (Egse2l1a.in_window start stop) l)).
        { rewrite Hrest. apply in_or_app. right. now left. }
        apply in_map_iff in Hin as (z & Hz & Hzl).
        inversion Hsorted as [|? ? _ Hyl]; subst.
        rewrite Forall_forall in Hyl. specialize (Hyl z Hzl).
        inversion Hx as [|? ? Hxy _]; subst.
        unfold Egse2l1a.in_window in *.
        apply andb_true_iff in Ex as [Hsx _], Hz as [_ Hzs].
        rewrite (leb_trans start x y Hsx Hxy), (leb_trans y z stop Hyl Hzs) in Hy.
        discriminate.
    + exists (S na), nb, nc. reflexivity.
Qed.

Section SelectFacts.

Variable record : Type.

(** X15. When the times of the database do not decrease (as
    [create_egse_db] writes them) and there is one record for each time,
    the slice [indx[0]:indx[-1]+1] that [write_egse] copies holds exactly
    the entries whose time lies in the window from [start] to [stop],
    both ends included, with their records, in the order of the
    database; the call fails with [RuntimeError] exactly when no time
    lies in the window. *)
Theorem select_window_of_sorted_times
    (egse_time : list float64) (egse : list record) (start stop : float64) :
  StronglySorted (fun a b => Float.leb a b = true) egse_time ->
  List.length egse = List.length egse_time ->
  Egse2l1a.select record egse_time egse start stop
  = match filter (Egse2l1a.in_window start stop) egse_time with
    | [] => Raise (OtherError "RuntimeError")
    | times =>
        Ok (times,
            map snd (filter (fun row => Egse2l1a.in_window start stop (fst row))
                       (combine egse_time egse)))
    end.
Proof.
  intros Hsorted Hlen.
  destruct (sorted_window start stop egse_time Hsorted) as (na & nb & nc & Hflags).
  rewrite <- (pick_filter (Egse2l1a.in_window start stop) egse_time).
  rewrite <- (pick_rows (Egse2l1a.in_window start stop) egse_time egse).
  unfold Egse2l1a.select. rewrite Hflags, nonzero_run, !pick_run.
  cbn [Nat.add]. destruct nb as [|nb]; [reflexivity|].
  change (seq na (S nb)) with (na :: seq (S na) nb) at 1.
  cbv beta iota zeta. rewrite last_seq. unfold Egse2l1a.slice.
  replace (S (na + nb) - na)%nat with (S nb) by lia.
  assert (Hne : firstn (S nb) (skipn na egse_time) <> []).
  { assert (Hl : List.length egse_time = (na + S nb + nc)%nat).
    { rewrite <- (length_map (Egse2l1a.in_window start stop)), Hflags.
      rewrite !length_app, !repeat_length. lia. }
    intros E. apply (f_equal (@List.length _)) in E.
    rewrite length_firstn, length_skipn, Hl in E. cbn [List.length] in E. lia. }
  destruct (firstn (S nb) (skipn na egse_time)) as [|t times] eqn:E;
    [contradiction | reflexivity].
Qed.

End SelectFacts.

Ltac compare_reals :=
  repeat match goal with
         | |- context [Rle_dec ?a ?b] => destruct (Rle_dec a b); try lra
         end.

Lemma select_window_of_sorted_times_witness :
  StronglySorted (fun a b => Float.leb a b = true)
    [Finite 1; Finite 2; Finite 3; Finite 4]
  /\ List.length [10; 20; 30; 40] = List.length [Finite 1; Finite 2; Finite 3; Finite 4]
  /\ Egse2l1a.select Z [Finite 1; Finite 2; Finite 3; Finite 4] [10; 20; 30; 40]
       (Finite 2) (Finite 3)
     = Ok ([Finite 2; Finite 3], [20; 30]).
Proof.
  assert (H1 : StronglySorted (fun a b => Float.leb a b = true)
                 [Finite 1; Finite 2; Finite 3; Finite 4]).
  { repeat constructor; cbn [Float.leb]; compare_reals; reflexivity. }
  assert (H2 : List.length [10; 20; 30; 40]
               = List.length [Finite 1; Finite 2; Finite 3; Finite 4]) by reflexivity.
  split; [exact H1|]. split; [exact H2|].
  rewrite (select_window_of_sorted_times Z _ _ (Finite 2) (Finite 3) H1 H2).
  cbn [filter combine fst snd map]. unfold Egse2l1a.in_window.
  cbn [Float.leb]. compare_reals; reflexivity.
Defined.

(** ** The header of an EGSE file *)

Lemma header_fields_lengths (fields : list string) :
  forall names units,
    List.length names = List.length units ->
    List.length (fst (Egse2l1a.header_fields fields names units))
    = List.length (snd (Egse2l1a.header_fields fields names units))
    /\ List.length (fst (Egse2l1a.header_fields fields names units))
       = (List.length names
          + List.length (filter (fun field => negb (String.eqb field "")) fields))%nat.
Proof.
  induction fields as [|field fields IH]; intros names units Hlen;
    cbn [Egse2l1a.header_fields filter].
  - cbn [fst snd List.length]. lia.
  - destruct (String.eqb field ""); cbn [negb].
    + now apply IH.
    + edestruct IH as [H1 H2]; [|split; [exact H1|]].
      * rewrite !length_app. cbn [List.length]. lia.
      * rewrite H2, length_app. cbn [List.length]. lia.
Qed.

(** X16. [read_egse] gives every column of the header line a name and a
    unit, one for each field between tabs that is not empty, and accepts
    the header exactly when the number of columns fits one of its two
    layouts: 35 or 39 columns without a column [NOMHK_packets_time], 36
    or 40 columns with one. Every other header, for example one of 36
    columns without that column, ends with [RuntimeError]. *)
Theorem read_header_accepts (line : string) :
  let columns :=
    filter (fun field => negb (String.eqb field ""))
      (Posix.split Egse2l1a.tab line) in
  let names := fst (Egse2l1a.header_fields (Posix.split Egse2l1a.tab line) [] []) in
  let units := snd (Egse2l1a.header_fields (Posix.split Egse2l1a.tab line) [] []) in
  let nomhk := existsb (String.eqb "NOMHK_packets_time") names in
  let n := List.length columns in
  List.length names = n
  /\ List.length units = n
  /\ Egse2l1a.read_header line
     = if (if nomhk then Nat.eqb n 36 || Nat.eqb n 40
           else Nat.eqb n 35 || Nat.eqb n 39)%bool
       then Ok (names, units, Egse2l1a.formats names)
       else Raise (OtherError "RuntimeError").
Proof.
  cbv zeta.
  destruct (header_fields_lengths (Posix.split Egse2l1a.tab line) [] [] eq_refl)
    as [Hsame Hcount].
  cbn [List.length Nat.add] in Hcount.
  unfold Egse2l1a.read_header.
  destruct (Egse2l1a.header_fields (Posix.split Egse2l1a.tab line) [] [])
    as [names units].
  cbn [fst snd] in *.
  set (n := List.length (filter _ _)) in *.
  split; [exact Hcount|]. split; [now rewrite <- Hsame|].
  rewrite <- Hsame, Hcount, Nat.eqb_refl. cbn [andb].
  unfold Egse2l1a.formats. rewrite Hcount.
  destruct (existsb (String.eqb "NOMHK_packets_time") names);
    destruct (Nat.eqb_spec n 35) as [->|H35]; try reflexivity;
    destruct (Nat.eqb_spec n 36) as [->|H36]; try reflexivity;
    destruct (Nat.eqb_spec n 39) as [->|H39]; try reflexivity;
    destruct (Nat.eqb_spec n 40) as [->|H40]; try reflexivity;
    cbn [orb Egse2l1a.times repeat List.concat app List.length negb];
    match goal with
    | |- context [Nat.eqb n ?k] =>
        destruct (Nat.eqb_spec n k); [lia | reflexivity]
    end.
Qed.

(** ** The Grande spectrum *)

(** A row of the table: five radiances, smaller from one column to the
    next, all positive. *)
Definition decreasing_row (row : list R) : Prop :=
  exists a b c d e,
    row = [a; b; c; d; e] /\ (a > b)%R /\ (b > c)%R /\ (c > d)%R /\ (d > e)%R
    /\ (e > 0)%R.

Lemma GRANDE_SPECTRUM_rows : Forall decreasing_row OgseGrande.GRANDE_SPECTRUM.
Proof.
  unfold OgseGrande.GRANDE_SPECTRUM.
  repeat (constructor;
          [do 5 eexists; split; [reflexivity|]; repeat (split; [lra|]); lra|]).
  constructor.
Qed.

(** [a] is a positive radiance, and [b] a larger one. *)
Definition brighter (a b : float64) : Prop :=
  exists x y, a = Finite x /\ b = Finite y /\ (0 < x < y)%R.

Lemma radiance_columns (signal : list (list R)) (i j : nat) :
  Forall decreasing_row signal ->
  (i < j < 5)%nat ->
  Forall2 brighter (OgseGrande.radiance signal j) (OgseGrande.radiance signal i).
Proof.
  intros Hrows Hij. unfold OgseGrande.radiance.
  induction Hrows as [|row signal (a & b & c & d & e & -> & Hab & Hbc & Hcd & Hde & He) _ IH];
    cbn [map]; constructor; [|exact IH].
  unfold brighter. cbn [Float.mul]. do 2 eexists.
  split; [reflexivity|]. split; [reflexivity|].
  destruct i as [|[|[|[|i]]]], j as [|[|[|[|[|j]]]]]; try lia; cbn [nth]; lra.
Qed.

Lemma index_lamps (n_lamps : Z) (indx : nat) :
  OgseGrande.index n_lamps [9; 5; 3; 2; 1] = Ok indx ->
  n_lamps = nth indx [9; 5; 3; 2; 1] 0 /\ (indx < 5)%nat.
Proof.
  cbn [OgseGrande.index].
  repeat match goal with
         | |- context [?k =? n_lamps] =>
             destruct (Z.eqb_spec k n_lamps) as [<-|?]
         end; intros [= <-]; cbn; split; (reflexivity || lia).
Qed.

(** X18. [grande_spectrum] raises [ValueError] exactly when the number
    of lamps is not 1, 2, 3, 5 or 9. Otherwise it returns one wavelength
    and one radiance for each of the 61 points of the grid, from 350 nm
    on, and with more lamps the radiance is larger at every wavelength,
    and positive. *)
Theorem grande_spectrum_lamps (n_lamps : Z) :
  (~ In n_lamps [1; 2; 3; 5; 9] <->
   OgseGrande.grande_spectrum n_lamps = Raise ValueError)
  /\ (forall xds,
         OgseGrande.grande_spectrum n_lamps = Ok xds ->
         List.length (OgseGrande.values (OgseGrande.wavelength xds)) = 61%nat
         /\ List.length (OgseGrande.values (OgseGrande.spectral_radiance xds)) = 61%nat
         /\ hd NaN (OgseGrande.values (OgseGrande.wavelength xds)) = Float.of_int 350
         /\ forall more xds',
              n_lamps < more ->
              OgseGrande.grande_spectrum more = Ok xds' ->
              Forall2 brighter
                (OgseGrande.values (OgseGrande.spectral_radiance xds))
                (OgseGrande.values (OgseGrande.spectral_radiance xds'))).
Proof.
  unfold OgseGrande.grande_spectrum. split.
  - cbn [OgseGrande.index In].
    repeat match goal with
           | |- context [?k =? n_lamps] =>
               destruct (Z.eqb_spec k n_lamps) as [<-|?]
           end; split; try discriminate; try tauto; try reflexivity.
  - intros xds.
    destruct (OgseGrande.index n_lamps [9; 5; 3; 2; 1]) as [i|e] eqn:Hi;
      [|discriminate].
    intros Hxds.
    match type of Hxds with
    | Ok ?a = Ok _ => assert (E : xds = a) by congruence
    end.
    subst xds. clear Hxds.
    cbn [OgseGrande.values OgseGrande.wavelength OgseGrande.spectral_radiance].
    split; [reflexivity|]. split; [unfold OgseGrande.radiance; now rewrite length_map|].
    split; [reflexivity|].
    intros more xds' Hmore.
    destruct (OgseGrande.index more [9; 5; 3; 2; 1]) as [j|e] eqn:Hj;
      [|discriminate].
    intros Hxds'.
    match type of Hxds' with
    | Ok ?a = Ok _ => assert (E : xds' = a) by congruence
    end.
    subst xds'. clear Hxds'.
    cbn [OgseGrande.values OgseGrande.spectral_radiance].
    apply radiance_columns; [exact GRANDE_SPECTRUM_rows|].
    apply index_lamps in Hi as [-> Hi], Hj as [-> Hj].
    destruct i as [|[|[|[|[|i]]]]], j as [|[|[|[|[|j]]]]]; cbn [nth] in Hmore; lia.
Qed.

Lemma grande_spectrum_lamps_witness :
  exists xds xds',
    OgseGrande.grande_spectrum 3 = Ok xds
    /\ 3 < 5
    /\ OgseGrande.grande_spectrum 5 = Ok xds'
    /\ Forall2 brighter
         (OgseGrande.values (OgseGrande.spectral_radiance xds))
         (OgseGrande.values (OgseGrande.spectral_radiance xds')).
Proof.
  eexists. eexists.
  assert (H3 : OgseGrande.grande_spectrum 3 = Ok _) by reflexivity.
  assert (H5 : OgseGrande.grande_spectrum 5 = Ok _) by reflexivity.
  assert (Hlt : 3 < 5) by lia.
  split; [exact H3|]. split; [exact Hlt|]. split; [exact H5|].
  exact (proj2 (proj2 (proj2 (proj2 (grande_spectrum_lamps 3) _ H3)))
           5 _ Hlt H5).
Defined.
